(** * Engine-argument resolution of vLLM ([vllm/engine/arg_utils.py])

    A shallow embedding of [EngineArgs]: its dataclass, [__post_init__],
    [create_model_config], [create_load_config], [create_engine_config],
    the V0/V1 oracle [_is_v1_supported_oracle], the two default setters and
    the module-level notice helpers, followed by the properties proved of
    them.

    The methods mutate [self], write to the module logger and raise; they are
    embedded in a state-and-exception monad whose state is the [EngineArgs]
    object together with the chronological list of observable events (log
    records and sub-configuration constructions).  As in Python, an exception
    keeps every assignment and every log record made before it.

    What the module imports from the rest of vLLM (the [vllm.config]
    constructors, [vllm.envs], [current_platform], ...) is not part of this
    file's source; it is gathered in the record [World], over which every
    general statement quantifies. *)

From Stdlib Require Import String Ascii List ZArith Bool Lia Floats DecimalString.
Import ListNotations.
Open Scope string_scope.
Open Scope Z_scope.
Set Warnings "-register-all,-inexact-float,-notation-for-abbreviation".

(* ===================================================================== *)
(** * Python values and string operations *)
(* ===================================================================== *)

(** Untyped Python data carried around but never inspected beyond its outer
    shape: the [Dict[str, Any]] options, and objects such as a
    [KVTransferConfig] (kept as [PyObj] with their printed form).  A [dict]
    is an association list in insertion order. *)
Inductive pyval : Type :=
| PyNone
| PyBool (b : bool)
| PyInt (z : Z)
| PyFloat (f : float)
| PyStr (s : string)
| PyList (l : list pyval)
| PyDict (d : list (string * pyval))
| PyObj (repr : string).

Definition pydict : Type := list (string * pyval).

(** [d[k] = v]: replaces the value of an existing key in place, else appends. *)
Fixpoint dict_setitem (d : pydict) (k : string) (v : pyval) : pydict :=
  match d with
  | [] => [(k, v)]
  | (k', v') :: r =>
      if String.eqb k' k then (k', v) :: r else (k', v') :: dict_setitem r k v
  end.

(** [d.get(k)]. *)
Fixpoint dict_get (d : pydict) (k : string) : option pyval :=
  match d with
  | [] => None
  | (k', v) :: r => if String.eqb k' k then Some v else dict_get r k
  end.

Definition is_None {A} (o : option A) : bool :=
  match o with None => true | Some _ => false end.

Definition is_not_None {A} (o : option A) : bool := negb (is_None o).

(** Truth value of an [Optional[bool]], an [Optional[int]] and an
    [Optional[str]]: [None], [False], [0] and the empty string are false. *)
Definition truthy_bool (o : option bool) : bool :=
  match o with Some true => true | _ => false end.

Definition truthy_int (o : option Z) : bool :=
  match o with Some z => negb (z =? 0) | None => false end.

Definition truthy_str (o : option string) : bool :=
  match o with Some s => negb (String.eqb s "") | None => false end.

(** [==] on [Optional[str]] and [Optional[int]]. *)
Definition opt_str_eqb (a b : option string) : bool :=
  match a, b with
  | None, None => true
  | Some x, Some y => String.eqb x y
  | _, _ => false
  end.

Definition opt_int_eqb (a b : option Z) : bool :=
  match a, b with
  | None, None => true
  | Some x, Some y => x =? y
  | _, _ => false
  end.

(** [x in l] for a list of strings. *)
Definition str_in (x : string) (l : list string) : bool :=
  existsb (String.eqb x) l.

(** [s.split(sep)] for a one-character separator: never empty, the empty
    string splits into one empty field. *)
Fixpoint split (sep : ascii) (s : string) : list string :=
  match s with
  | EmptyString => [EmptyString]
  | String c r =>
      if Ascii.eqb c sep then EmptyString :: split sep r
      else match split sep r with
           | h :: t => String c h :: t
           | [] => [String c EmptyString]
           end
  end.

(** [s.lower()] on ASCII text. *)
Definition lower_ascii (c : ascii) : ascii :=
  let n := nat_of_ascii c in
  if (Nat.leb 65 n && Nat.leb n 90)%bool then ascii_of_nat (n + 32) else c.

Fixpoint lower (s : string) : string :=
  match s with
  | EmptyString => EmptyString
  | String c r => String (lower_ascii c) (lower r)
  end.

(** [p in s] for strings: [p] occurs somewhere in [s]. *)
Fixpoint substring_in (p s : string) : bool :=
  String.prefix p s ||
  match s with
  | EmptyString => false
  | String _ r => substring_in p r
  end.

(** [str(n)] and ["%d" % n] for an integer. *)
Definition str_of_int (z : Z) : string := NilZero.string_of_int (Z.to_int z).

(** [str(o)] of an [Optional[str]] inside an f-string. *)
Definition str_of_opt (o : option string) : string :=
  match o with Some s => s | None => "None" end.

Fixpoint join (sep : string) (l : list string) : string :=
  match l with
  | [] => ""
  | [x] => x
  | x :: r => x ++ sep ++ join sep r
  end.

(** [str(l)] of a list of strings whose elements need no escaping: each in
    single quotes, separated by a comma and a space, in brackets. *)
Definition repr_str_list (l : list string) : string :=
  "[" ++ join ", " (map (fun s => "'" ++ s ++ "'") l) ++ "]".

Definition newline : string := String (ascii_of_nat 10) EmptyString.


(* ===================================================================== *)
(** * The dataclass [EngineArgs] *)
(* ===================================================================== *)

(** One field per dataclass attribute, in declaration order.  Class-valued
    options ([distributed_executor_backend], [scheduler_cls], ...) and the
    string-valued enumerations [LoadFormat] and [ConfigFormat] are kept as
    strings; [float]s are IEEE binary64. *)

Record EngineArgs : Type := {
  model : string;
  served_model_name : option (string + list string);
  tokenizer : option string;
  hf_config_path : option string;
  task : string;
  skip_tokenizer_init : bool;
  tokenizer_mode : string;
  trust_remote_code : bool;
  allowed_local_media_path : string;
  download_dir : option string;
  load_format : string;
  config_format : string;
  dtype : string;
  kv_cache_dtype : string;
  seed : Z;
  max_model_len : option Z;
  distributed_executor_backend : option string;
  pipeline_parallel_size : Z;
  tensor_parallel_size : Z;
  max_parallel_loading_workers : option Z;
  block_size : option Z;
  enable_prefix_caching : option bool;
  disable_sliding_window : bool;
  use_v2_block_manager : bool;
  swap_space : float;
  cpu_offload_gb : float;
  gpu_memory_utilization : float;
  max_num_batched_tokens : option Z;
  max_num_partial_prefills : option Z;
  max_long_partial_prefills : option Z;
  long_prefill_token_threshold : option Z;
  max_num_seqs : option Z;
  max_logprobs : Z;
  disable_log_stats : bool;
  revision : option string;
  code_revision : option string;
  rope_scaling : option pydict;
  rope_theta : option float;
  hf_overrides : option pyval;
  tokenizer_revision : option string;
  quantization : option string;
  enforce_eager : option bool;
  max_seq_len_to_capture : Z;
  disable_custom_all_reduce : bool;
  tokenizer_pool_size : Z;
  tokenizer_pool_type : string;
  tokenizer_pool_extra_config : option pydict;
  limit_mm_per_prompt : option pydict;
  mm_processor_kwargs : option pydict;
  disable_mm_preprocessor_cache : bool;
  enable_lora : bool;
  enable_lora_bias : bool;
  max_loras : Z;
  max_lora_rank : Z;
  enable_prompt_adapter : bool;
  max_prompt_adapters : Z;
  max_prompt_adapter_token : Z;
  fully_sharded_loras : bool;
  lora_extra_vocab_size : Z;
  long_lora_scaling_factors : option (list float);
  lora_dtype : option string;
  max_cpu_loras : option Z;
  device : string;
  num_scheduler_steps : Z;
  multi_step_stream_outputs : bool;
  ray_workers_use_nsight : bool;
  num_gpu_blocks_override : option Z;
  num_lookahead_slots : Z;
  model_loader_extra_config : option pydict;
  ignore_patterns : option (string + list string);
  preemption_mode : option string;
  scheduler_delay_factor : float;
  enable_chunked_prefill : option bool;
  guided_decoding_backend : string;
  logits_processor_pattern : option string;
  speculative_model : option string;
  speculative_model_quantization : option string;
  speculative_draft_tensor_parallel_size : option Z;
  num_speculative_tokens : option Z;
  speculative_disable_mqa_scorer : option bool;
  speculative_max_model_len : option Z;
  speculative_disable_by_batch_size : option Z;
  ngram_prompt_lookup_max : option Z;
  ngram_prompt_lookup_min : option Z;
  spec_decoding_acceptance_method : string;
  typical_acceptance_sampler_posterior_threshold : option float;
  typical_acceptance_sampler_posterior_alpha : option float;
  qlora_adapter_name_or_path : option string;
  disable_logprobs_during_spec_decoding : option bool;
  show_hidden_metrics_for_version : option string;
  otlp_traces_endpoint : option string;
  collect_detailed_traces : option string;
  disable_async_output_proc : bool;
  scheduling_policy : string;
  scheduler_cls : string;
  override_neuron_config : option pydict;
  override_pooler_config : option pyval;
  compilation_config : option pyval;
  worker_cls : string;
  kv_transfer_config : option pyval;
  generation_config : option string;
  override_generation_config : option pydict;
  enable_sleep_mode : bool;
  model_impl : string;
  calculate_kv_scales : option bool;
  additional_config : option pydict;
  enable_reasoning : option bool;
  reasoning_parser : option string
}.

(** The dataclass defaults, which the source reads as class attributes
    ([EngineArgs.scheduling_policy] and the like). *)
Definition EngineArgs_default : EngineArgs := {|
  model := "facebook/opt-125m";
  served_model_name := None;
  tokenizer := None;
  hf_config_path := None;
  task := "auto";
  skip_tokenizer_init := false;
  tokenizer_mode := "auto";
  trust_remote_code := false;
  allowed_local_media_path := "";
  download_dir := None;
  load_format := "auto";
  config_format := "auto";
  dtype := "auto";
  kv_cache_dtype := "auto";
  seed := 0;
  max_model_len := None;
  distributed_executor_backend := None;
  pipeline_parallel_size := 1;
  tensor_parallel_size := 1;
  max_parallel_loading_workers := None;
  block_size := None;
  enable_prefix_caching := None;
  disable_sliding_window := false;
  use_v2_block_manager := true;
  swap_space := 4%float;
  cpu_offload_gb := 0%float;
  gpu_memory_utilization := 0.9%float;
  max_num_batched_tokens := None;
  max_num_partial_prefills := Some 1;
  max_long_partial_prefills := Some 1;
  long_prefill_token_threshold := Some 0;
  max_num_seqs := None;
  max_logprobs := 20;
  disable_log_stats := false;
  revision := None;
  code_revision := None;
  rope_scaling := None;
  rope_theta := None;
  hf_overrides := None;
  tokenizer_revision := None;
  quantization := None;
  enforce_eager := None;
  max_seq_len_to_capture := 8192;
  disable_custom_all_reduce := false;
  tokenizer_pool_size := 0;
  tokenizer_pool_type := "ray";
  tokenizer_pool_extra_config := None;
  limit_mm_per_prompt := None;
  mm_processor_kwargs := None;
  disable_mm_preprocessor_cache := false;
  enable_lora := false;
  enable_lora_bias := false;
  max_loras := 1;
  max_lora_rank := 16;
  enable_prompt_adapter := false;
  max_prompt_adapters := 1;
  max_prompt_adapter_token := 0;
  fully_sharded_loras := false;
  lora_extra_vocab_size := 256;
  long_lora_scaling_factors := None;
  lora_dtype := Some "auto";
  max_cpu_loras := None;
  device := "auto";
  num_scheduler_steps := 1;
  multi_step_stream_outputs := true;
  ray_workers_use_nsight := false;
  num_gpu_blocks_override := None;
  num_lookahead_slots := 0;
  model_loader_extra_config := None;
  ignore_patterns := None;
  preemption_mode := None;
  scheduler_delay_factor := 0%float;
  enable_chunked_prefill := None;
  guided_decoding_backend := "xgrammar";
  logits_processor_pattern := None;
  speculative_model := None;
  speculative_model_quantization := None;
  speculative_draft_tensor_parallel_size := None;
  num_speculative_tokens := None;
  speculative_disable_mqa_scorer := Some false;
  speculative_max_model_len := None;
  speculative_disable_by_batch_size := None;
  ngram_prompt_lookup_max := None;
  ngram_prompt_lookup_min := None;
  spec_decoding_acceptance_method := "rejection_sampler";
  typical_acceptance_sampler_posterior_threshold := None;
  typical_acceptance_sampler_posterior_alpha := None;
  qlora_adapter_name_or_path := None;
  disable_logprobs_during_spec_decoding := None;
  show_hidden_metrics_for_version := None;
  otlp_traces_endpoint := None;
  collect_detailed_traces := None;
  disable_async_output_proc := false;
  scheduling_policy := "fcfs";
  scheduler_cls := "vllm.core.scheduler.Scheduler";
  override_neuron_config := None;
  override_pooler_config := None;
  compilation_config := None;
  worker_cls := "auto";
  kv_transfer_config := None;
  generation_config := None;
  override_generation_config := None;
  enable_sleep_mode := false;
  model_impl := "auto";
  calculate_kv_scales := None;
  additional_config := None;
  enable_reasoning := None;
  reasoning_parser := None
|}.

(** Attribute assignment.  Only the attributes below are ever assigned by
    the methods modelled here; [reassign] rebuilds the object with new values
    for them and every other attribute untouched. *)
Definition reassign (s : EngineArgs)
    (model' : string)
    (tokenizer' : option string)
    (load_format' : string)
    (enable_prefix_caching' : option bool)
    (max_num_batched_tokens' : option Z)
    (max_num_seqs' : option Z)
    (quantization' : option string)
    (num_scheduler_steps' : Z)
    (model_loader_extra_config' : option pydict)
    (enable_chunked_prefill' : option bool)
    (compilation_config' : option pyval)
  : EngineArgs := {|
  model := model';
  served_model_name := served_model_name s;
  tokenizer := tokenizer';
  hf_config_path := hf_config_path s;
  task := task s;
  skip_tokenizer_init := skip_tokenizer_init s;
  tokenizer_mode := tokenizer_mode s;
  trust_remote_code := trust_remote_code s;
  allowed_local_media_path := allowed_local_media_path s;
  download_dir := download_dir s;
  load_format := load_format';
  config_format := config_format s;
  dtype := dtype s;
  kv_cache_dtype := kv_cache_dtype s;
  seed := seed s;
  max_model_len := max_model_len s;
  distributed_executor_backend := distributed_executor_backend s;
  pipeline_parallel_size := pipeline_parallel_size s;
  tensor_parallel_size := tensor_parallel_size s;
  max_parallel_loading_workers := max_parallel_loading_workers s;
  block_size := block_size s;
  enable_prefix_caching := enable_prefix_caching';
  disable_sliding_window := disable_sliding_window s;
  use_v2_block_manager := use_v2_block_manager s;
  swap_space := swap_space s;
  cpu_offload_gb := cpu_offload_gb s;
  gpu_memory_utilization := gpu_memory_utilization s;
  max_num_batched_tokens := max_num_batched_tokens';
  max_num_partial_prefills := max_num_partial_prefills s;
  max_long_partial_prefills := max_long_partial_prefills s;
  long_prefill_token_threshold := long_prefill_token_threshold s;
  max_num_seqs := max_num_seqs';
  max_logprobs := max_logprobs s;
  disable_log_stats := disable_log_stats s;
  revision := revision s;
  code_revision := code_revision s;
  rope_scaling := rope_scaling s;
  rope_theta := rope_theta s;
  hf_overrides := hf_overrides s;
  tokenizer_revision := tokenizer_revision s;
  quantization := quantization';
  enforce_eager := enforce_eager s;
  max_seq_len_to_capture := max_seq_len_to_capture s;
  disable_custom_all_reduce := disable_custom_all_reduce s;
  tokenizer_pool_size := tokenizer_pool_size s;
  tokenizer_pool_type := tokenizer_pool_type s;
  tokenizer_pool_extra_config := tokenizer_pool_extra_config s;
  limit_mm_per_prompt := limit_mm_per_prompt s;
  mm_processor_kwargs := mm_processor_kwargs s;
  disable_mm_preprocessor_cache := disable_mm_preprocessor_cache s;
  enable_lora := enable_lora s;
  enable_lora_bias := enable_lora_bias s;
  max_loras := max_loras s;
  max_lora_rank := max_lora_rank s;
  enable_prompt_adapter := enable_prompt_adapter s;
  max_prompt_adapters := max_prompt_adapters s;
  max_prompt_adapter_token := max_prompt_adapter_token s;
  fully_sharded_loras := fully_sharded_loras s;
  lora_extra_vocab_size := lora_extra_vocab_size s;
  long_lora_scaling_factors := long_lora_scaling_factors s;
  lora_dtype := lora_dtype s;
  max_cpu_loras := max_cpu_loras s;
  device := device s;
  num_scheduler_steps := num_scheduler_steps';
  multi_step_stream_outputs := multi_step_stream_outputs s;
  ray_workers_use_nsight := ray_workers_use_nsight s;
  num_gpu_blocks_override := num_gpu_blocks_override s;
  num_lookahead_slots := num_lookahead_slots s;
  model_loader_extra_config := model_loader_extra_config';
  ignore_patterns := ignore_patterns s;
  preemption_mode := preemption_mode s;
  scheduler_delay_factor := scheduler_delay_factor s;
  enable_chunked_prefill := enable_chunked_prefill';
  guided_decoding_backend := guided_decoding_backend s;
  logits_processor_pattern := logits_processor_pattern s;
  speculative_model := speculative_model s;
  speculative_model_quantization := speculative_model_quantization s;
  speculative_draft_tensor_parallel_size := speculative_draft_tensor_parallel_size s;
  num_speculative_tokens := num_speculative_tokens s;
  speculative_disable_mqa_scorer := speculative_disable_mqa_scorer s;
  speculative_max_model_len := speculative_max_model_len s;
  speculative_disable_by_batch_size := speculative_disable_by_batch_size s;
  ngram_prompt_lookup_max := ngram_prompt_lookup_max s;
  ngram_prompt_lookup_min := ngram_prompt_lookup_min s;
  spec_decoding_acceptance_method := spec_decoding_acceptance_method s;
  typical_acceptance_sampler_posterior_threshold := typical_acceptance_sampler_posterior_threshold s;
  typical_acceptance_sampler_posterior_alpha := typical_acceptance_sampler_posterior_alpha s;
  qlora_adapter_name_or_path := qlora_adapter_name_or_path s;
  disable_logprobs_during_spec_decoding := disable_logprobs_during_spec_decoding s;
  show_hidden_metrics_for_version := show_hidden_metrics_for_version s;
  otlp_traces_endpoint := otlp_traces_endpoint s;
  collect_detailed_traces := collect_detailed_traces s;
  disable_async_output_proc := disable_async_output_proc s;
  scheduling_policy := scheduling_policy s;
  scheduler_cls := scheduler_cls s;
  override_neuron_config := override_neuron_config s;
  override_pooler_config := override_pooler_config s;
  compilation_config := compilation_config';
  worker_cls := worker_cls s;
  kv_transfer_config := kv_transfer_config s;
  generation_config := generation_config s;
  override_generation_config := override_generation_config s;
  enable_sleep_mode := enable_sleep_mode s;
  model_impl := model_impl s;
  calculate_kv_scales := calculate_kv_scales s;
  additional_config := additional_config s;
  enable_reasoning := enable_reasoning s;
  reasoning_parser := reasoning_parser s
|}.

Definition set_model (v : string) (s : EngineArgs) : EngineArgs :=
  reassign s v (tokenizer s) (load_format s) (enable_prefix_caching s)
    (max_num_batched_tokens s) (max_num_seqs s) (quantization s)
    (num_scheduler_steps s) (model_loader_extra_config s)
    (enable_chunked_prefill s) (compilation_config s).

Definition set_tokenizer (v : option string) (s : EngineArgs) : EngineArgs :=
  reassign s (model s) v (load_format s) (enable_prefix_caching s)
    (max_num_batched_tokens s) (max_num_seqs s) (quantization s)
    (num_scheduler_steps s) (model_loader_extra_config s)
    (enable_chunked_prefill s) (compilation_config s).

Definition set_load_format (v : string) (s : EngineArgs) : EngineArgs :=
  reassign s (model s) (tokenizer s) v (enable_prefix_caching s)
    (max_num_batched_tokens s) (max_num_seqs s) (quantization s)
    (num_scheduler_steps s) (model_loader_extra_config s)
    (enable_chunked_prefill s) (compilation_config s).

Definition set_enable_prefix_caching (v : option bool) (s : EngineArgs) : EngineArgs :=
  reassign s (model s) (tokenizer s) (load_format s) v
    (max_num_batched_tokens s) (max_num_seqs s) (quantization s)
    (num_scheduler_steps s) (model_loader_extra_config s)
    (enable_chunked_prefill s) (compilation_config s).

Definition set_max_num_batched_tokens (v : option Z) (s : EngineArgs) : EngineArgs :=
  reassign s (model s) (tokenizer s) (load_format s) (enable_prefix_caching
    s) v (max_num_seqs s) (quantization s) (num_scheduler_steps s)
    (model_loader_extra_config s) (enable_chunked_prefill s)
    (compilation_config s).

Definition set_max_num_seqs (v : option Z) (s : EngineArgs) : EngineArgs :=
  reassign s (model s) (tokenizer s) (load_format s) (enable_prefix_caching
    s) (max_num_batched_tokens s) v (quantization s) (num_scheduler_steps s)
    (model_loader_extra_config s) (enable_chunked_prefill s)
    (compilation_config s).

Definition set_quantization (v : option string) (s : EngineArgs) : EngineArgs :=
  reassign s (model s) (tokenizer s) (load_format s) (enable_prefix_caching
    s) (max_num_batched_tokens s) (max_num_seqs s) v (num_scheduler_steps s)
    (model_loader_extra_config s) (enable_chunked_prefill s)
    (compilation_config s).

Definition set_num_scheduler_steps (v : Z) (s : EngineArgs) : EngineArgs :=
  reassign s (model s) (tokenizer s) (load_format s) (enable_prefix_caching
    s) (max_num_batched_tokens s) (max_num_seqs s) (quantization s) v
    (model_loader_extra_config s) (enable_chunked_prefill s)
    (compilation_config s).

Definition set_model_loader_extra_config (v : option pydict) (s : EngineArgs) : EngineArgs :=
  reassign s (model s) (tokenizer s) (load_format s) (enable_prefix_caching
    s) (max_num_batched_tokens s) (max_num_seqs s) (quantization s)
    (num_scheduler_steps s) v (enable_chunked_prefill s) (compilation_config
    s).

Definition set_enable_chunked_prefill (v : option bool) (s : EngineArgs) : EngineArgs :=
  reassign s (model s) (tokenizer s) (load_format s) (enable_prefix_caching
    s) (max_num_batched_tokens s) (max_num_seqs s) (quantization s)
    (num_scheduler_steps s) (model_loader_extra_config s) v
    (compilation_config s).

Definition set_compilation_config (v : option pyval) (s : EngineArgs) : EngineArgs :=
  reassign s (model s) (tokenizer s) (load_format s) (enable_prefix_caching
    s) (max_num_batched_tokens s) (max_num_seqs s) (quantization s)
    (num_scheduler_steps s) (model_loader_extra_config s)
    (enable_chunked_prefill s) v.


(* ===================================================================== *)
(** * Exceptions, events and the method monad *)
(* ===================================================================== *)

(** The exceptions this module raises itself ([ValueError],
    [NotImplementedError], a failed [assert]) and whatever a constructor or
    helper imported from elsewhere raises. *)
Inductive exn : Type :=
| ValueError (msg : string)
| NotImplementedError (msg : string)
| AssertionError
| ForeignError (cls : string) (msg : string).

Inductive outcome (A : Type) : Type :=
| Return (a : A)
| Raise (e : exn).
Arguments Return {A} a.
Arguments Raise {A} e.

Inductive level : Type := DEBUG | INFO | WARNING.

(** What an observer of a resolution sees besides its result: the records
    sent to [logger], and each sub-configuration object at the moment its
    constructor has returned. *)
Inductive event : Type :=
| Log (lvl : level) (msg : string)
| Constructed (cls : string).

(** The receiver of a method call: the [EngineArgs] object, whether it is an
    [AsyncEngineArgs] instance, and the events so far, oldest first. *)
Record state : Type := {
  self : EngineArgs;
  is_AsyncEngineArgs : bool;
  events : list event
}.

Definition M (A : Type) : Type := state -> outcome A * state.

Definition ret {A : Type} (a : A) : M A := fun st => (Return a, st).

Definition bind {A B : Type} (m : M A) (k : A -> M B) : M B :=
  fun st =>
    match m st with
    | (Return a, st') => k a st'
    | (Raise e, st') => (Raise e, st')
    end.

Definition raise {A : Type} (e : exn) : M A := fun st => (Raise e, st).

Definition lift {A : Type} (o : outcome A) : M A := fun st => (o, st).

Definition get_self : M EngineArgs := fun st => (Return (self st), st).

Definition isinstance_AsyncEngineArgs : M bool :=
  fun st => (Return (is_AsyncEngineArgs st), st).

Definition assign (f : EngineArgs -> EngineArgs) : M unit :=
  fun st =>
    (Return tt,
     {| self := f (self st);
        is_AsyncEngineArgs := is_AsyncEngineArgs st;
        events := events st |}).

Definition emit (e : event) : M unit :=
  fun st =>
    (Return tt,
     {| self := self st;
        is_AsyncEngineArgs := is_AsyncEngineArgs st;
        events := events st ++ [e] |}).

Declare Scope method_scope.
Delimit Scope method_scope with method.
Notation "x <- m ;; k" := (bind m (fun x => k))
  (at level 100, m at next level, right associativity) : method_scope.
Notation "m ;; k" := (bind m (fun _ => k))
  (at level 100, right associativity) : method_scope.
Notation "'when' c 'then' m" := (if c then m else ret tt)
  (at level 99, c at level 98, m at level 98) : method_scope.
Open Scope method_scope.

Definition logger_debug (msg : string) : M unit := emit (Log DEBUG msg).
Definition logger_info (msg : string) : M unit := emit (Log INFO msg).
Definition logger_warning (msg : string) : M unit := emit (Log WARNING msg).

(** A call [Cls(...)] of a constructor defined outside this module: the
    constructor validates its arguments and may raise; when it returns, the
    object holds the arguments it was given. *)
Definition construct {A : Type} (cls : string) (validate : A -> option exn)
    (v : A) : M A :=
  match validate v with
  | Some e => raise e
  | None => emit (Constructed cls) ;; ret v
  end.

(** The constructor calls made through [construct], in order.  A factory
    of another module that is called through [lift], such as
    [TokenizerPoolConfig.create_config], leaves no event. *)
Fixpoint constructed (l : list event) : list string :=
  match l with
  | [] => []
  | Constructed cls :: r => cls :: constructed r
  | Log _ _ :: r => constructed r
  end.

(** The log records of one level, in order. *)
Fixpoint logged (lvl : level) (l : list event) : list string :=
  match l with
  | [] => []
  | Log DEBUG m :: r =>
      match lvl with DEBUG => m :: logged lvl r | _ => logged lvl r end
  | Log INFO m :: r =>
      match lvl with INFO => m :: logged lvl r | _ => logged lvl r end
  | Log WARNING m :: r =>
      match lvl with WARNING => m :: logged lvl r | _ => logged lvl r end
  | Constructed _ :: r => logged lvl r
  end.


(* ===================================================================== *)
(** * The sub-configurations *)
(* ===================================================================== *)

(** Every sub-configuration class is defined in [vllm/config.py].  Here each
    is the record of the keyword arguments this module passes to its
    constructor, under the keywords' names. *)


(** [DeviceConfig(device=...)]. *)
Module DeviceConfig.
Record t : Type := {
  device : string
}.
End DeviceConfig.

(** [ModelConfig]: the keyword arguments [create_model_config] passes, and
    the attributes of the constructed object that this module reads back
    (they are computed by the constructor from the model's files). *)
Module ModelConfig.
Module kw.
Record t : Type := {
  model : string;
  hf_config_path : option string;
  task : string;
  tokenizer : option string;
  tokenizer_mode : string;
  trust_remote_code : bool;
  allowed_local_media_path : string;
  dtype : string;
  seed : Z;
  revision : option string;
  code_revision : option string;
  rope_scaling : option pydict;
  rope_theta : option float;
  hf_overrides : option pyval;
  tokenizer_revision : option string;
  max_model_len : option Z;
  quantization : option string;
  enforce_eager : option bool;
  max_seq_len_to_capture : Z;
  max_logprobs : Z;
  disable_sliding_window : bool;
  skip_tokenizer_init : bool;
  served_model_name : option (string + list string);
  limit_mm_per_prompt : option pydict;
  use_async_output_proc : bool;
  config_format : string;
  mm_processor_kwargs : option pydict;
  disable_mm_preprocessor_cache : bool;
  override_neuron_config : option pydict;
  override_pooler_config : option pyval;
  logits_processor_pattern : option string;
  generation_config : option string;
  override_generation_config : option pydict;
  enable_sleep_mode : bool;
  model_impl : string
}.
End kw.
Record attributes : Type := {
  attr_task : string;
  attr_architectures : list string;
    attr_is_v1_compatible : bool;
  attr_use_mla : bool;
  attr_is_multimodal_model : bool;
  attr_is_attention_free : bool;
  attr_max_model_len : Z;
  attr_runner_type : string;
  attr_sliding_window : option Z
}.
Record t : Type := {
  kwargs : kw.t;
  attrs : attributes
}.
Definition task (m : t) : string := attr_task (attrs m).
Definition architectures (m : t) : list string := attr_architectures (attrs m).
Definition is_v1_compatible (m : t) : bool := attr_is_v1_compatible (attrs m).
Definition use_mla (m : t) : bool := attr_use_mla (attrs m).
Definition is_multimodal_model (m : t) : bool := attr_is_multimodal_model (attrs m).
Definition is_attention_free (m : t) : bool := attr_is_attention_free (attrs m).
Definition max_model_len (m : t) : Z := attr_max_model_len (attrs m).
Definition runner_type (m : t) : string := attr_runner_type (attrs m).
Definition get_sliding_window (m : t) : option Z := attr_sliding_window (attrs m).
End ModelConfig.

(** [CacheConfig(...)] as built at lines 1197-1209. *)
Module CacheConfig.
Record t : Type := {
  block_size : option Z;
  gpu_memory_utilization : float;
  swap_space : float;
  cache_dtype : string;
  is_attention_free : bool;
  num_gpu_blocks_override : option Z;
  sliding_window : option Z;
  enable_prefix_caching : option bool;
  cpu_offload_gb : float;
  calculate_kv_scales : option bool;
    use_v1 : bool
}.
End CacheConfig.

(** What [TokenizerPoolConfig.create_config] returns when it returns a pool. *)
Module TokenizerPoolConfig.
Record t : Type := {
  pool_size : Z;
  pool_type : string;
  extra_config : pydict
}.
End TokenizerPoolConfig.

(** [ParallelConfig(...)] as built at lines 1210-1223. *)
Module ParallelConfig.
Record t : Type := {
  pipeline_parallel_size : Z;
  tensor_parallel_size : Z;
  max_parallel_loading_workers : option Z;
  disable_custom_all_reduce : bool;
  tokenizer_pool_config : option TokenizerPoolConfig.t;
  ray_workers_use_nsight : bool;
  distributed_executor_backend : option string;
  worker_cls : string
}.
End ParallelConfig.

(** [SpeculativeConfig]: the keyword arguments handed to
    [maybe_create_spec_config] (besides the target model and parallel
    configurations), and of the object it may return the one attribute read
    back, [num_lookahead_slots]. *)
Module SpeculativeConfig.
Module kw.
Record t : Type := {
  target_dtype : string;
  speculative_model : option string;
  speculative_model_quantization : option string;
  speculative_draft_tensor_parallel_size : option Z;
  num_speculative_tokens : option Z;
  speculative_disable_mqa_scorer : option bool;
  speculative_disable_by_batch_size : option Z;
  speculative_max_model_len : option Z;
  enable_chunked_prefill : option bool;
  disable_log_stats : bool;
  ngram_prompt_lookup_max : option Z;
  ngram_prompt_lookup_min : option Z;
  draft_token_acceptance_method : string;
  typical_acceptance_sampler_posterior_threshold : option float;
  typical_acceptance_sampler_posterior_alpha : option float;
  disable_logprobs : option bool
}.
End kw.
Record t : Type := {
  kwargs : kw.t;
  num_lookahead_slots : Z
}.
End SpeculativeConfig.

(** [SchedulerConfig(...)] as built at lines 1276-1295. *)
Module SchedulerConfig.
Record t : Type := {
  runner_type : string;
  max_num_batched_tokens : option Z;
  max_num_seqs : option Z;
  max_model_len : Z;
  num_lookahead_slots : Z;
  delay_factor : float;
  enable_chunked_prefill : option bool;
  is_multimodal_model : bool;
  preemption_mode : option string;
  num_scheduler_steps : Z;
  multi_step_stream_outputs : bool;
  send_delta_data : bool;
  policy : string;
  scheduler_cls : string;
  max_num_partial_prefills : option Z;
  max_long_partial_prefills : option Z;
  long_prefill_token_threshold : option Z
}.
End SchedulerConfig.

(** [LoRAConfig(...)] as built at lines 1297-1306. *)
Module LoRAConfig.
Record t : Type := {
  bias_enabled : bool;
  max_lora_rank : Z;
  max_loras : Z;
  fully_sharded_loras : bool;
  lora_extra_vocab_size : Z;
  long_lora_scaling_factors : option (list float);
  lora_dtype : option string;
  max_cpu_loras : option Z
}.

(** Modelled from the spec: the constructor's [__post_init__] lives in
      [vllm/config.py], outside this module.  The specification gives its
      one rule that matters here: [max_cpu_loras] defaults to [max_loras]
      when it arrives unset. *)
Definition __post_init__ (c : t) : t :=
    match max_cpu_loras c with
    | Some _ => c
    | None =>
        {| bias_enabled := bias_enabled c;
           max_lora_rank := max_lora_rank c;
           max_loras := max_loras c;
           fully_sharded_loras := fully_sharded_loras c;
           lora_extra_vocab_size := lora_extra_vocab_size c;
           long_lora_scaling_factors := long_lora_scaling_factors c;
           lora_dtype := lora_dtype c;
           max_cpu_loras := Some (max_loras c) |}
    end.
End LoRAConfig.

(** [LoadConfig(...)] as built by [create_load_config]. *)
Module LoadConfig.
Record t : Type := {
  load_format : string;
  download_dir : option string;
  model_loader_extra_config : option pydict;
  ignore_patterns : option (string + list string)
}.
End LoadConfig.

(** [PromptAdapterConfig(...)], lines 1317-1320. *)
Module PromptAdapterConfig.
Record t : Type := {
  max_prompt_adapters : Z;
  max_prompt_adapter_token : Z
}.
End PromptAdapterConfig.

(** [DecodingConfig(...)], lines 1322-1326. *)
Module DecodingConfig.
Record t : Type := {
  guided_decoding_backend : string;
  reasoning_backend : option string
}.
End DecodingConfig.

(** [ObservabilityConfig(...)], lines 1341-1348. *)
Module ObservabilityConfig.
Record t : Type := {
  show_hidden_metrics : bool;
  otlp_traces_endpoint : option string;
  collect_model_forward_time : bool;
  collect_model_execute_time : bool
}.
End ObservabilityConfig.

(** The resolved configuration, [VllmConfig(...)], lines 1350-1366. *)
Module VllmConfig.
Record t : Type := {
  model_config : ModelConfig.t;
  cache_config : CacheConfig.t;
  parallel_config : ParallelConfig.t;
  scheduler_config : SchedulerConfig.t;
  device_config : DeviceConfig.t;
  lora_config : option LoRAConfig.t;
  speculative_config : option SpeculativeConfig.t;
  load_config : LoadConfig.t;
  decoding_config : DecodingConfig.t;
  observability_config : ObservabilityConfig.t;
  prompt_adapter_config : option PromptAdapterConfig.t;
  compilation_config : option pyval;
  kv_transfer_config : option pyval;
  additional_config : option pydict;
    use_v1 : bool
}.
End VllmConfig.


(* ===================================================================== *)
(** * The rest of vLLM, as seen from this module *)
(* ===================================================================== *)

(** [vllm.usage.usage_lib.UsageContext]: the two members this module names,
    and any other member by its value. *)
Inductive UsageContext : Type :=
| LLM_CLASS
| OPENAI_API_SERVER
| OTHER_CONTEXT (value : string).

Definition UsageContext_eqb (a b : UsageContext) : bool :=
  match a, b with
  | LLM_CLASS, LLM_CLASS => true
  | OPENAI_API_SERVER, OPENAI_API_SERVER => true
  | OTHER_CONTEXT x, OTHER_CONTEXT y => String.eqb x y
  | _, _ => false
  end.

(** [vllm.platforms.current_platform], as probed by this module. *)
Record Platform : Type := {
  is_cuda : bool;
  is_cpu : bool;
  get_device_capability_major : Z;
  get_device_name : string;
  device_type : string
}.

(** [vllm.envs]: the variables read here; [is_set_VLLM_USE_V1] is
    [envs.is_set("VLLM_USE_V1")]. *)
Record Envs : Type := {
  VLLM_USE_V1 : bool;
  is_set_VLLM_USE_V1 : bool;
  VLLM_USE_V1_BY_DEFAULT : bool;
  VLLM_CI_USE_S3 : bool;
  VLLM_USE_RAY_SPMD_WORKER : bool
}.

(** Everything imported: the platform, the environment, constants, helper
    functions and, for each constructor, the validation it performs on the
    arguments this module gives it ([None]: it returns normally). *)
Record World : Type := {
  current_platform : Platform;
  envs : Envs;
  pre_register_and_update : outcome unit;
  load_general_plugins : outcome unit;
  UsageContext_value : UsageContext -> string;
  LoadFormat_AUTO : string;
  LoadFormat_RUNAI_STREAMER : string;
  MODELS_ON_S3 : list string;
  MODEL_WEIGHTS_S3_BUCKET : string;
  check_gguf_file : string -> bool;
  prev_minor_version_was : string -> bool;
  CompilationConfig_from_cli : pyval -> outcome pyval;
  DeviceConfig_init : DeviceConfig.t -> option exn;
  ModelConfig_init : ModelConfig.kw.t -> outcome ModelConfig.attributes;
  CacheConfig_init : CacheConfig.t -> option exn;
  TokenizerPoolConfig_create_config :
    Z -> string -> option pydict -> outcome (option TokenizerPoolConfig.t);
  ParallelConfig_init : ParallelConfig.t -> option exn;
  ParallelConfig_use_ray : ParallelConfig.t -> bool;
  SpeculativeConfig_maybe_create_spec_config :
    ModelConfig.t -> ParallelConfig.t -> SpeculativeConfig.kw.t ->
    outcome (option Z);
  SchedulerConfig_init : SchedulerConfig.t -> option exn;
  LoRAConfig_init : LoRAConfig.t -> option exn;
  LoadConfig_init : LoadConfig.t -> option exn;
  PromptAdapterConfig_init : PromptAdapterConfig.t -> option exn;
  DecodingConfig_init : DecodingConfig.t -> option exn;
  ObservabilityConfig_init : ObservabilityConfig.t -> option exn;
  VllmConfig_init : VllmConfig.t -> option exn
}.


(* ===================================================================== *)
(** * Module-level helpers (lines 35 and 1663-1685) *)
(* ===================================================================== *)

Definition ALLOWED_DETAILED_TRACE_MODULES : list string :=
  ["model"; "worker"; "all"].

Definition _raise_or_warning (w : World) (feature_name : string)
    (recommend_to_remove : bool) : M unit :=
  if VLLM_USE_V1 (envs w) then
    raise (NotImplementedError
             ("VLLM_USE_V1=1 is not supported with " ++ feature_name))
  else
    let msg := feature_name ++ " is not supported by the V1 Engine. " in
    let msg := msg ++ "Falling back to V0. " in
    let msg :=
      if recommend_to_remove then
        (msg ++ "We recommend to remove " ++ feature_name
             ++ " from your config")
          ++ "in favor of the V1 Engine."
      else msg in
    logger_warning msg.

Definition _experimental_warning (feature_name : string) : M unit :=
  logger_warning
    ("Detected VLLM_USE_V1=1 with " ++ feature_name
     ++ ". Usage shouldbe considered experimental. Please report any "
     ++ "issues on Github.").

Definition _fallback_info (feature_name : string) : M unit :=
  logger_info
    (feature_name ++ " is experimental on VLLM_USE_V1=1. "
     ++ "Falling back to V0 Engine.").

(* ===================================================================== *)
(** * [EngineArgs] methods *)
(* ===================================================================== *)

(** Lines 219-232.  [isinstance(x, (int, dict))] also holds of a [bool]. *)
Definition __post_init__ (w : World) : M unit :=
  s <- get_self ;;
  (when negb (truthy_str (tokenizer s)) then
     assign (set_tokenizer (Some (model s)))) ;;
  s <- get_self ;;
  match compilation_config s with
  | Some (PyInt _ as v) | Some (PyBool _ as v) | Some (PyDict _ as v) =>
      c <- lift (CompilationConfig_from_cli w v) ;;
      assign (set_compilation_config (Some c))
  | _ => ret tt
  end ;;
  lift (load_general_plugins w).

(** Creating an [EngineArgs] (or [AsyncEngineArgs]) from field values: the
    dataclass stores the fields and runs [__post_init__]. *)
Definition new_EngineArgs (w : World) (async : bool) (fields : EngineArgs)
  : outcome unit * state :=
  __post_init__ w
    {| self := fields; is_AsyncEngineArgs := async; events := [] |}.

(** Lines 1083-1132. *)
Definition create_model_config (w : World) : M ModelConfig.t :=
  s <- get_self ;;
  (when check_gguf_file w (model s) then
     (assign (set_quantization (Some "gguf")) ;;
      assign (set_load_format "gguf"))) ;;
  s <- get_self ;;
  async <- isinstance_AsyncEngineArgs ;;
  (when negb async && VLLM_CI_USE_S3 (envs w)
        && str_in (model s) (MODELS_ON_S3 w)
        && String.eqb (load_format s) (LoadFormat_AUTO w) then
     (assign (set_model (MODEL_WEIGHTS_S3_BUCKET w ++ "/" ++ model s)) ;;
      assign (set_load_format (LoadFormat_RUNAI_STREAMER w)))) ;;
  s <- get_self ;;
  let kwargs :=
    {| ModelConfig.kw.model := model s;
       ModelConfig.kw.hf_config_path := hf_config_path s;
       ModelConfig.kw.task := task s;
       ModelConfig.kw.tokenizer := tokenizer s;
       ModelConfig.kw.tokenizer_mode := tokenizer_mode s;
       ModelConfig.kw.trust_remote_code := trust_remote_code s;
       ModelConfig.kw.allowed_local_media_path := allowed_local_media_path s;
       ModelConfig.kw.dtype := dtype s;
       ModelConfig.kw.seed := seed s;
       ModelConfig.kw.revision := revision s;
       ModelConfig.kw.code_revision := code_revision s;
       ModelConfig.kw.rope_scaling := rope_scaling s;
       ModelConfig.kw.rope_theta := rope_theta s;
       ModelConfig.kw.hf_overrides := hf_overrides s;
       ModelConfig.kw.tokenizer_revision := tokenizer_revision s;
       ModelConfig.kw.max_model_len := max_model_len s;
       ModelConfig.kw.quantization := quantization s;
       ModelConfig.kw.enforce_eager := enforce_eager s;
       ModelConfig.kw.max_seq_len_to_capture := max_seq_len_to_capture s;
       ModelConfig.kw.max_logprobs := max_logprobs s;
       ModelConfig.kw.disable_sliding_window := disable_sliding_window s;
       ModelConfig.kw.skip_tokenizer_init := skip_tokenizer_init s;
       ModelConfig.kw.served_model_name := served_model_name s;
       ModelConfig.kw.limit_mm_per_prompt := limit_mm_per_prompt s;
       ModelConfig.kw.use_async_output_proc :=
         negb (disable_async_output_proc s);
       ModelConfig.kw.config_format := config_format s;
       ModelConfig.kw.mm_processor_kwargs := mm_processor_kwargs s;
       ModelConfig.kw.disable_mm_preprocessor_cache :=
         disable_mm_preprocessor_cache s;
       ModelConfig.kw.override_neuron_config := override_neuron_config s;
       ModelConfig.kw.override_pooler_config := override_pooler_config s;
       ModelConfig.kw.logits_processor_pattern := logits_processor_pattern s;
       ModelConfig.kw.generation_config := generation_config s;
       ModelConfig.kw.override_generation_config :=
         override_generation_config s;
       ModelConfig.kw.enable_sleep_mode := enable_sleep_mode s;
       ModelConfig.kw.model_impl := model_impl s |} in
  attrs <- lift (ModelConfig_init w kwargs) ;;
  emit (Constructed "ModelConfig") ;;
  ret {| ModelConfig.kwargs := kwargs; ModelConfig.attrs := attrs |}.

(** Lines 1134-1156. *)
Definition create_load_config (w : World) : M LoadConfig.t :=
  s <- get_self ;;
  if (opt_str_eqb (quantization s) (Some "bitsandbytes")
      || is_not_None (qlora_adapter_name_or_path s))
     && negb (String.eqb (load_format s) "bitsandbytes") then
    raise (ValueError
             ("BitsAndBytes quantization and QLoRA adapter only support "
              ++ "'bitsandbytes' load format, but got " ++ load_format s))
  else if (String.eqb (load_format s) "bitsandbytes"
           || is_not_None (qlora_adapter_name_or_path s))
          && negb (opt_str_eqb (quantization s) (Some "bitsandbytes")) then
    raise (ValueError
             ("BitsAndBytes load format and QLoRA adapter only support "
              ++ "'bitsandbytes' quantization, but got "
              ++ str_of_opt (quantization s)))
  else
    construct "LoadConfig" (LoadConfig_init w)
      {| LoadConfig.load_format := load_format s;
         LoadConfig.download_dir := download_dir s;
         LoadConfig.model_loader_extra_config := model_loader_extra_config s;
         LoadConfig.ignore_patterns := ignore_patterns s |}.

(** ** The V0/V1 oracle (lines 1370-1543) *)

(** [if cond: _raise_or_warning(...); return False], else the rest. *)
Definition unsupported (w : World) (cond : bool) (feature_name : string)
    (recommend_to_remove : bool) (rest : M bool) : M bool :=
  if cond then
    _raise_or_warning w feature_name recommend_to_remove ;; ret false
  else rest.

(** [if cond:] warn and go on under [VLLM_USE_V1], else
    [_fallback_info(...); return False]. *)
Definition experimental (w : World) (cond : bool) (feature_name : string)
    (rest : M bool) : M bool :=
  if cond then
    if VLLM_USE_V1 (envs w) then _experimental_warning feature_name ;; rest
    else _fallback_info feature_name ;; ret false
  else rest.

Definition _is_v1_supported_oracle (w : World) (model_config : ModelConfig.t)
  : M bool :=
  s <- get_self ;;
  let D := EngineArgs_default in
  let current_platform := current_platform w in
  (* Low priority feature flags that are not supported on V1. *)
  unsupported w
    (negb (opt_str_eqb (logits_processor_pattern s)
             (logits_processor_pattern D)))
    "--logits-processor-pattern" false (
  unsupported w
    (negb (opt_str_eqb (preemption_mode s) (preemption_mode D)))
    "--preemption-mode" true (
  unsupported w
    (negb (Bool.eqb (disable_async_output_proc s)
             (disable_async_output_proc D)))
    "--disable-async-output-proc" true (
  unsupported w
    (negb (String.eqb (scheduling_policy s) (scheduling_policy D)))
    "--scheduling-policy" false (
  unsupported w
    (negb (String.eqb (scheduler_cls s) (scheduler_cls D)))
    "--scheduler-cls" false (
  unsupported w
    (negb (String.eqb (worker_cls s) (worker_cls D)))
    "--worker-cls" false (
  unsupported w
    (negb (num_scheduler_steps s =? num_scheduler_steps D))
    "--num-scheduler-steps" true (
  unsupported w
    (negb (PrimFloat.eqb (scheduler_delay_factor s)
             (scheduler_delay_factor D)))
    "--scheduler-delay-factor" true (
  unsupported w
    (* the default is [None], from which every dict differs *)
    (is_not_None (additional_config s))
    "--additional-config" false (
  (* Important feature flags we plan to support on V1 but not yet. *)
  unsupported w
    (negb (String.eqb (guided_decoding_backend s) "xgrammar"))
    "--guided-decoding-backend" false (
  unsupported w
    (is_cuda current_platform
     && (get_device_capability_major current_platform <? 8))
    "Compute Capacity < 8.0" false (
  unsupported w
    (negb (String.eqb (kv_cache_dtype s) "auto"))
    "--kv-cache-dtype" false (
  unsupported w
    (enable_prompt_adapter s)
    "--enable-prompt-adapter" false (
  unsupported w
    (negb (str_in (ModelConfig.task model_config) ["generate"]))
    ("--task " ++ ModelConfig.task model_config) false (
  unsupported w
    (negb (ModelConfig.is_v1_compatible model_config))
    (repr_str_list (ModelConfig.architectures model_config)) false (
  unsupported w
    (negb (opt_int_eqb (max_num_partial_prefills s)
             (max_num_partial_prefills D))
     || negb (opt_int_eqb (max_long_partial_prefills s)
                (max_long_partial_prefills D))
     || negb (opt_int_eqb (long_prefill_token_threshold s)
                (long_prefill_token_threshold D)))
    "Concurrent Partial Prefill" false (
  unsupported w
    (truthy_str (otlp_traces_endpoint s)
     || truthy_str (collect_detailed_traces s))
    "--otlp-traces-endpoint" false (
  unsupported w
    ((is_not_None (speculative_model s)
      || is_not_None (num_speculative_tokens s))
     && negb (opt_str_eqb (speculative_model s) (Some "[ngram]")))
    "Speculative Decoding" false (
  unsupported w
    (* the default is [None] *)
    (is_not_None (kv_transfer_config s))
    "--kv-transfer-config" false (
  (* Experimental features: opt-in under VLLM_USE_V1, else fall back. *)
  experimental w (ModelConfig.use_mla model_config) "MLA" (
  experimental w (enable_lora s) "LoRA" (
  experimental w (1 <? pipeline_parallel_size s) "Pipeline Parallel" (
  experimental w (opt_str_eqb (speculative_model s) (Some "[ngram]"))
    "ngram Speculative Decoding" (
  experimental w (negb (is_cuda current_platform))
    (device_type current_platform) (
  ret true)))))))))))))))))))))))).

(** ** Defaults for the chosen engine (lines 1545-1638) *)

Definition _set_default_args_v0 (w : World) (model_config : ModelConfig.t)
  : M unit :=
  let max_model_len := ModelConfig.max_model_len model_config in
  let use_long_context := 32768 <? max_model_len in
  s <- get_self ;;
  (when is_None (enable_chunked_prefill s) then
     ((* Chunked prefill not supported for Multimodal or MLA in V0. *)
      (if ModelConfig.is_multimodal_model model_config
          || ModelConfig.use_mla model_config then
         assign (set_enable_chunked_prefill (Some false))
       else if use_long_context then
         let is_gpu := is_cuda (current_platform w) in
         let use_sliding_window :=
           is_not_None (ModelConfig.get_sliding_window model_config) in
         let use_spec_decode := is_not_None (speculative_model s) in
         when is_gpu && negb use_sliding_window && negb use_spec_decode
              && negb (enable_lora s)
              && negb (enable_prompt_adapter s)
              && negb (String.eqb (ModelConfig.runner_type model_config)
                         "pooling") then
           (assign (set_enable_chunked_prefill (Some true)) ;;
            logger_warning
              ("Chunked prefill is enabled by default for models "
               ++ "with max_model_len > 32K. Chunked prefill might "
               ++ "not work with some features or models. If you "
               ++ "encounter any issues, please disable by launching"
               ++ "with --enable-chunked-prefill=False."))
       else ret tt) ;;
      s <- get_self ;;
      when is_None (enable_chunked_prefill s) then
        assign (set_enable_chunked_prefill (Some false)))) ;;
  s <- get_self ;;
  (if negb (truthy_bool (enable_chunked_prefill s)) && use_long_context then
     logger_warning
       ("The model has a long context length (" ++ str_of_int max_model_len
        ++ "). This may cause"
        ++ "OOM during the initial memory profiling phase, or result "
        ++ "in low performance due to small KV cache size. Consider "
        ++ "setting --max-model-len to a smaller value.")
   else if truthy_bool (enable_chunked_prefill s)
           && String.eqb (ModelConfig.runner_type model_config) "pooling" then
     raise (ValueError "Chunked prefill is not supported for pooling models")
   else ret tt) ;;
  (* Disable prefix caching for multimodal models for VLLM_V0. *)
  s <- get_self ;;
  (when ModelConfig.is_multimodal_model model_config
        && truthy_bool (enable_prefix_caching s) then
     (logger_warning
        ("--enable-prefix-caching is not supported for multimodal "
         ++ "models in V0 and has been disabled.") ;;
      assign (set_enable_prefix_caching (Some false)))) ;;
  (* Set max_num_seqs to 256 for VLLM_V0. *)
  s <- get_self ;;
  when is_None (max_num_seqs s) then assign (set_max_num_seqs (Some 256)).

(** [d[k]] guarded by [k in d], for the defaults table keyed by
    [UsageContext]; [None] is never a key. *)
Fixpoint usage_lookup (k : option UsageContext) (d : list (UsageContext * Z))
  : option Z :=
  match k, d with
  | Some u, (u', v) :: r =>
      if UsageContext_eqb u' u then Some v else usage_lookup k r
  | _, _ => None
  end.

Definition _set_default_args_v1 (w : World)
    (usage_context : option UsageContext) : M unit :=
  (* V1 always uses chunked prefills. *)
  assign (set_enable_chunked_prefill (Some true)) ;;
  let device_name := lower (get_device_name (current_platform w)) in
  let default_max_num_batched_tokens :=
    if substring_in "h100" device_name || substring_in "h200" device_name then
      (* For H100 and H200, we use larger default values. *)
      [(LLM_CLASS, 16384); (OPENAI_API_SERVER, 8192)]
    else
      [(LLM_CLASS, 8192); (OPENAI_API_SERVER, 2048)] in
  let use_context_value :=
    match usage_context with
    | Some u => UsageContext_value w u
    | None => "None"
    end in
  s <- get_self ;;
  match (if is_None (max_num_batched_tokens s)
         then usage_lookup usage_context default_max_num_batched_tokens
         else None) with
  | Some n =>
      assign (set_max_num_batched_tokens (Some n)) ;;
      logger_debug
        ("Setting max_num_batched_tokens to " ++ str_of_int n ++ " for "
         ++ use_context_value ++ " usage context.")
  | None => ret tt
  end ;;
  let default_max_num_seqs := 1024 in
  s <- get_self ;;
  when is_None (max_num_seqs s) then
    (assign (set_max_num_seqs (Some default_max_num_seqs)) ;;
     logger_debug
       ("Setting max_num_seqs to " ++ str_of_int default_max_num_seqs
        ++ " for " ++ use_context_value ++ " usage context.")).


(** ** [create_engine_config] (lines 1158-1368)

    The method is one long body.  It is embedded as six consecutive steps,
    each a block of the body that receives the local variables bound so far;
    [create_engine_config] runs them in order.  The prefixes
    [engine_upto_*] name the body cut after a step, for statements about a
    resolution that has come that far. *)

(** Locals after lines 1162-1195. *)
Record locals_runtime : Type := {
  device_config : DeviceConfig.t;
  model_config : ModelConfig.t;
  use_v1 : bool
}.

(** Locals after lines 1197-1250. *)
Record locals_speculative : Type := {
  in_runtime : locals_runtime;
  cache_config : CacheConfig.t;
  parallel_config : ParallelConfig.t;
  speculative_config : option SpeculativeConfig.t
}.

(** Locals after lines 1252-1295. *)
Record locals_scheduler : Type := {
  in_speculative : locals_speculative;
  scheduler_config : SchedulerConfig.t
}.

(** Locals after lines 1297-1315. *)
Record locals_load : Type := {
  in_scheduler : locals_scheduler;
  lora_config : option LoRAConfig.t;
  load_config : LoadConfig.t
}.

(** Locals after lines 1317-1331. *)
Record locals_decoding : Type := {
  in_load : locals_load;
  prompt_adapter_config : option PromptAdapterConfig.t;
  decoding_config : DecodingConfig.t;
  show_hidden_metrics : bool
}.

(** Lines 1162-1195: device and model configuration, the choice between the
    V0 and the V1 engine, and that engine's defaults. *)
Definition choose_runtime (w : World) (usage_context : option UsageContext)
  : M locals_runtime :=
  lift (pre_register_and_update w) ;;
  s <- get_self ;;
  device_config <-
    construct "DeviceConfig" (DeviceConfig_init w)
      {| DeviceConfig.device := device s |} ;;
  model_config <- create_model_config w ;;
  supported <- _is_v1_supported_oracle w model_config ;;
  use_v1 <-
    (if supported then
       let try_by_default :=
         negb (is_set_VLLM_USE_V1 (envs w))
         && VLLM_USE_V1_BY_DEFAULT (envs w) in
       if VLLM_USE_V1 (envs w) || try_by_default then ret true
       else
         logger_info
           ("===================================================" ++ newline
            ++ newline
            ++ "Detected EngineConfig is compatible with VLLM V1"
            ++ "Set VLLM_USE_V1=1 before launch to enable V1." ++ newline
            ++ newline
            ++ "==================================================") ;;
         ret false
     else ret false) ;;
  (when is_set_VLLM_USE_V1 (envs w) then
     if Bool.eqb use_v1 (VLLM_USE_V1 (envs w)) then ret tt
     else raise AssertionError) ;;
  (* Set default arguments for V0 or V1 Engine. *)
  (if use_v1 then _set_default_args_v1 w usage_context
   else _set_default_args_v0 w model_config) ;;
  ret {| device_config := device_config;
         model_config := model_config;
         use_v1 := use_v1 |}.

(** Lines 1197-1250: cache, parallel and speculative configuration. *)
Definition build_speculative (w : World) (l : locals_runtime)
  : M locals_speculative :=
  let model_config := model_config l in
  let use_v1 := use_v1 l in
  s <- get_self ;;
  cache_config <-
    construct "CacheConfig" (CacheConfig_init w)
      {| CacheConfig.block_size := block_size s;
         CacheConfig.gpu_memory_utilization := gpu_memory_utilization s;
         CacheConfig.swap_space := swap_space s;
         CacheConfig.cache_dtype := kv_cache_dtype s;
         CacheConfig.is_attention_free :=
           ModelConfig.is_attention_free model_config;
         CacheConfig.num_gpu_blocks_override := num_gpu_blocks_override s;
         CacheConfig.sliding_window :=
           ModelConfig.get_sliding_window model_config;
         CacheConfig.enable_prefix_caching := enable_prefix_caching s;
         CacheConfig.cpu_offload_gb := cpu_offload_gb s;
         CacheConfig.calculate_kv_scales := calculate_kv_scales s;
         CacheConfig.use_v1 := use_v1 |} ;;
  tokenizer_pool_config <-
    lift (TokenizerPoolConfig_create_config w (tokenizer_pool_size s)
            (tokenizer_pool_type s) (tokenizer_pool_extra_config s)) ;;
  parallel_config <-
    construct "ParallelConfig" (ParallelConfig_init w)
      {| ParallelConfig.pipeline_parallel_size := pipeline_parallel_size s;
         ParallelConfig.tensor_parallel_size := tensor_parallel_size s;
         ParallelConfig.max_parallel_loading_workers :=
           max_parallel_loading_workers s;
         ParallelConfig.disable_custom_all_reduce :=
           disable_custom_all_reduce s;
         ParallelConfig.tokenizer_pool_config := tokenizer_pool_config;
         ParallelConfig.ray_workers_use_nsight := ray_workers_use_nsight s;
         ParallelConfig.distributed_executor_backend :=
           distributed_executor_backend s;
         ParallelConfig.worker_cls := worker_cls s |} ;;
  let kwargs :=
    {| SpeculativeConfig.kw.target_dtype := dtype s;
       SpeculativeConfig.kw.speculative_model := speculative_model s;
       SpeculativeConfig.kw.speculative_model_quantization :=
         speculative_model_quantization s;
       SpeculativeConfig.kw.speculative_draft_tensor_parallel_size :=
         speculative_draft_tensor_parallel_size s;
       SpeculativeConfig.kw.num_speculative_tokens :=
         num_speculative_tokens s;
       SpeculativeConfig.kw.speculative_disable_mqa_scorer :=
         speculative_disable_mqa_scorer s;
       SpeculativeConfig.kw.speculative_disable_by_batch_size :=
         speculative_disable_by_batch_size s;
       SpeculativeConfig.kw.speculative_max_model_len :=
         speculative_max_model_len s;
       SpeculativeConfig.kw.enable_chunked_prefill :=
         enable_chunked_prefill s;
       SpeculativeConfig.kw.disable_log_stats := disable_log_stats s;
       SpeculativeConfig.kw.ngram_prompt_lookup_max :=
         ngram_prompt_lookup_max s;
       SpeculativeConfig.kw.ngram_prompt_lookup_min :=
         ngram_prompt_lookup_min s;
       SpeculativeConfig.kw.draft_token_acceptance_method :=
         spec_decoding_acceptance_method s;
       SpeculativeConfig.kw.typical_acceptance_sampler_posterior_threshold :=
         typical_acceptance_sampler_posterior_threshold s;
       SpeculativeConfig.kw.typical_acceptance_sampler_posterior_alpha :=
         typical_acceptance_sampler_posterior_alpha s;
       SpeculativeConfig.kw.disable_logprobs :=
         disable_logprobs_during_spec_decoding s |} in
  created <-
    lift (SpeculativeConfig_maybe_create_spec_config w model_config
            parallel_config kwargs) ;;
  speculative_config <-
    match created with
    | Some slots =>
        emit (Constructed "SpeculativeConfig") ;;
        ret (Some {| SpeculativeConfig.kwargs := kwargs;
                     SpeculativeConfig.num_lookahead_slots := slots |})
    | None => ret None
    end ;;
  ret {| in_runtime := l;
         cache_config := cache_config;
         parallel_config := parallel_config;
         speculative_config := speculative_config |}.

(** Lines 1254-1266: what multi-step scheduling excludes. *)
Definition check_multi_step (w : World)
    (speculative_config : option SpeculativeConfig.t) : M unit :=
  s <- get_self ;;
  when 1 <? num_scheduler_steps s then
    (if is_not_None speculative_config then
       raise (ValueError ("Speculative decoding is not supported with "
                          ++ "multi-step (--num-scheduler-steps > 1)"))
     else if truthy_bool (enable_chunked_prefill s)
             && (1 <? pipeline_parallel_size s) then
       raise (ValueError ("Multi-Step Chunked-Prefill is not supported "
                          ++ "for pipeline-parallel-size > 1"))
     else
       when is_cpu (current_platform w) then
         (logger_warning
            ("Multi-Step (--num-scheduler-steps > 1) is "
             ++ "currently not supported for CPUs and has been "
             ++ "disabled.") ;;
          assign (set_num_scheduler_steps 1))).

(** Lines 1270-1274: the number of lookahead slots. *)
Definition resolve_num_lookahead_slots (s : EngineArgs)
    (speculative_config : option SpeculativeConfig.t) : Z :=
  let num_lookahead_slots :=
    Z.max (num_lookahead_slots s) (num_scheduler_steps s - 1) in
  match speculative_config with
  | None => num_lookahead_slots
  | Some sc => SpeculativeConfig.num_lookahead_slots sc
  end.

(** Lines 1252-1295: multi-step checks, lookahead slots, scheduler. *)
Definition build_scheduler (w : World) (l : locals_speculative)
  : M locals_scheduler :=
  let model_config := model_config (in_runtime l) in
  check_multi_step w (speculative_config l) ;;
  s <- get_self ;;
  let num_lookahead_slots' :=
    resolve_num_lookahead_slots s (speculative_config l) in
  scheduler_config <-
    construct "SchedulerConfig" (SchedulerConfig_init w)
      {| SchedulerConfig.runner_type := ModelConfig.runner_type model_config;
         SchedulerConfig.max_num_batched_tokens := max_num_batched_tokens s;
         SchedulerConfig.max_num_seqs := max_num_seqs s;
         SchedulerConfig.max_model_len :=
           ModelConfig.max_model_len model_config;
         SchedulerConfig.num_lookahead_slots := num_lookahead_slots';
         SchedulerConfig.delay_factor := scheduler_delay_factor s;
         SchedulerConfig.enable_chunked_prefill := enable_chunked_prefill s;
         SchedulerConfig.is_multimodal_model :=
           ModelConfig.is_multimodal_model model_config;
         SchedulerConfig.preemption_mode := preemption_mode s;
         SchedulerConfig.num_scheduler_steps := num_scheduler_steps s;
         SchedulerConfig.multi_step_stream_outputs :=
           multi_step_stream_outputs s;
         SchedulerConfig.send_delta_data :=
           VLLM_USE_RAY_SPMD_WORKER (envs w)
           && ParallelConfig_use_ray w (parallel_config l);
         SchedulerConfig.policy := scheduling_policy s;
         SchedulerConfig.scheduler_cls := scheduler_cls s;
         SchedulerConfig.max_num_partial_prefills :=
           max_num_partial_prefills s;
         SchedulerConfig.max_long_partial_prefills :=
           max_long_partial_prefills s;
         SchedulerConfig.long_prefill_token_threshold :=
           long_prefill_token_threshold s |} ;;
  ret {| in_speculative := l; scheduler_config := scheduler_config |}.

(** [self.max_cpu_loras if self.max_cpu_loras and self.max_cpu_loras > 0
    else None] (lines 1305-1306). *)
Definition max_cpu_loras_argument (s : EngineArgs) : option Z :=
  match max_cpu_loras s with
  | Some c => if negb (c =? 0) && (0 <? c) then Some c else None
  | None => None
  end.

(** Lines 1297-1315: LoRA configuration, the QLoRA adapter path, load
    configuration. *)
Definition build_load (w : World) (l : locals_scheduler) : M locals_load :=
  s <- get_self ;;
  lora_config <-
    (if enable_lora s then
       c <- construct "LoRAConfig" (LoRAConfig_init w)
              (LoRAConfig.__post_init__
                 {| LoRAConfig.bias_enabled := enable_lora_bias s;
                    LoRAConfig.max_lora_rank := max_lora_rank s;
                    LoRAConfig.max_loras := max_loras s;
                    LoRAConfig.fully_sharded_loras := fully_sharded_loras s;
                    LoRAConfig.lora_extra_vocab_size :=
                      lora_extra_vocab_size s;
                    LoRAConfig.long_lora_scaling_factors :=
                      long_lora_scaling_factors s;
                    LoRAConfig.lora_dtype := lora_dtype s;
                    LoRAConfig.max_cpu_loras := max_cpu_loras_argument s |}) ;;
       ret (Some c)
     else ret None) ;;
  match qlora_adapter_name_or_path s with
  | Some path =>
      when negb (String.eqb path "") then
        (s <- get_self ;;
         (when is_None (model_loader_extra_config s) then
            assign (set_model_loader_extra_config (Some []))) ;;
         s <- get_self ;;
         match model_loader_extra_config s with
         | Some d =>
             assign (set_model_loader_extra_config
                       (Some (dict_setitem d "qlora_adapter_name_or_path"
                                (PyStr path))))
         | None => ret tt
         end)
  | None => ret tt
  end ;;
  load_config <- create_load_config w ;;
  ret {| in_scheduler := l;
         lora_config := lora_config;
         load_config := load_config |}.

(** Lines 1317-1331: prompt adapter, decoding, hidden metrics. *)
Definition build_decoding (w : World) (l : locals_load) : M locals_decoding :=
  s <- get_self ;;
  prompt_adapter_config <-
    (if enable_prompt_adapter s then
       c <- construct "PromptAdapterConfig" (PromptAdapterConfig_init w)
              {| PromptAdapterConfig.max_prompt_adapters :=
                   max_prompt_adapters s;
                 PromptAdapterConfig.max_prompt_adapter_token :=
                   max_prompt_adapter_token s |} ;;
       ret (Some c)
     else ret None) ;;
  decoding_config <-
    construct "DecodingConfig" (DecodingConfig_init w)
      {| DecodingConfig.guided_decoding_backend := guided_decoding_backend s;
         DecodingConfig.reasoning_backend :=
           if truthy_bool (enable_reasoning s) then reasoning_parser s
           else None |} ;;
  let show_hidden_metrics :=
    match show_hidden_metrics_for_version s with
    | Some v => prev_minor_version_was w v
    | None => false
    end in
  ret {| in_load := l;
         prompt_adapter_config := prompt_adapter_config;
         decoding_config := decoding_config;
         show_hidden_metrics := show_hidden_metrics |}.

(** Lines 1333-1335: the requested detailed-trace modules. *)
Definition detailed_trace_modules_of (s : EngineArgs) : list string :=
  match collect_detailed_traces s with
  | Some traces => split "," traces
  | None => []
  end.

(** Lines 1336-1340: the loop rejecting the first unknown module. *)
Fixpoint check_detailed_trace_modules (modules : list string) : M unit :=
  match modules with
  | [] => ret tt
  | m :: rest =>
      if negb (str_in m ALLOWED_DETAILED_TRACE_MODULES) then
        raise (ValueError
                 ("Invalid module " ++ m ++ " in collect_detailed_traces. "
                  ++ "Valid modules are "
                  ++ repr_str_list ALLOWED_DETAILED_TRACE_MODULES))
      else check_detailed_trace_modules rest
  end.

(** Lines 1333-1368: detailed traces, observability, and the result. *)
Definition assemble (w : World) (l : locals_decoding) : M VllmConfig.t :=
  let l_load := in_load l in
  let l_scheduler := in_scheduler l_load in
  let l_speculative := in_speculative l_scheduler in
  let l_runtime := in_runtime l_speculative in
  s <- get_self ;;
  let detailed_trace_modules := detailed_trace_modules_of s in
  check_detailed_trace_modules detailed_trace_modules ;;
  observability_config <-
    construct "ObservabilityConfig" (ObservabilityConfig_init w)
      {| ObservabilityConfig.show_hidden_metrics := show_hidden_metrics l;
         ObservabilityConfig.otlp_traces_endpoint := otlp_traces_endpoint s;
         ObservabilityConfig.collect_model_forward_time :=
           str_in "model" detailed_trace_modules
           || str_in "all" detailed_trace_modules;
         ObservabilityConfig.collect_model_execute_time :=
           str_in "worker" detailed_trace_modules
           || str_in "all" detailed_trace_modules |} ;;
  construct "VllmConfig" (VllmConfig_init w)
    {| VllmConfig.model_config := model_config l_runtime;
       VllmConfig.cache_config := cache_config l_speculative;
       VllmConfig.parallel_config := parallel_config l_speculative;
       VllmConfig.scheduler_config := scheduler_config l_scheduler;
       VllmConfig.device_config := device_config l_runtime;
       VllmConfig.lora_config := lora_config l_load;
       VllmConfig.speculative_config := speculative_config l_speculative;
       VllmConfig.load_config := load_config l_load;
       VllmConfig.decoding_config := decoding_config l;
       VllmConfig.observability_config := observability_config;
       VllmConfig.prompt_adapter_config := prompt_adapter_config l;
       VllmConfig.compilation_config := compilation_config s;
       VllmConfig.kv_transfer_config := kv_transfer_config s;
       VllmConfig.additional_config := additional_config s;
       VllmConfig.use_v1 := use_v1 l_runtime |}.

Definition engine_upto_runtime (w : World) (uc : option UsageContext)
  : M locals_runtime :=
  choose_runtime w uc.

Definition engine_upto_speculative (w : World) (uc : option UsageContext)
  : M locals_speculative :=
  l <- engine_upto_runtime w uc ;; build_speculative w l.

Definition engine_upto_scheduler (w : World) (uc : option UsageContext)
  : M locals_scheduler :=
  l <- engine_upto_speculative w uc ;; build_scheduler w l.

Definition engine_upto_load (w : World) (uc : option UsageContext)
  : M locals_load :=
  l <- engine_upto_scheduler w uc ;; build_load w l.

Definition engine_upto_decoding (w : World) (uc : option UsageContext)
  : M locals_decoding :=
  l <- engine_upto_load w uc ;; build_decoding w l.

Definition create_engine_config (w : World)
    (usage_context : option UsageContext) : M VllmConfig.t :=
  l <- engine_upto_decoding w usage_context ;; assemble w l.

(* ===================================================================== *)
(** * Example platforms, environments and models *)
(* ===================================================================== *)

Definition cuda_h100 : Platform :=
  {| is_cuda := true;
     is_cpu := false;
     get_device_capability_major := 9;
     get_device_name := "NVIDIA H100 80GB HBM3";
     device_type := "cuda" |}.

Definition cpu_host : Platform :=
  {| is_cuda := false;
     is_cpu := true;
     get_device_capability_major := 0;
     get_device_name := "x86_64";
     device_type := "cpu" |}.

(** [VLLM_USE_V1] unset, V1 tried by default. *)
Definition env_unset : Envs :=
  {| VLLM_USE_V1 := false;
     is_set_VLLM_USE_V1 := false;
     VLLM_USE_V1_BY_DEFAULT := true;
     VLLM_CI_USE_S3 := false;
     VLLM_USE_RAY_SPMD_WORKER := false |}.

(** [VLLM_USE_V1=1]. *)
Definition env_force_v1 : Envs :=
  {| VLLM_USE_V1 := true;
     is_set_VLLM_USE_V1 := true;
     VLLM_USE_V1_BY_DEFAULT := true;
     VLLM_CI_USE_S3 := false;
     VLLM_USE_RAY_SPMD_WORKER := false |}.

(** [VLLM_USE_V1=0]. *)
Definition env_force_v0 : Envs :=
  {| VLLM_USE_V1 := false;
     is_set_VLLM_USE_V1 := true;
     VLLM_USE_V1_BY_DEFAULT := true;
     VLLM_CI_USE_S3 := false;
     VLLM_USE_RAY_SPMD_WORKER := false |}.

(** A decoder-only text model, and an embedding model. *)
Definition generate_model : ModelConfig.attributes :=
  {| ModelConfig.attr_task := "generate";
     ModelConfig.attr_architectures := ["OPTForCausalLM"];
     ModelConfig.attr_is_v1_compatible := true;
     ModelConfig.attr_use_mla := false;
     ModelConfig.attr_is_multimodal_model := false;
     ModelConfig.attr_is_attention_free := false;
     ModelConfig.attr_max_model_len := 2048;
     ModelConfig.attr_runner_type := "generate";
     ModelConfig.attr_sliding_window := None |}.

Definition embedding_model : ModelConfig.attributes :=
  {| ModelConfig.attr_task := "embed";
     ModelConfig.attr_architectures := ["BertModel"];
     ModelConfig.attr_is_v1_compatible := true;
     ModelConfig.attr_use_mla := false;
     ModelConfig.attr_is_multimodal_model := false;
     ModelConfig.attr_is_attention_free := false;
     ModelConfig.attr_max_model_len := 512;
     ModelConfig.attr_runner_type := "pooling";
     ModelConfig.attr_sliding_window := None |}.

(** A world in which every constructor accepts its arguments: the platform,
    the environment, what [ModelConfig] finds out about the model, and the
    lookahead slots of the speculative configuration that
    [maybe_create_spec_config] creates, if it creates one. *)
Definition example_world (p : Platform) (e : Envs)
    (model : ModelConfig.attributes) (speculative : option Z) : World :=
  {| current_platform := p;
     envs := e;
     pre_register_and_update := Return tt;
     load_general_plugins := Return tt;
     UsageContext_value :=
       fun u =>
         match u with
         | LLM_CLASS => "LLM_CLASS"
         | OPENAI_API_SERVER => "OPENAI_API_SERVER"
         | OTHER_CONTEXT v => v
         end;
     LoadFormat_AUTO := "auto";
     LoadFormat_RUNAI_STREAMER := "runai_streamer";
     MODELS_ON_S3 := [];
     MODEL_WEIGHTS_S3_BUCKET := "s3://vllm-ci-model-weights";
     check_gguf_file := fun _ => false;
     prev_minor_version_was := fun _ => false;
     CompilationConfig_from_cli := fun v => Return v;
     DeviceConfig_init := fun _ => None;
     ModelConfig_init := fun _ => Return model;
     CacheConfig_init := fun _ => None;
     TokenizerPoolConfig_create_config := fun _ _ _ => Return None;
     ParallelConfig_init := fun _ => None;
     ParallelConfig_use_ray := fun _ => false;
     SpeculativeConfig_maybe_create_spec_config := fun _ _ _ => Return speculative;
     SchedulerConfig_init := fun _ => None;
     LoRAConfig_init := fun _ => None;
     LoadConfig_init := fun _ => None;
     PromptAdapterConfig_init := fun _ => None;
     DecodingConfig_init := fun _ => None;
     ObservabilityConfig_init := fun _ => None;
     VllmConfig_init := fun _ => None |}.

(** Options a caller sets when creating the arguments in the examples:
    [customize] gives them new values and leaves the rest. *)
Definition customize (s : EngineArgs)
    (task' : string)
    (qlora_adapter_name_or_path' : option string)
    (scheduling_policy' : string)
    (enable_lora' : bool)
    (max_loras' : Z)
    (max_cpu_loras' : option Z)
    (collect_detailed_traces' : option string)
    (num_lookahead_slots' : Z)
    (speculative_model' : option string)
  : EngineArgs := {|
  model := model s;
  served_model_name := served_model_name s;
  tokenizer := tokenizer s;
  hf_config_path := hf_config_path s;
  task := task';
  skip_tokenizer_init := skip_tokenizer_init s;
  tokenizer_mode := tokenizer_mode s;
  trust_remote_code := trust_remote_code s;
  allowed_local_media_path := allowed_local_media_path s;
  download_dir := download_dir s;
  load_format := load_format s;
  config_format := config_format s;
  dtype := dtype s;
  kv_cache_dtype := kv_cache_dtype s;
  seed := seed s;
  max_model_len := max_model_len s;
  distributed_executor_backend := distributed_executor_backend s;
  pipeline_parallel_size := pipeline_parallel_size s;
  tensor_parallel_size := tensor_parallel_size s;
  max_parallel_loading_workers := max_parallel_loading_workers s;
  block_size := block_size s;
  enable_prefix_caching := enable_prefix_caching s;
  disable_sliding_window := disable_sliding_window s;
  use_v2_block_manager := use_v2_block_manager s;
  swap_space := swap_space s;
  cpu_offload_gb := cpu_offload_gb s;
  gpu_memory_utilization := gpu_memory_utilization s;
  max_num_batched_tokens := max_num_batched_tokens s;
  max_num_partial_prefills := max_num_partial_prefills s;
  max_long_partial_prefills := max_long_partial_prefills s;
  long_prefill_token_threshold := long_prefill_token_threshold s;
  max_num_seqs := max_num_seqs s;
  max_logprobs := max_logprobs s;
  disable_log_stats := disable_log_stats s;
  revision := revision s;
  code_revision := code_revision s;
  rope_scaling := rope_scaling s;
  rope_theta := rope_theta s;
  hf_overrides := hf_overrides s;
  tokenizer_revision := tokenizer_revision s;
  quantization := quantization s;
  enforce_eager := enforce_eager s;
  max_seq_len_to_capture := max_seq_len_to_capture s;
  disable_custom_all_reduce := disable_custom_all_reduce s;
  tokenizer_pool_size := tokenizer_pool_size s;
  tokenizer_pool_type := tokenizer_pool_type s;
  tokenizer_pool_extra_config := tokenizer_pool_extra_config s;
  limit_mm_per_prompt := limit_mm_per_prompt s;
  mm_processor_kwargs := mm_processor_kwargs s;
  disable_mm_preprocessor_cache := disable_mm_preprocessor_cache s;
  enable_lora := enable_lora';
  enable_lora_bias := enable_lora_bias s;
  max_loras := max_loras';
  max_lora_rank := max_lora_rank s;
  enable_prompt_adapter := enable_prompt_adapter s;
  max_prompt_adapters := max_prompt_adapters s;
  max_prompt_adapter_token := max_prompt_adapter_token s;
  fully_sharded_loras := fully_sharded_loras s;
  lora_extra_vocab_size := lora_extra_vocab_size s;
  long_lora_scaling_factors := long_lora_scaling_factors s;
  lora_dtype := lora_dtype s;
  max_cpu_loras := max_cpu_loras';
  device := device s;
  num_scheduler_steps := num_scheduler_steps s;
  multi_step_stream_outputs := multi_step_stream_outputs s;
  ray_workers_use_nsight := ray_workers_use_nsight s;
  num_gpu_blocks_override := num_gpu_blocks_override s;
  num_lookahead_slots := num_lookahead_slots';
  model_loader_extra_config := model_loader_extra_config s;
  ignore_patterns := ignore_patterns s;
  preemption_mode := preemption_mode s;
  scheduler_delay_factor := scheduler_delay_factor s;
  enable_chunked_prefill := enable_chunked_prefill s;
  guided_decoding_backend := guided_decoding_backend s;
  logits_processor_pattern := logits_processor_pattern s;
  speculative_model := speculative_model';
  speculative_model_quantization := speculative_model_quantization s;
  speculative_draft_tensor_parallel_size := speculative_draft_tensor_parallel_size s;
  num_speculative_tokens := num_speculative_tokens s;
  speculative_disable_mqa_scorer := speculative_disable_mqa_scorer s;
  speculative_max_model_len := speculative_max_model_len s;
  speculative_disable_by_batch_size := speculative_disable_by_batch_size s;
  ngram_prompt_lookup_max := ngram_prompt_lookup_max s;
  ngram_prompt_lookup_min := ngram_prompt_lookup_min s;
  spec_decoding_acceptance_method := spec_decoding_acceptance_method s;
  typical_acceptance_sampler_posterior_threshold := typical_acceptance_sampler_posterior_threshold s;
  typical_acceptance_sampler_posterior_alpha := typical_acceptance_sampler_posterior_alpha s;
  qlora_adapter_name_or_path := qlora_adapter_name_or_path';
  disable_logprobs_during_spec_decoding := disable_logprobs_during_spec_decoding s;
  show_hidden_metrics_for_version := show_hidden_metrics_for_version s;
  otlp_traces_endpoint := otlp_traces_endpoint s;
  collect_detailed_traces := collect_detailed_traces';
  disable_async_output_proc := disable_async_output_proc s;
  scheduling_policy := scheduling_policy';
  scheduler_cls := scheduler_cls s;
  override_neuron_config := override_neuron_config s;
  override_pooler_config := override_pooler_config s;
  compilation_config := compilation_config s;
  worker_cls := worker_cls s;
  kv_transfer_config := kv_transfer_config s;
  generation_config := generation_config s;
  override_generation_config := override_generation_config s;
  enable_sleep_mode := enable_sleep_mode s;
  model_impl := model_impl s;
  calculate_kv_scales := calculate_kv_scales s;
  additional_config := additional_config s;
  enable_reasoning := enable_reasoning s;
  reasoning_parser := reasoning_parser s
|}.

Definition with_task (v : string) (s : EngineArgs) : EngineArgs :=
  customize s v (qlora_adapter_name_or_path s) (scheduling_policy s)
    (enable_lora s) (max_loras s) (max_cpu_loras s) (collect_detailed_traces
    s) (num_lookahead_slots s) (speculative_model s).

Definition with_qlora_adapter_name_or_path (v : option string) (s : EngineArgs) : EngineArgs :=
  customize s (task s) v (scheduling_policy s) (enable_lora s) (max_loras s)
    (max_cpu_loras s) (collect_detailed_traces s) (num_lookahead_slots s)
    (speculative_model s).

Definition with_scheduling_policy (v : string) (s : EngineArgs) : EngineArgs :=
  customize s (task s) (qlora_adapter_name_or_path s) v (enable_lora s)
    (max_loras s) (max_cpu_loras s) (collect_detailed_traces s)
    (num_lookahead_slots s) (speculative_model s).

Definition with_enable_lora (v : bool) (s : EngineArgs) : EngineArgs :=
  customize s (task s) (qlora_adapter_name_or_path s) (scheduling_policy s)
    v (max_loras s) (max_cpu_loras s) (collect_detailed_traces s)
    (num_lookahead_slots s) (speculative_model s).

Definition with_max_loras (v : Z) (s : EngineArgs) : EngineArgs :=
  customize s (task s) (qlora_adapter_name_or_path s) (scheduling_policy s)
    (enable_lora s) v (max_cpu_loras s) (collect_detailed_traces s)
    (num_lookahead_slots s) (speculative_model s).

Definition with_max_cpu_loras (v : option Z) (s : EngineArgs) : EngineArgs :=
  customize s (task s) (qlora_adapter_name_or_path s) (scheduling_policy s)
    (enable_lora s) (max_loras s) v (collect_detailed_traces s)
    (num_lookahead_slots s) (speculative_model s).

Definition with_collect_detailed_traces (v : option string) (s : EngineArgs) : EngineArgs :=
  customize s (task s) (qlora_adapter_name_or_path s) (scheduling_policy s)
    (enable_lora s) (max_loras s) (max_cpu_loras s) v (num_lookahead_slots
    s) (speculative_model s).

Definition with_num_lookahead_slots (v : Z) (s : EngineArgs) : EngineArgs :=
  customize s (task s) (qlora_adapter_name_or_path s) (scheduling_policy s)
    (enable_lora s) (max_loras s) (max_cpu_loras s) (collect_detailed_traces
    s) v (speculative_model s).

Definition with_speculative_model (v : option string) (s : EngineArgs) : EngineArgs :=
  customize s (task s) (qlora_adapter_name_or_path s) (scheduling_policy s)
    (enable_lora s) (max_loras s) (max_cpu_loras s) (collect_detailed_traces
    s) (num_lookahead_slots s) v.

(** A fresh [EngineArgs] with the given fields, after [__post_init__]. *)
Definition fresh (w : World) (fields : EngineArgs) : state :=
  snd (new_EngineArgs w false fields).

(** The state of an [EngineArgs] object holding [s], nothing logged yet. *)
Definition object (s : EngineArgs) : state :=
  {| self := s; is_AsyncEngineArgs := false; events := [] |}.

(** Only a QLoRA adapter given; quantization and load format left alone. *)
Definition qlora_only_args : EngineArgs :=
  with_qlora_adapter_name_or_path (Some "adapters/qlora") EngineArgs_default.

(** [quantization="bitsandbytes"] with [load_format] left at "auto", with
    [load_format="bitsandbytes"], and the load format alone. *)
Definition bnb_quantization_args : EngineArgs :=
  set_quantization (Some "bitsandbytes") EngineArgs_default.

Definition bnb_both_args : EngineArgs :=
  set_load_format "bitsandbytes" bnb_quantization_args.

Definition bnb_load_format_args : EngineArgs :=
  set_load_format "bitsandbytes" EngineArgs_default.

(** Worlds for the examples: an H100 or a CPU host, [VLLM_USE_V1] unset,
    a text-generation model; [speculative_world] also creates a speculative
    configuration that asks for five lookahead slots. *)
Definition gpu_world : World :=
  example_world cuda_h100 env_unset generate_model None.

Definition cpu_world : World :=
  example_world cpu_host env_unset generate_model None.

Definition speculative_world : World :=
  example_world cuda_h100 env_unset generate_model (Some 5).

(** [num_scheduler_steps=4], everything else default. *)
Definition multi_step_args : EngineArgs :=
  set_num_scheduler_steps 4 EngineArgs_default.

(** N-gram speculative decoding, alone and with [num_scheduler_steps=2]. *)
Definition ngram_args : EngineArgs :=
  with_speculative_model (Some "[ngram]") EngineArgs_default.

Definition ngram_multi_step_args : EngineArgs :=
  set_num_scheduler_steps 2 ngram_args.

(** Worlds with [VLLM_USE_V1=1]: a text-generation model, and an embedding
    model. *)
Definition forced_v1_world : World :=
  example_world cuda_h100 env_force_v1 generate_model None.

Definition forced_v1_embedding_world : World :=
  example_world cuda_h100 env_force_v1 embedding_model None.

(** An embedding model, [VLLM_USE_V1] unset. *)
Definition embedding_world : World :=
  example_world cuda_h100 env_unset embedding_model None.

(** [enable_chunked_prefill] requested true, and requested false. *)
Definition chunked_prefill_args : EngineArgs :=
  set_enable_chunked_prefill (Some true) EngineArgs_default.

Definition no_chunked_prefill_args : EngineArgs :=
  set_enable_chunked_prefill (Some false) EngineArgs_default.

(** [scheduling_policy="priority"]. *)
Definition priority_args : EngineArgs :=
  with_scheduling_policy "priority" EngineArgs_default.

(** [collect_detailed_traces="model,bogus"], and "model,all". *)
Definition bogus_traces_args : EngineArgs :=
  with_collect_detailed_traces (Some "model,bogus") EngineArgs_default.

Definition valid_traces_args : EngineArgs :=
  with_collect_detailed_traces (Some "model,all") EngineArgs_default.

(** [enable_lora=True], [max_loras=4], [max_cpu_loras] unset; and the same
    with [max_cpu_loras=-1]. *)
Definition lora_args : EngineArgs :=
  with_max_loras 4 (with_enable_lora true EngineArgs_default).

Definition lora_negative_cpu_args : EngineArgs :=
  with_max_cpu_loras (Some (-1)) lora_args.

(** [VLLM_USE_V1=0] on an H100. *)
Definition forced_v0_world : World :=
  example_world cuda_h100 env_force_v0 generate_model None.

(** A model named without a tokenizer, and with an empty tokenizer. *)
Definition llama_args : EngineArgs :=
  set_model "meta-llama/Llama-3.1-8B" EngineArgs_default.

Definition llama_empty_tokenizer_args : EngineArgs :=
  set_tokenizer (Some "") llama_args.

(** A multimodal model with a long context, and a world serving it with
    [VLLM_USE_V1=0]. *)
Definition multimodal_model : ModelConfig.attributes :=
  {| ModelConfig.attr_task := "generate";
     ModelConfig.attr_architectures := ["LlavaForConditionalGeneration"];
     ModelConfig.attr_is_v1_compatible := true;
     ModelConfig.attr_use_mla := false;
     ModelConfig.attr_is_multimodal_model := true;
     ModelConfig.attr_is_attention_free := false;
     ModelConfig.attr_max_model_len := 131072;
     ModelConfig.attr_runner_type := "generate";
     ModelConfig.attr_sliding_window := None |}.

Definition multimodal_v0_world : World :=
  example_world cuda_h100 env_force_v0 multimodal_model None.

(** A text model with a long context, served with [VLLM_USE_V1=0]. *)
Definition long_context_model : ModelConfig.attributes :=
  {| ModelConfig.attr_task := "generate";
     ModelConfig.attr_architectures := ["LlamaForCausalLM"];
     ModelConfig.attr_is_v1_compatible := true;
     ModelConfig.attr_use_mla := false;
     ModelConfig.attr_is_multimodal_model := false;
     ModelConfig.attr_is_attention_free := false;
     ModelConfig.attr_max_model_len := 131072;
     ModelConfig.attr_runner_type := "generate";
     ModelConfig.attr_sliding_window := None |}.

Definition long_context_v0_world : World :=
  example_world cuda_h100 env_force_v0 long_context_model None.

(** [enable_prefix_caching=True]. *)
Definition prefix_caching_args : EngineArgs :=
  set_enable_prefix_caching (Some true) EngineArgs_default.

(** [max_num_seqs=64] and [max_num_batched_tokens=4096]. *)
Definition limits_args : EngineArgs :=
  set_max_num_batched_tokens (Some 4096)
    (set_max_num_seqs (Some 64) EngineArgs_default).

(** A world in which every model path is a GGUF file. *)
Definition gguf_world : World :=
  {| current_platform := cuda_h100;
     envs := env_force_v0;
     pre_register_and_update := Return tt;
     load_general_plugins := Return tt;
     UsageContext_value := UsageContext_value gpu_world;
     LoadFormat_AUTO := "auto";
     LoadFormat_RUNAI_STREAMER := "runai_streamer";
     MODELS_ON_S3 := [];
     MODEL_WEIGHTS_S3_BUCKET := "s3://vllm-ci-model-weights";
     check_gguf_file := fun _ => true;
     prev_minor_version_was := fun _ => false;
     CompilationConfig_from_cli := fun v => Return v;
     DeviceConfig_init := fun _ => None;
     ModelConfig_init := fun _ => Return generate_model;
     CacheConfig_init := fun _ => None;
     TokenizerPoolConfig_create_config := fun _ _ _ => Return None;
     ParallelConfig_init := fun _ => None;
     ParallelConfig_use_ray := fun _ => false;
     SpeculativeConfig_maybe_create_spec_config := fun _ _ _ => Return None;
     SchedulerConfig_init := fun _ => None;
     LoRAConfig_init := fun _ => None;
     LoadConfig_init := fun _ => None;
     PromptAdapterConfig_init := fun _ => None;
     DecodingConfig_init := fun _ => None;
     ObservabilityConfig_init := fun _ => None;
     VllmConfig_init := fun _ => None |}.

(** A QLoRA adapter with both quantization and load format
    "bitsandbytes". *)
Definition qlora_args : EngineArgs :=
  with_qlora_adapter_name_or_path (Some "adapters/qlora") bnb_both_args.

(** Multi-step scheduling with chunked prefill on two pipeline stages. *)
Definition multi_step_pipeline_args : EngineArgs :=
  set_enable_chunked_prefill (Some true)
    (set_num_scheduler_steps 4
       {| model := model EngineArgs_default;
          served_model_name := served_model_name EngineArgs_default;
          tokenizer := tokenizer EngineArgs_default;
          hf_config_path := hf_config_path EngineArgs_default;
          task := task EngineArgs_default;
          skip_tokenizer_init := skip_tokenizer_init EngineArgs_default;
          tokenizer_mode := tokenizer_mode EngineArgs_default;
          trust_remote_code := trust_remote_code EngineArgs_default;
          allowed_local_media_path :=
            allowed_local_media_path EngineArgs_default;
          download_dir := download_dir EngineArgs_default;
          load_format := load_format EngineArgs_default;
          config_format := config_format EngineArgs_default;
          dtype := dtype EngineArgs_default;
          kv_cache_dtype := kv_cache_dtype EngineArgs_default;
          seed := seed EngineArgs_default;
          max_model_len := max_model_len EngineArgs_default;
          distributed_executor_backend :=
            distributed_executor_backend EngineArgs_default;
          pipeline_parallel_size := 2;
          tensor_parallel_size := tensor_parallel_size EngineArgs_default;
          max_parallel_loading_workers :=
            max_parallel_loading_workers EngineArgs_default;
          block_size := block_size EngineArgs_default;
          enable_prefix_caching := enable_prefix_caching EngineArgs_default;
          disable_sliding_window := disable_sliding_window EngineArgs_default;
          use_v2_block_manager := use_v2_block_manager EngineArgs_default;
          swap_space := swap_space EngineArgs_default;
          cpu_offload_gb := cpu_offload_gb EngineArgs_default;
          gpu_memory_utilization := gpu_memory_utilization EngineArgs_default;
          max_num_batched_tokens := max_num_batched_tokens EngineArgs_default;
          max_num_partial_prefills :=
            max_num_partial_prefills EngineArgs_default;
          max_long_partial_prefills :=
            max_long_partial_prefills EngineArgs_default;
          long_prefill_token_threshold :=
            long_prefill_token_threshold EngineArgs_default;
          max_num_seqs := max_num_seqs EngineArgs_default;
          max_logprobs := max_logprobs EngineArgs_default;
          disable_log_stats := disable_log_stats EngineArgs_default;
          revision := revision EngineArgs_default;
          code_revision := code_revision EngineArgs_default;
          rope_scaling := rope_scaling EngineArgs_default;
          rope_theta := rope_theta EngineArgs_default;
          hf_overrides := hf_overrides EngineArgs_default;
          tokenizer_revision := tokenizer_revision EngineArgs_default;
          quantization := quantization EngineArgs_default;
          enforce_eager := enforce_eager EngineArgs_default;
          max_seq_len_to_capture := max_seq_len_to_capture EngineArgs_default;
          disable_custom_all_reduce :=
            disable_custom_all_reduce EngineArgs_default;
          tokenizer_pool_size := tokenizer_pool_size EngineArgs_default;
          tokenizer_pool_type := tokenizer_pool_type EngineArgs_default;
          tokenizer_pool_extra_config :=
            tokenizer_pool_extra_config EngineArgs_default;
          limit_mm_per_prompt := limit_mm_per_prompt EngineArgs_default;
          mm_processor_kwargs := mm_processor_kwargs EngineArgs_default;
          disable_mm_preprocessor_cache :=
            disable_mm_preprocessor_cache EngineArgs_default;
          enable_lora := enable_lora EngineArgs_default;
          enable_lora_bias := enable_lora_bias EngineArgs_default;
          max_loras := max_loras EngineArgs_default;
          max_lora_rank := max_lora_rank EngineArgs_default;
          enable_prompt_adapter := enable_prompt_adapter EngineArgs_default;
          max_prompt_adapters := max_prompt_adapters EngineArgs_default;
          max_prompt_adapter_token :=
            max_prompt_adapter_token EngineArgs_default;
          fully_sharded_loras := fully_sharded_loras EngineArgs_default;
          lora_extra_vocab_size := lora_extra_vocab_size EngineArgs_default;
          long_lora_scaling_factors :=
            long_lora_scaling_factors EngineArgs_default;
          lora_dtype := lora_dtype EngineArgs_default;
          max_cpu_loras := max_cpu_loras EngineArgs_default;
          device := device EngineArgs_default;
          num_scheduler_steps := num_scheduler_steps EngineArgs_default;
          multi_step_stream_outputs :=
            multi_step_stream_outputs EngineArgs_default;
          ray_workers_use_nsight := ray_workers_use_nsight EngineArgs_default;
          num_gpu_blocks_override :=
            num_gpu_blocks_override EngineArgs_default;
          num_lookahead_slots := num_lookahead_slots EngineArgs_default;
          model_loader_extra_config :=
            model_loader_extra_config EngineArgs_default;
          ignore_patterns := ignore_patterns EngineArgs_default;
          preemption_mode := preemption_mode EngineArgs_default;
          scheduler_delay_factor := scheduler_delay_factor EngineArgs_default;
          enable_chunked_prefill := enable_chunked_prefill EngineArgs_default;
          guided_decoding_backend :=
            guided_decoding_backend EngineArgs_default;
          logits_processor_pattern :=
            logits_processor_pattern EngineArgs_default;
          speculative_model := speculative_model EngineArgs_default;
          speculative_model_quantization :=
            speculative_model_quantization EngineArgs_default;
          speculative_draft_tensor_parallel_size :=
            speculative_draft_tensor_parallel_size EngineArgs_default;
          num_speculative_tokens := num_speculative_tokens EngineArgs_default;
          speculative_disable_mqa_scorer :=
            speculative_disable_mqa_scorer EngineArgs_default;
          speculative_max_model_len :=
            speculative_max_model_len EngineArgs_default;
          speculative_disable_by_batch_size :=
            speculative_disable_by_batch_size EngineArgs_default;
          ngram_prompt_lookup_max :=
            ngram_prompt_lookup_max EngineArgs_default;
          ngram_prompt_lookup_min :=
            ngram_prompt_lookup_min EngineArgs_default;
          spec_decoding_acceptance_method :=
            spec_decoding_acceptance_method EngineArgs_default;
          typical_acceptance_sampler_posterior_threshold :=
            typical_acceptance_sampler_posterior_threshold EngineArgs_default;
          typical_acceptance_sampler_posterior_alpha :=
            typical_acceptance_sampler_posterior_alpha EngineArgs_default;
          qlora_adapter_name_or_path :=
            qlora_adapter_name_or_path EngineArgs_default;
          disable_logprobs_during_spec_decoding :=
            disable_logprobs_during_spec_decoding EngineArgs_default;
          show_hidden_metrics_for_version :=
            show_hidden_metrics_for_version EngineArgs_default;
          otlp_traces_endpoint := otlp_traces_endpoint EngineArgs_default;
          collect_detailed_traces :=
            collect_detailed_traces EngineArgs_default;
          disable_async_output_proc :=
            disable_async_output_proc EngineArgs_default;
          scheduling_policy := scheduling_policy EngineArgs_default;
          scheduler_cls := scheduler_cls EngineArgs_default;
          override_neuron_config := override_neuron_config EngineArgs_default;
          override_pooler_config := override_pooler_config EngineArgs_default;
          compilation_config := compilation_config EngineArgs_default;
          worker_cls := worker_cls EngineArgs_default;
          kv_transfer_config := kv_transfer_config EngineArgs_default;
          generation_config := generation_config EngineArgs_default;
          override_generation_config :=
            override_generation_config EngineArgs_default;
          enable_sleep_mode := enable_sleep_mode EngineArgs_default;
          model_impl := model_impl EngineArgs_default;
          calculate_kv_scales := calculate_kv_scales EngineArgs_default;
          additional_config := additional_config EngineArgs_default;
          enable_reasoning := enable_reasoning EngineArgs_default;
          reasoning_parser := reasoning_parser EngineArgs_default |}).

(** Continuous integration on an H100: [VLLM_CI_USE_S3] is on and the
    default model is among those mirrored on S3. *)
Definition s3_world : World :=
  {| current_platform := cuda_h100;
     envs := {| VLLM_USE_V1 := false;
                is_set_VLLM_USE_V1 := true;
                VLLM_USE_V1_BY_DEFAULT := true;
                VLLM_CI_USE_S3 := true;
                VLLM_USE_RAY_SPMD_WORKER := false |};
     pre_register_and_update := Return tt;
     load_general_plugins := Return tt;
     UsageContext_value := UsageContext_value gpu_world;
     LoadFormat_AUTO := "auto";
     LoadFormat_RUNAI_STREAMER := "runai_streamer";
     MODELS_ON_S3 := ["distilbert/distilgpt2"; "facebook/opt-125m"];
     MODEL_WEIGHTS_S3_BUCKET := "s3://vllm-ci-model-weights";
     check_gguf_file := fun _ => false;
     prev_minor_version_was := fun _ => false;
     CompilationConfig_from_cli := fun v => Return v;
     DeviceConfig_init := fun _ => None;
     ModelConfig_init := fun _ => Return generate_model;
     CacheConfig_init := fun _ => None;
     TokenizerPoolConfig_create_config := fun _ _ _ => Return None;
     ParallelConfig_init := fun _ => None;
     ParallelConfig_use_ray := fun _ => false;
     SpeculativeConfig_maybe_create_spec_config := fun _ _ _ => Return None;
     SchedulerConfig_init := fun _ => None;
     LoRAConfig_init := fun _ => None;
     LoadConfig_init := fun _ => None;
     PromptAdapterConfig_init := fun _ => None;
     DecodingConfig_init := fun _ => None;
     ObservabilityConfig_init := fun _ => None;
     VllmConfig_init := fun _ => None |}.

(* ===================================================================== *)
(** * Reasoning about methods *)
(* ===================================================================== *)

Lemma bind_Return {A B : Type} (m : M A) (k : A -> M B) st a st1 :
  m st = (Return a, st1) -> bind m k st = k a st1.
Proof. intros H. unfold bind. rewrite H. reflexivity. Qed.

Lemma bind_Raise {A B : Type} (m : M A) (k : A -> M B) st e st1 :
  m st = (Raise e, st1) -> bind m k st = (Raise e, st1).
Proof. intros H. unfold bind. rewrite H. reflexivity. Qed.

Lemma bind_Return_inv {A B : Type} (m : M A) (k : A -> M B) st b st2 :
  bind m k st = (Return b, st2) ->
  exists a st1, m st = (Return a, st1) /\ k a st1 = (Return b, st2).
Proof.
  unfold bind. destruct (m st) as [[a | e] st1]; intros H.
  - exists a, st1. split; [reflexivity | exact H].
  - discriminate H.
Qed.

Lemma bind_inv {A B : Type} (m : M A) (k : A -> M B) st r st2 :
  bind m k st = (r, st2) ->
  (exists a st1, m st = (Return a, st1) /\ k a st1 = (r, st2))
  \/ (exists e, m st = (Raise e, st2) /\ r = Raise e).
Proof.
  unfold bind. destruct (m st) as [[a | e] st1]; intros H.
  - left. exists a, st1. split; [reflexivity | exact H].
  - right. exists e. inversion H; subst. split; reflexivity.
Qed.

Lemma construct_Return_inv {A : Type} cls (validate : A -> option exn) v st
    (a : A) st1 :
  construct cls validate v st = (Return a, st1) ->
  a = v /\ validate v = None /\ self st1 = self st
  /\ is_AsyncEngineArgs st1 = is_AsyncEngineArgs st
  /\ events st1 = (events st ++ [Constructed cls])%list.
Proof.
  unfold construct. destruct (validate v) as [e |]; intros H.
  - discriminate H.
  - inversion H; subst. simpl. repeat split; reflexivity.
Qed.

(** ** Frames

    A relation between the state before and after a method that holds
    across [ret] and composes is established piece by piece. *)

Class FrameRel (R : state -> state -> Prop) : Prop := {
  frame_refl : forall st, R st st;
  frame_trans : forall a b c, R a b -> R b c -> R a c
}.

Definition frame (R : state -> state -> Prop) {A : Type} (m : M A) : Prop :=
  forall st r st1, m st = (r, st1) -> R st st1.

Section FrameRules.
Context (R : state -> state -> Prop) `{FrameRel R}.

Lemma frame_ret {A : Type} (a : A) : frame R (ret a).
Proof. intros st r st1 E. inversion E; subst. apply frame_refl. Qed.

Lemma frame_raise {A : Type} (e : exn) : frame R (@raise A e).
Proof. intros st r st1 E. inversion E; subst. apply frame_refl. Qed.

Lemma frame_lift {A : Type} (o : outcome A) : frame R (lift o).
Proof. intros st r st1 E. inversion E; subst. apply frame_refl. Qed.

Lemma frame_get_self : frame R get_self.
Proof. intros st r st1 E. inversion E; subst. apply frame_refl. Qed.

Lemma frame_isinstance : frame R isinstance_AsyncEngineArgs.
Proof. intros st r st1 E. inversion E; subst. apply frame_refl. Qed.

Lemma frame_bind {A B : Type} (m : M A) (k : A -> M B) :
  frame R m -> (forall a, frame R (k a)) -> frame R (bind m k).
Proof.
  intros Hm Hk st r st2 E.
  destruct (bind_inv _ _ _ _ _ E) as [(a & st1 & E1 & E2) | (e & E1 & _)].
  - eapply frame_trans; [eapply Hm, E1 | eapply Hk, E2].
  - eapply Hm, E1.
Qed.

Lemma frame_construct {A : Type} cls (validate : A -> option exn) v :
  frame R (emit (Constructed cls)) -> frame R (construct cls validate v).
Proof.
  intros He. unfold construct. destruct (validate v).
  - apply frame_raise.
  - apply frame_bind; [exact He | intros; apply frame_ret].
Qed.

End FrameRules.

(** The frames used below: an attribute (or any function of [self]) keeps
    its value; no sub-configuration is constructed; [self] is untouched. *)
Definition keepsR {B : Type} (f : EngineArgs -> B) : state -> state -> Prop :=
  fun a b => f (self b) = f (self a).

Definition silentR : state -> state -> Prop :=
  fun a b => constructed (events b) = constructed (events a).

#[export] Instance keepsR_frame {B : Type} (f : EngineArgs -> B) :
  FrameRel (keepsR f).
Proof. split; unfold keepsR; intros; congruence. Qed.

#[export] Instance silentR_frame : FrameRel silentR.
Proof. split; unfold silentR; intros; congruence. Qed.

Notation keeps f := (frame (keepsR f)).
Notation silent := (frame silentR).
Notation pure := (frame (keepsR (fun s => s))).

Lemma constructed_app (l1 l2 : list event) :
  constructed (l1 ++ l2)%list = (constructed l1 ++ constructed l2)%list.
Proof.
  induction l1 as [| [lvl msg | cls] l1 IH]; simpl; [reflexivity | exact IH |].
  rewrite IH. reflexivity.
Qed.

Lemma keeps_emit {B : Type} (f : EngineArgs -> B) e : keeps f (emit e).
Proof. intros st r st1 E. inversion E; subst. reflexivity. Qed.

Lemma keeps_assign {B : Type} (f : EngineArgs -> B) g :
  (forall s, f (g s) = f s) -> keeps f (assign g).
Proof. intros Hg st r st1 E. inversion E; subst. apply Hg. Qed.

Lemma silent_log lvl msg : silent (emit (Log lvl msg)).
Proof.
  intros st r st1 E. inversion E; subst. unfold silentR. simpl.
  rewrite constructed_app. simpl. apply app_nil_r.
Qed.

Lemma silent_assign g : silent (assign g).
Proof. intros st r st1 E. inversion E; subst. reflexivity. Qed.

(** One step of a frame proof: split a [bind], branch on a test, or close a
    leaf with the rule of its primitive. *)
Ltac frame_step :=
  match goal with
  | |- frame _ (bind _ _) => apply frame_bind; [typeclasses eauto | | intro]
  | |- frame _ (ret _) => apply frame_ret; typeclasses eauto
  | |- frame _ (raise _) => apply frame_raise; typeclasses eauto
  | |- frame _ (lift _) => apply frame_lift; typeclasses eauto
  | |- frame _ get_self => apply frame_get_self; typeclasses eauto
  | |- frame _ isinstance_AsyncEngineArgs =>
      apply frame_isinstance; typeclasses eauto
  | |- frame _ (construct _ _ _) =>
      apply frame_construct; [typeclasses eauto |]
  | |- frame (keepsR _) (emit _) => apply keeps_emit
  | |- frame (keepsR _) (assign _) =>
      apply keeps_assign; intro; solve [auto | reflexivity]
  | |- frame silentR (emit (Log _ _)) => apply silent_log
  | |- frame silentR (logger_warning _) => apply silent_log
  | |- frame silentR (logger_info _) => apply silent_log
  | |- frame silentR (logger_debug _) => apply silent_log
  | |- frame silentR (assign _) => apply silent_assign
  | |- frame _ (logger_warning _) => unfold logger_warning
  | |- frame _ (logger_info _) => unfold logger_info
  | |- frame _ (logger_debug _) => unfold logger_debug
  | |- frame _ (if ?c then _ else _) => destruct c
  | |- frame _ (match ?x with _ => _ end) => destruct x
  | |- frame _ (let _ := _ in _) => cbv zeta
  end.

Ltac frame_auto := repeat frame_step.

Lemma _raise_or_warning_pure w feature_name recommend_to_remove :
  pure (_raise_or_warning w feature_name recommend_to_remove).
Proof. unfold _raise_or_warning. frame_auto. Qed.

Lemma _raise_or_warning_silent w feature_name recommend_to_remove :
  silent (_raise_or_warning w feature_name recommend_to_remove).
Proof. unfold _raise_or_warning. frame_auto. Qed.

Create HintDb frames.
#[export] Hint Resolve _raise_or_warning_pure _raise_or_warning_silent : frames.

(** A leaf that is a method with a frame lemma of its own. *)
Ltac frame_known := solve [eauto 2 with frames].

Ltac frame_go := repeat first [frame_known | frame_step].

Lemma unsupported_frame R `{FrameRel R} w cond feature_name rtr rest :
  frame R (_raise_or_warning w feature_name rtr) -> frame R rest ->
  frame R (unsupported w cond feature_name rtr rest).
Proof. intros Hw Hr. unfold unsupported. frame_go; assumption. Qed.

Lemma experimental_frame R `{FrameRel R} w cond feature_name rest :
  (forall lvl msg, frame R (emit (Log lvl msg))) -> frame R rest ->
  frame R (experimental w cond feature_name rest).
Proof.
  intros Hl Hr. unfold experimental, _experimental_warning, _fallback_info,
    logger_warning, logger_info.
  repeat first [assumption | apply Hl | frame_step].
Qed.

Lemma _is_v1_supported_oracle_pure w model_config :
  pure (_is_v1_supported_oracle w model_config).
Proof.
  unfold _is_v1_supported_oracle.
  apply frame_bind; [typeclasses eauto | frame_go | intro s].
  cbv zeta.
  repeat (apply unsupported_frame;
          [typeclasses eauto | apply _raise_or_warning_pure |]).
  repeat (apply experimental_frame;
          [typeclasses eauto | intros; apply keeps_emit |]).
  frame_go.
Qed.

Lemma _is_v1_supported_oracle_silent w model_config :
  silent (_is_v1_supported_oracle w model_config).
Proof.
  unfold _is_v1_supported_oracle.
  apply frame_bind; [typeclasses eauto | frame_go | intro s].
  cbv zeta.
  repeat (apply unsupported_frame;
          [typeclasses eauto | apply _raise_or_warning_silent |]).
  repeat (apply experimental_frame;
          [typeclasses eauto | intros; apply silent_log |]).
  frame_go.
Qed.

#[export] Hint Resolve _is_v1_supported_oracle_pure
  _is_v1_supported_oracle_silent : frames.

Lemma pure_keeps {A B : Type} (f : EngineArgs -> B) (m : M A) :
  pure m -> keeps f m.
Proof.
  intros Hm st r st1 E. unfold keepsR. f_equal. exact (Hm st r st1 E).
Qed.

(** ** Which attributes each block may assign

    [f] stands for an attribute, or any function of [self]; each block keeps
    it provided [f] does not depend on the attributes the block assigns. *)
Section Keeps.
Context {B : Type} (f : EngineArgs -> B).
Hypothesis f_model : forall v s, f (set_model v s) = f s.
Hypothesis f_load_format : forall v s, f (set_load_format v s) = f s.
Hypothesis f_quantization : forall v s, f (set_quantization v s) = f s.
Hypothesis f_enable_chunked_prefill :
  forall v s, f (set_enable_chunked_prefill v s) = f s.
Hypothesis f_enable_prefix_caching :
  forall v s, f (set_enable_prefix_caching v s) = f s.
Hypothesis f_max_num_seqs : forall v s, f (set_max_num_seqs v s) = f s.
Hypothesis f_max_num_batched_tokens :
  forall v s, f (set_max_num_batched_tokens v s) = f s.
Hypothesis f_num_scheduler_steps :
  forall v s, f (set_num_scheduler_steps v s) = f s.
Hypothesis f_model_loader_extra_config :
  forall v s, f (set_model_loader_extra_config v s) = f s.

Lemma create_model_config_keeps w : keeps f (create_model_config w).
Proof. unfold create_model_config. frame_go. Qed.

Lemma _set_default_args_v0_keeps w model_config :
  keeps f (_set_default_args_v0 w model_config).
Proof. unfold _set_default_args_v0. frame_go. Qed.

Lemma _set_default_args_v1_keeps w usage_context :
  keeps f (_set_default_args_v1 w usage_context).
Proof. unfold _set_default_args_v1. frame_go. Qed.

Lemma choose_runtime_keeps w usage_context :
  keeps f (choose_runtime w usage_context).
Proof.
  pose proof create_model_config_keeps.
  pose proof _set_default_args_v0_keeps.
  pose proof _set_default_args_v1_keeps.
  pose proof (fun w mc => pure_keeps f _ (_is_v1_supported_oracle_pure w mc)).
  unfold choose_runtime.
  repeat first [solve [auto] | frame_step].
Qed.

Lemma check_multi_step_keeps w speculative_config :
  keeps f (check_multi_step w speculative_config).
Proof. unfold check_multi_step. frame_go. Qed.

Lemma build_scheduler_keeps w l : keeps f (build_scheduler w l).
Proof.
  pose proof check_multi_step_keeps.
  unfold build_scheduler. repeat first [solve [auto] | frame_step].
Qed.

Lemma create_load_config_keeps w : keeps f (create_load_config w).
Proof. unfold create_load_config. frame_go. Qed.

Lemma build_load_keeps w l : keeps f (build_load w l).
Proof.
  pose proof create_load_config_keeps.
  unfold build_load. repeat first [solve [auto] | frame_step].
Qed.

End Keeps.

Lemma build_speculative_pure w l : pure (build_speculative w l).
Proof. unfold build_speculative. frame_go. Qed.

Lemma build_decoding_pure w l : pure (build_decoding w l).
Proof. unfold build_decoding. frame_go. Qed.

Lemma check_detailed_trace_modules_pure modules :
  pure (check_detailed_trace_modules modules).
Proof. induction modules as [| m rest IH]; simpl; frame_go. Qed.

Lemma assemble_pure w l : pure (assemble w l).
Proof.
  pose proof check_detailed_trace_modules_pure.
  unfold assemble. repeat first [solve [auto] | frame_step].
Qed.

Lemma _set_default_args_v0_silent w model_config :
  silent (_set_default_args_v0 w model_config).
Proof. unfold _set_default_args_v0. frame_go. Qed.

Lemma _set_default_args_v1_silent w usage_context :
  silent (_set_default_args_v1 w usage_context).
Proof. unfold _set_default_args_v1. frame_go. Qed.

Lemma check_multi_step_silent w speculative_config :
  silent (check_multi_step w speculative_config).
Proof. unfold check_multi_step. frame_go. Qed.

(** ** Following a method that returned *)

Lemma ret_inv {A : Type} (x : A) st r st1 :
  ret x st = (r, st1) -> r = Return x /\ st1 = st.
Proof. intros E. inversion E; subst. split; reflexivity. Qed.

Lemma get_self_inv st r st1 :
  get_self st = (r, st1) -> r = Return (self st) /\ st1 = st.
Proof. intros E. inversion E; subst. split; reflexivity. Qed.

Lemma lift_inv {A : Type} (o : outcome A) st r st1 :
  lift o st = (r, st1) -> r = o /\ st1 = st.
Proof. intros E. inversion E; subst. split; reflexivity. Qed.

Lemma assign_inv g st r st1 :
  assign g st = (r, st1) ->
  r = Return tt
  /\ st1 = {| self := g (self st);
              is_AsyncEngineArgs := is_AsyncEngineArgs st;
              events := events st |}.
Proof. intros E. inversion E; subst. split; reflexivity. Qed.

Lemma emit_inv e st r st1 :
  emit e st = (r, st1) ->
  r = Return tt
  /\ st1 = {| self := self st;
              is_AsyncEngineArgs := is_AsyncEngineArgs st;
              events := (events st ++ [e])%list |}.
Proof. intros E. inversion E; subst. split; reflexivity. Qed.

Lemma raise_inv {A : Type} e st (r : outcome A) st1 :
  raise e st = (r, st1) -> r = Raise e /\ st1 = st.
Proof. intros E. inversion E; subst. split; reflexivity. Qed.

(** Decompose a hypothesis [m st = (Return a, st1)] along the structure of
    [m], as far as [m] is built from the primitives. *)
Ltac follow_step :=
  match goal with
  | H : bind _ _ _ = (Return _, _) |- _ =>
      apply bind_Return_inv in H;
      let a := fresh "a" in
      let st := fresh "st" in
      let H1 := fresh "E" in
      destruct H as (a & st & H1 & H); cbv beta in H
  | H : ret _ _ = (_, _) |- _ =>
      apply ret_inv in H; destruct H as [H ?];
      try (injection H as H); subst
  | H : get_self _ = (_, _) |- _ =>
      apply get_self_inv in H; destruct H as [H ?];
      try (injection H as H); subst
  | H : lift _ _ = (_, _) |- _ =>
      apply lift_inv in H; destruct H as [H ?]; subst
  | H : assign _ _ = (_, _) |- _ =>
      apply assign_inv in H; destruct H as [H ?];
      try (injection H as H); subst
  | H : emit _ _ = (_, _) |- _ =>
      apply emit_inv in H; destruct H as [H ?];
      try (injection H as H); subst
  | H : logger_warning _ _ = (_, _) |- _ => unfold logger_warning in H
  | H : logger_info _ _ = (_, _) |- _ => unfold logger_info in H
  | H : logger_debug _ _ = (_, _) |- _ => unfold logger_debug in H
  | H : raise _ _ = (Return _, _) |- _ =>
      apply raise_inv in H; destruct H as [H _]; discriminate H
  | H : construct _ _ _ _ = (Return _, _) |- _ =>
      apply construct_Return_inv in H;
      let H1 := fresh "E" in
      let H2 := fresh "E" in
      let H3 := fresh "E" in
      let H4 := fresh "E" in
      destruct H as (H & H1 & H2 & H3 & H4); subst
  | H : Return _ = Return _ |- _ => injection H as H; subst
  | H : Return _ = Raise _ |- _ => discriminate H
  | H : Raise _ = Return _ |- _ => discriminate H
  end.

Ltac follow := repeat follow_step.

(** The same, also branching on the tests the method makes. *)
Ltac follow_branch :=
  match goal with
  | H : (if ?c then _ else _) _ = (_, _) |- _ =>
      let E := fresh "Hc" in destruct c eqn:E
  | H : (match ?x with _ => _ end) _ = (_, _) |- _ =>
      let E := fresh "Hc" in destruct x eqn:E
  end.

Ltac follow_all := repeat first [follow_step | follow_branch].

Lemma create_engine_config_Return_inv w uc st cfg st6 :
  create_engine_config w uc st = (Return cfg, st6) ->
  exists l1 st1 l2 st2 l3 st3 l4 st4 l5 st5,
    choose_runtime w uc st = (Return l1, st1)
    /\ build_speculative w l1 st1 = (Return l2, st2)
    /\ build_scheduler w l2 st2 = (Return l3, st3)
    /\ build_load w l3 st3 = (Return l4, st4)
    /\ build_decoding w l4 st4 = (Return l5, st5)
    /\ assemble w l5 st5 = (Return cfg, st6).
Proof.
  unfold create_engine_config, engine_upto_decoding, engine_upto_load,
    engine_upto_scheduler, engine_upto_speculative, engine_upto_runtime.
  intros H.
  apply bind_Return_inv in H. destruct H as (l5 & st5 & H & H6).
  apply bind_Return_inv in H. destruct H as (l4 & st4 & H & H5).
  apply bind_Return_inv in H. destruct H as (l3 & st3 & H & H4).
  apply bind_Return_inv in H. destruct H as (l2 & st2 & H & H3).
  apply bind_Return_inv in H. destruct H as (l1 & st1 & H1 & H2).
  exists l1, st1, l2, st2, l3, st3, l4, st4, l5, st5. auto 10.
Qed.

(** The values [build_speculative] carries over and adds. *)
Lemma build_speculative_Return w l1 st1 l2 st2 :
  build_speculative w l1 st1 = (Return l2, st2) ->
  in_runtime l2 = l1 /\ self st2 = self st1.
Proof.
  intros H. split.
  - unfold build_speculative in H. cbv zeta in H. follow_all; reflexivity.
  - exact (build_speculative_pure w l1 st1 _ _ H).
Qed.

(** After [check_multi_step] returns: multi-step scheduling was not combined
    with speculative decoding, and the step count is clamped on a CPU. *)
Lemma check_multi_step_Return w speculative_config st st1 :
  check_multi_step w speculative_config st = (Return tt, st1) ->
  (1 < num_scheduler_steps (self st) -> speculative_config = None)
  /\ self st1 =
       if (1 <? num_scheduler_steps (self st)) && is_cpu (current_platform w)
       then set_num_scheduler_steps 1 (self st) else self st.
Proof.
  unfold check_multi_step. intros H. follow.
  destruct (1 <? num_scheduler_steps (self st)) eqn:Hsteps; simpl.
  - destruct speculative_config as [sc |]; simpl in H; follow.
    destruct (truthy_bool (enable_chunked_prefill (self st))
              && (1 <? pipeline_parallel_size (self st))); follow.
    destruct (is_cpu (current_platform w)); follow; simpl;
      (split; [reflexivity | reflexivity]).
  - follow. split; [| reflexivity].
    intros Hlt. apply Z.ltb_lt in Hlt. congruence.
Qed.

(* ===================================================================== *)
(** * Load format and quantization ([create_load_config]) *)
(* ===================================================================== *)

Lemma opt_str_eqb_eq a b : opt_str_eqb a b = true <-> a = b.
Proof.
  destruct a as [x |], b as [y |]; simpl; split; intros H;
    try reflexivity; try discriminate H.
  - apply String.eqb_eq in H. congruence.
  - injection H as H. apply String.eqb_eq. exact H.
Qed.

Lemma opt_str_eqb_neq a b : opt_str_eqb a b = false <-> a <> b.
Proof.
  rewrite <- opt_str_eqb_eq. destruct (opt_str_eqb a b); split; intros H;
    try reflexivity; try discriminate H; try congruence.
Qed.

Lemma is_not_None_true {A : Type} (o : option A) :
  is_not_None o = true <-> o <> None.
Proof.
  destruct o; simpl; split; intros H; try reflexivity; try discriminate;
    try congruence.
Qed.

(** The [LoadConfig] that [create_load_config] asks for. *)
Definition requested_load_config (s : EngineArgs) : LoadConfig.t :=
  {| LoadConfig.load_format := load_format s;
     LoadConfig.download_dir := download_dir s;
     LoadConfig.model_loader_extra_config := model_loader_extra_config s;
     LoadConfig.ignore_patterns := ignore_patterns s |}.

(** The check in [create_load_config] alone.  It raises [ValueError] when
    the quantization is "bitsandbytes" or a QLoRA adapter path is given
    while the load format is not "bitsandbytes", and when the load format is
    "bitsandbytes" while the quantization is not; the object and the events
    are then as before the call.  It goes on to construct the requested
    [LoadConfig] when both are "bitsandbytes", or when neither is and no
    QLoRA adapter path is given. *)
Lemma create_load_config_bitsandbytes (w : World) (st : state) :
  ((quantization (self st) = Some "bitsandbytes"
    \/ qlora_adapter_name_or_path (self st) <> None) ->
   load_format (self st) <> "bitsandbytes" ->
   create_load_config w st
   = (Raise (ValueError
               ("BitsAndBytes quantization and QLoRA adapter only support "
                ++ "'bitsandbytes' load format, but got "
                ++ load_format (self st))),
      st))
  /\ (load_format (self st) = "bitsandbytes" ->
      quantization (self st) <> Some "bitsandbytes" ->
      create_load_config w st
      = (Raise (ValueError
                  ("BitsAndBytes load format and QLoRA adapter only support "
                   ++ "'bitsandbytes' quantization, but got "
                   ++ str_of_opt (quantization (self st)))),
         st))
  /\ ((quantization (self st) = Some "bitsandbytes"
       /\ load_format (self st) = "bitsandbytes")
      \/ (quantization (self st) <> Some "bitsandbytes"
          /\ load_format (self st) <> "bitsandbytes"
          /\ qlora_adapter_name_or_path (self st) = None) ->
      create_load_config w st
      = construct "LoadConfig" (LoadConfig_init w)
          (requested_load_config (self st)) st).
Proof.
  unfold create_load_config, bind, get_self, requested_load_config.
  repeat split.
  - intros Hq Hlf.
    replace (opt_str_eqb (quantization (self st)) (Some "bitsandbytes")
             || is_not_None (qlora_adapter_name_or_path (self st)))
      with true.
    + apply String.eqb_neq in Hlf. rewrite Hlf. reflexivity.
    + symmetry. apply orb_true_iff. destruct Hq as [Hq | Hq].
      * left. apply opt_str_eqb_eq. exact Hq.
      * right. apply is_not_None_true. exact Hq.
  - intros Hlf Hq.
    apply String.eqb_eq in Hlf. apply opt_str_eqb_neq in Hq.
    rewrite Hlf, Hq. simpl. rewrite andb_false_r. reflexivity.
  - intros [[Hq Hlf] | (Hq & Hlf & Hql)].
    + apply String.eqb_eq in Hlf. apply opt_str_eqb_eq in Hq.
      rewrite Hlf, Hq. simpl. reflexivity.
    + apply String.eqb_neq in Hlf. apply opt_str_eqb_neq in Hq.
      rewrite Hlf, Hq, Hql. reflexivity.
Qed.

(* ===================================================================== *)
(** * What a returned [VllmConfig] holds *)
(* ===================================================================== *)

Lemma build_scheduler_Return w l2 st2 l3 st3 :
  build_scheduler w l2 st2 = (Return l3, st3) ->
  in_speculative l3 = l2
  /\ (1 < num_scheduler_steps (self st2) -> speculative_config l2 = None)
  /\ self st3 =
       (if (1 <? num_scheduler_steps (self st2))
           && is_cpu (current_platform w)
        then set_num_scheduler_steps 1 (self st2) else self st2)
  /\ SchedulerConfig.num_lookahead_slots (scheduler_config l3)
     = resolve_num_lookahead_slots (self st3) (speculative_config l2)
  /\ SchedulerConfig.num_scheduler_steps (scheduler_config l3)
     = num_scheduler_steps (self st3)
  /\ SchedulerConfig.enable_chunked_prefill (scheduler_config l3)
     = enable_chunked_prefill (self st3).
Proof.
  unfold build_scheduler. cbv zeta. intros H.
  apply bind_Return_inv in H. destruct H as ([] & st & Hc & H).
  apply check_multi_step_Return in Hc. destruct Hc as [Hspec Hself].
  follow. simpl.
  match goal with E : self _ = self st |- _ => rewrite E end.
  repeat split; try reflexivity; assumption.
Qed.

Lemma build_load_Return w l3 st3 l4 st4 :
  build_load w l3 st3 = (Return l4, st4) ->
  in_scheduler l4 = l3
  /\ lora_config l4 =
       (if enable_lora (self st3) then
          Some (LoRAConfig.__post_init__
                  {| LoRAConfig.bias_enabled := enable_lora_bias (self st3);
                     LoRAConfig.max_lora_rank := max_lora_rank (self st3);
                     LoRAConfig.max_loras := max_loras (self st3);
                     LoRAConfig.fully_sharded_loras :=
                       fully_sharded_loras (self st3);
                     LoRAConfig.lora_extra_vocab_size :=
                       lora_extra_vocab_size (self st3);
                     LoRAConfig.long_lora_scaling_factors :=
                       long_lora_scaling_factors (self st3);
                     LoRAConfig.lora_dtype := lora_dtype (self st3);
                     LoRAConfig.max_cpu_loras :=
                       max_cpu_loras_argument (self st3) |})
        else None).
Proof.
  unfold build_load. intros H.
  apply bind_Return_inv in H. destruct H as (s & st & Hs & H).
  apply get_self_inv in Hs. destruct Hs as [Hs ->].
  injection Hs as Hs. subst s.
  apply bind_Return_inv in H. destruct H as (lc & st & Hl & H).
  apply bind_Return_inv in H. destruct H as (u & st' & Hq & H).
  apply bind_Return_inv in H. destruct H as (ld & st'' & Hld & H).
  apply ret_inv in H. destruct H as [H _]. injection H as H. subst l4.
  simpl. split; [reflexivity |].
  revert Hl. destruct (enable_lora (self st3)); intros Hl; follow;
    reflexivity.
Qed.

Lemma build_decoding_Return w l4 st4 l5 st5 :
  build_decoding w l4 st4 = (Return l5, st5) -> in_load l5 = l4.
Proof.
  unfold build_decoding. cbv zeta. intros H. follow_all; reflexivity.
Qed.

(** The loop over the trace modules neither assigns nor logs. *)
Lemma check_detailed_trace_modules_state modules st r st1 :
  check_detailed_trace_modules modules st = (r, st1) -> st1 = st.
Proof.
  induction modules as [| m rest IH]; cbn [check_detailed_trace_modules];
    intros H.
  - apply ret_inv in H. apply H.
  - destruct (negb (str_in m ALLOWED_DETAILED_TRACE_MODULES)).
    + apply raise_inv in H. apply H.
    + apply IH, H.
Qed.

Lemma assemble_Return w l5 st5 cfg st6 :
  assemble w l5 st5 = (Return cfg, st6) ->
  let l4 := in_load l5 in
  let l3 := in_scheduler l4 in
  let l2 := in_speculative l3 in
  let l1 := in_runtime l2 in
  VllmConfig.model_config cfg = model_config l1
  /\ VllmConfig.use_v1 cfg = use_v1 l1
  /\ VllmConfig.speculative_config cfg = speculative_config l2
  /\ VllmConfig.scheduler_config cfg = scheduler_config l3
  /\ VllmConfig.lora_config cfg = lora_config l4
  /\ VllmConfig.load_config cfg = load_config l4
  /\ check_detailed_trace_modules (detailed_trace_modules_of (self st5)) st5
     = (Return tt, st5).
Proof.
  unfold assemble. cbv zeta. intros H.
  apply bind_Return_inv in H. destruct H as (s & st & Hs & H).
  apply get_self_inv in Hs. destruct Hs as [Hs ->].
  injection Hs as Hs. subst s.
  apply bind_Return_inv in H. destruct H as ([] & st & Hc & H).
  pose proof (check_detailed_trace_modules_state _ _ _ _ Hc). subst st.
  follow. simpl. repeat split; try reflexivity. exact Hc.
Qed.


(* ===================================================================== *)
(** * Lookahead slots *)
(* ===================================================================== *)

(** The number of scheduler steps in force once [check_multi_step] has
    returned: on a CPU a multi-step request is clamped to one step. *)
Definition effective_scheduler_steps (w : World) (s : EngineArgs) : Z :=
  if (1 <? num_scheduler_steps s) && is_cpu (current_platform w) then 1
  else num_scheduler_steps s.

(** The attributes that [create_engine_config] reads for the scheduler but
    never assigns before it builds the scheduler configuration. *)
Lemma choose_runtime_keeps_steps w uc st l1 st1 :
  choose_runtime w uc st = (Return l1, st1) ->
  num_scheduler_steps (self st1) = num_scheduler_steps (self st)
  /\ num_lookahead_slots (self st1) = num_lookahead_slots (self st).
Proof.
  intros H. split.
  - refine (choose_runtime_keeps num_scheduler_steps _ _ _ _ _ _ _
              w uc st _ _ H); reflexivity.
  - refine (choose_runtime_keeps num_lookahead_slots _ _ _ _ _ _ _
              w uc st _ _ H); reflexivity.
Qed.

(** C2, claim as stated, refuted.  On a CPU host, with
    [num_lookahead_slots=0], [num_scheduler_steps=4] and no speculative
    configuration, resolution succeeds and the scheduler configuration gets
    0 lookahead slots, not max(0, 4 - 1) = 3. *)
Lemma lookahead_slots_cpu_counterexample :
  exists cfg st1,
    create_engine_config cpu_world None (fresh cpu_world multi_step_args)
    = (Return cfg, st1)
    /\ num_lookahead_slots (self (fresh cpu_world multi_step_args)) = 0
    /\ num_scheduler_steps (self (fresh cpu_world multi_step_args)) = 4
    /\ VllmConfig.speculative_config cfg = None
    /\ SchedulerConfig.num_lookahead_slots (VllmConfig.scheduler_config cfg)
       = 0
    /\ SchedulerConfig.num_lookahead_slots (VllmConfig.scheduler_config cfg)
       <> Z.max (num_lookahead_slots (self (fresh cpu_world multi_step_args)))
            (num_scheduler_steps (self (fresh cpu_world multi_step_args)) - 1).
Proof.
  eexists. eexists. split; [vm_compute; reflexivity |].
  repeat split; try reflexivity. vm_compute. discriminate.
Qed.

(** C2, amended.  Whenever resolution returns a configuration, the
    lookahead-slot count in its scheduler configuration is the speculative
    configuration's own count when there is one, and otherwise
    max(num_lookahead_slots, steps - 1), where steps is the scheduler-step
    count placed in the same scheduler configuration: the requested
    [num_scheduler_steps], except that on a CPU a request above 1 has been
    clamped to 1. *)
Theorem resolved_lookahead_slots (w : World) (uc : option UsageContext)
    (st : state) (cfg : VllmConfig.t) (st1 : state) :
  create_engine_config w uc st = (Return cfg, st1) ->
  SchedulerConfig.num_lookahead_slots (VllmConfig.scheduler_config cfg)
  = match VllmConfig.speculative_config cfg with
    | Some sc => SpeculativeConfig.num_lookahead_slots sc
    | None =>
        Z.max (num_lookahead_slots (self st))
          (SchedulerConfig.num_scheduler_steps
             (VllmConfig.scheduler_config cfg) - 1)
    end
  /\ SchedulerConfig.num_scheduler_steps (VllmConfig.scheduler_config cfg)
     = effective_scheduler_steps w (self st).
Proof.
  intros H.
  apply create_engine_config_Return_inv in H.
  destruct H as (l1 & s1 & l2 & s2 & l3 & s3 & l4 & s4 & l5 & s5
                 & H1 & H2 & H3 & H4 & H5 & H6).
  apply choose_runtime_keeps_steps in H1. destruct H1 as [Hsteps Hslots].
  apply build_speculative_Return in H2. destruct H2 as [_ Hs2].
  apply build_scheduler_Return in H3.
  destruct H3 as (Hl3 & _ & Hs3 & Hla & Hst & _).
  apply build_load_Return in H4. destruct H4 as [Hl4 _].
  apply build_decoding_Return in H5.
  apply assemble_Return in H6. cbv zeta in H6.
  destruct H6 as (_ & _ & Hspec & Hsched & _).
  rewrite H5, Hl4 in Hsched, Hspec. rewrite Hl3 in Hspec.
  rewrite Hsched, Hspec, Hla, Hst.
  assert (Hsteps3 : num_scheduler_steps (self s3)
                    = effective_scheduler_steps w (self st)).
  { rewrite Hs3, Hs2, Hsteps. unfold effective_scheduler_steps.
    destruct ((1 <? num_scheduler_steps (self st))
              && is_cpu (current_platform w));
      [reflexivity | exact Hsteps]. }
  assert (Hslots3 : num_lookahead_slots (self s3)
                    = num_lookahead_slots (self st)).
  { rewrite Hs3, Hs2.
    destruct ((1 <? num_scheduler_steps (self s1))
              && is_cpu (current_platform w)); exact Hslots. }
  split; [| exact Hsteps3].
  unfold resolve_num_lookahead_slots.
  destruct (speculative_config l2); [reflexivity |].
  rewrite Hslots3. reflexivity.
Qed.

(** C2, the amended statement at the inputs of the specification: on a GPU,
    0 explicit slots and 4 scheduler steps without speculative decoding
    resolve to 3 lookahead slots; a speculative configuration asking for 5
    resolves to 5. *)
Lemma resolved_lookahead_slots_witness :
  (exists cfg st1,
     create_engine_config gpu_world None (fresh gpu_world multi_step_args)
     = (Return cfg, st1)
     /\ VllmConfig.speculative_config cfg = None
     /\ SchedulerConfig.num_lookahead_slots (VllmConfig.scheduler_config cfg)
        = 3)
  /\ (exists cfg st1 sc,
        create_engine_config speculative_world None
          (fresh speculative_world ngram_args)
        = (Return cfg, st1)
        /\ VllmConfig.speculative_config cfg = Some sc
        /\ SpeculativeConfig.num_lookahead_slots sc = 5
        /\ SchedulerConfig.num_lookahead_slots
             (VllmConfig.scheduler_config cfg) = 5).
Proof.
  split.
  - eexists. eexists. split; [vm_compute; reflexivity |].
    split; [reflexivity |].
    pose proof (resolved_lookahead_slots gpu_world None
                  (fresh gpu_world multi_step_args) _ _
                  ltac:(vm_compute; reflexivity)) as [H _].
    rewrite H. vm_compute. reflexivity.
  - eexists. eexists. eexists. split; [vm_compute; reflexivity |].
    split; [reflexivity |]. split; [reflexivity |].
    pose proof (resolved_lookahead_slots speculative_world None
                  (fresh speculative_world ngram_args) _ _
                  ltac:(vm_compute; reflexivity)) as [H _].
    rewrite H. reflexivity.
Defined.

(* ===================================================================== *)
(** * The path of a resolution through [choose_runtime] *)
(* ===================================================================== *)

(** [st1] is [st] with one more event. *)
Definition after_event (e : event) (st st1 : state) : Prop :=
  self st1 = self st
  /\ is_AsyncEngineArgs st1 = is_AsyncEngineArgs st
  /\ events st1 = (events st ++ [e])%list.

Lemma create_model_config_Return w st mc st1 :
  create_model_config w st = (Return mc, st1) ->
  ModelConfig_init w (ModelConfig.kwargs mc) = Return (ModelConfig.attrs mc)
  /\ ModelConfig.kw.tokenizer (ModelConfig.kwargs mc) = tokenizer (self st)
  /\ ModelConfig.kw.model (ModelConfig.kwargs mc) = model (self st1)
  /\ ModelConfig.kw.quantization (ModelConfig.kwargs mc)
     = quantization (self st1)
  /\ ModelConfig.kw.seed (ModelConfig.kwargs mc) = seed (self st)
  /\ constructed (events st1)
     = (constructed (events st) ++ ["ModelConfig"])%list.
Proof.
  intros H0. pose proof H0 as H. unfold create_model_config in H.
  apply bind_Return_inv in H. destruct H as (s & sa & Hs & H).
  apply get_self_inv in Hs. destruct Hs as [Hs ->].
  injection Hs as Hs. subst s.
  apply bind_Return_inv in H. destruct H as (u1 & sb & Hgguf & H).
  apply bind_Return_inv in H. destruct H as (s & sa & Hs & H).
  apply get_self_inv in Hs. destruct Hs as [Hs ->].
  injection Hs as Hs. subst s.
  apply bind_Return_inv in H. destruct H as (async & sa & Ha & H).
  assert (sa = sb) as -> by (inversion Ha; reflexivity).
  apply bind_Return_inv in H. destruct H as (u2 & sc & Hs3 & H).
  apply bind_Return_inv in H. destruct H as (s & sa & Hs & H).
  apply get_self_inv in Hs. destruct Hs as [Hs ->].
  injection Hs as Hs. subst s.
  cbv zeta in H.
  apply bind_Return_inv in H. destruct H as (attrs & sa & Hinit & H).
  apply lift_inv in Hinit. destruct Hinit as [Hinit ->].
  apply bind_Return_inv in H. destruct H as (u3 & sd & He & H).
  apply emit_inv in He. destruct He as [_ ->].
  apply ret_inv in H. destruct H as [H ->]. injection H as H. subst mc.
  cbn [ModelConfig.kwargs ModelConfig.attrs ModelConfig.kw.tokenizer
       ModelConfig.kw.model ModelConfig.kw.quantization ModelConfig.kw.seed
       self events].
  assert (Hk : forall {B} (f : EngineArgs -> B),
             (forall v s, f (set_model v s) = f s) ->
             (forall v s, f (set_load_format v s) = f s) ->
             (forall v s, f (set_quantization v s) = f s) ->
             f (self sc) = f (self st)).
  { intros B f F1 F2 F3.
    exact (create_model_config_keeps f F1 F2 F3 w st _ _ H0). }
  assert (He : constructed (events sc) = constructed (events st)).
  { transitivity (constructed (events sb)).
    - refine ((_ : silent _) _ _ _ Hs3). frame_go.
    - refine ((_ : silent _) _ _ _ Hgguf). frame_go. }
  split; [symmetry; exact Hinit |].
  split; [apply (Hk _ tokenizer); reflexivity |].
  split; [reflexivity |]. split; [reflexivity |].
  split; [apply (Hk _ seed); reflexivity |].
  rewrite constructed_app, He. reflexivity.
Qed.

(** The runtime that [choose_runtime] settles on, given the oracle's
    answer. *)
Definition chosen_v1 (w : World) (supported : bool) : bool :=
  supported
  && (VLLM_USE_V1 (envs w)
      || (negb (is_set_VLLM_USE_V1 (envs w))
          && VLLM_USE_V1_BY_DEFAULT (envs w))).

Lemma choose_runtime_Return_inv w uc st l1 st1 :
  choose_runtime w uc st = (Return l1, st1) ->
  exists sd sm supported so su,
    after_event (Constructed "DeviceConfig") st sd
    /\ create_model_config w sd = (Return (model_config l1), sm)
    /\ _is_v1_supported_oracle w (model_config l1) sm
       = (Return supported, so)
    /\ use_v1 l1 = chosen_v1 w supported
    /\ self su = self so
    /\ constructed (events su) = constructed (events so)
    /\ (if use_v1 l1 then _set_default_args_v1 w uc
        else _set_default_args_v0 w (model_config l1)) su
       = (Return tt, st1).
Proof.
  unfold choose_runtime. intros H.
  apply bind_Return_inv in H. destruct H as (u0 & sa & Hp & H).
  apply lift_inv in Hp. destruct Hp as [_ ->].
  apply bind_Return_inv in H. destruct H as (s & sa & Hs & H).
  apply get_self_inv in Hs. destruct Hs as [Hs ->].
  injection Hs as Hs. subst s.
  apply bind_Return_inv in H. destruct H as (dc & sd & Hd & H).
  apply construct_Return_inv in Hd.
  destruct Hd as (-> & _ & Hd1 & Hd2 & Hd3).
  apply bind_Return_inv in H. destruct H as (mc & sm & Hm & H).
  apply bind_Return_inv in H. destruct H as (supported & so & Ho & H).
  apply bind_Return_inv in H. destruct H as (v1 & su & Hu & H).
  apply bind_Return_inv in H. destruct H as (u1 & sv & Ha & H).
  apply bind_Return_inv in H. destruct H as ([] & sw & Hdef & H).
  apply ret_inv in H. destruct H as [H ->]. injection H as H. subst l1.
  cbn [model_config use_v1].
  assert (Hv1 : v1 = chosen_v1 w supported
                /\ self su = self so
                /\ constructed (events su) = constructed (events so)).
  { unfold chosen_v1. revert Hu. destruct supported; cbv zeta.
    - destruct (VLLM_USE_V1 (envs w)
                || negb (is_set_VLLM_USE_V1 (envs w))
                   && VLLM_USE_V1_BY_DEFAULT (envs w));
        intros Hu; follow; simpl.
      + repeat split.
      + rewrite constructed_app. simpl. rewrite app_nil_r. repeat split.
    - intros Hu. follow. repeat split. }
  destruct Hv1 as (-> & Hsu & Heu).
  assert (sv = su) as ->.
  { revert Ha. destruct (is_set_VLLM_USE_V1 (envs w)).
    - destruct (Bool.eqb (chosen_v1 w supported) (VLLM_USE_V1 (envs w)));
        intros Ha; follow; reflexivity.
    - intros Ha. follow. reflexivity. }
  exists sd, sm, supported, so, su.
  repeat split; try assumption.
Qed.

Lemma choose_runtime_constructed w uc st l1 st1 :
  choose_runtime w uc st = (Return l1, st1) ->
  constructed (events st1)
  = (constructed (events st) ++ ["DeviceConfig"; "ModelConfig"])%list.
Proof.
  intros H. apply choose_runtime_Return_inv in H.
  destruct H as (sd & sm & supported & so & su
                 & (_ & _ & Hd) & Hm & Ho & _ & _ & Hu & Hdef).
  apply create_model_config_Return in Hm.
  destruct Hm as (_ & _ & _ & _ & _ & Hm).
  apply _is_v1_supported_oracle_silent in Ho.
  assert (Hs : constructed (events st1) = constructed (events su)).
  { destruct (use_v1 l1).
    - exact (_set_default_args_v1_silent _ _ _ _ _ Hdef).
    - exact (_set_default_args_v0_silent _ _ _ _ _ Hdef). }
  unfold silentR in Ho. rewrite Hs, Hu, Ho, Hm, Hd, constructed_app.
  simpl. rewrite <- app_assoc. reflexivity.
Qed.

Lemma build_speculative_constructed w l1 st1 l2 st2 :
  build_speculative w l1 st1 = (Return l2, st2) ->
  constructed (events st2)
  = (constructed (events st1)
     ++ ["CacheConfig"; "ParallelConfig"]
     ++ (if is_not_None (speculative_config l2) then ["SpeculativeConfig"]
         else []))%list.
Proof.
  unfold build_speculative. cbv zeta. intros H.
  follow_all; cbn [speculative_config is_not_None is_None negb];
    repeat match goal with
           | E : events _ = _ |- _ => rewrite E; clear E
           end;
    cbn [events]; rewrite ?constructed_app; simpl;
    rewrite <- ?app_assoc; simpl; rewrite ?app_nil_r; reflexivity.
Qed.

(* ===================================================================== *)
(** * Multi-step scheduling and speculative decoding *)
(* ===================================================================== *)

Lemma engine_upto_speculative_Return w uc st l2 st2 :
  engine_upto_speculative w uc st = (Return l2, st2) ->
  num_scheduler_steps (self st2) = num_scheduler_steps (self st)
  /\ constructed (events st2)
     = (constructed (events st)
        ++ ["DeviceConfig"; "ModelConfig"; "CacheConfig"; "ParallelConfig"]
        ++ (if is_not_None (speculative_config l2)
            then ["SpeculativeConfig"] else []))%list.
Proof.
  unfold engine_upto_speculative, engine_upto_runtime. intros H.
  apply bind_Return_inv in H. destruct H as (l1 & st1 & H1 & H2).
  pose proof (choose_runtime_keeps_steps _ _ _ _ _ H1) as [Hsteps _].
  pose proof (choose_runtime_constructed _ _ _ _ _ H1) as Hc1.
  pose proof (build_speculative_Return _ _ _ _ _ H2) as [_ Hself].
  pose proof (build_speculative_constructed _ _ _ _ _ H2) as Hc2.
  split.
  - rewrite Hself. exact Hsteps.
  - rewrite Hc2, Hc1, <- app_assoc. reflexivity.
Qed.

(** C3, claim as stated, refuted.  With [num_scheduler_steps=2] and a
    speculative configuration present, resolution does fail with the
    [ValueError], but at that moment the device, model, cache, parallel and
    speculative configurations have all been constructed. *)
Lemma multi_step_speculative_counterexample :
  1 < num_scheduler_steps ngram_multi_step_args
  /\ fst (create_engine_config speculative_world None
            (fresh speculative_world ngram_multi_step_args))
     = Raise (ValueError
                ("Speculative decoding is not supported with "
                 ++ "multi-step (--num-scheduler-steps > 1)"))
  /\ constructed
       (events (snd (create_engine_config speculative_world None
                       (fresh speculative_world ngram_multi_step_args))))
     = ["DeviceConfig"; "ModelConfig"; "CacheConfig"; "ParallelConfig";
        "SpeculativeConfig"]
  /\ constructed
       (events (snd (create_engine_config speculative_world None
                       (fresh speculative_world ngram_multi_step_args))))
     <> [].
Proof.
  split; [reflexivity |]. split; [vm_compute; reflexivity |].
  split; [vm_compute; reflexivity |]. vm_compute. discriminate.
Qed.

(** C3, amended.  When resolution has come as far as the speculative
    configuration, one is present and [num_scheduler_steps] exceeds 1,
    [create_engine_config] raises the [ValueError] at once.  By then the
    device, model, cache, parallel and speculative configurations have been
    constructed, in this order, and nothing else: the failure comes before
    the scheduler, LoRA, load, prompt-adapter, decoding and observability
    configurations and before the [VllmConfig] itself. *)
Theorem multi_step_with_speculative_fails (w : World)
    (uc : option UsageContext) (st : state) (l2 : locals_speculative)
    (st2 : state) (sc : SpeculativeConfig.t) :
  engine_upto_speculative w uc st = (Return l2, st2) ->
  speculative_config l2 = Some sc ->
  1 < num_scheduler_steps (self st) ->
  create_engine_config w uc st
  = (Raise (ValueError
              ("Speculative decoding is not supported with "
               ++ "multi-step (--num-scheduler-steps > 1)")),
     st2)
  /\ constructed (events st2)
     = (constructed (events st)
        ++ ["DeviceConfig"; "ModelConfig"; "CacheConfig"; "ParallelConfig";
            "SpeculativeConfig"])%list.
Proof.
  intros Hrun Hsc Hsteps.
  pose proof (engine_upto_speculative_Return _ _ _ _ _ Hrun) as [Hk Hc].
  split.
  - unfold create_engine_config, engine_upto_decoding, engine_upto_load,
      engine_upto_scheduler.
    apply bind_Raise. apply bind_Raise. apply bind_Raise.
    rewrite (bind_Return _ _ _ _ _ Hrun).
    unfold build_scheduler. cbv zeta. apply bind_Raise.
    unfold check_multi_step, bind at 1, get_self.
    rewrite Hk. apply Z.ltb_lt in Hsteps. rewrite Hsteps, Hsc. reflexivity.
  - rewrite Hc, Hsc. reflexivity.
Qed.

(** C3, the amended statement at [num_scheduler_steps=2] with n-gram
    speculative decoding. *)
Lemma multi_step_with_speculative_fails_witness :
  exists st2,
    create_engine_config speculative_world None
      (fresh speculative_world ngram_multi_step_args)
    = (Raise (ValueError
                ("Speculative decoding is not supported with "
                 ++ "multi-step (--num-scheduler-steps > 1)")),
       st2)
    /\ constructed (events st2)
       = ["DeviceConfig"; "ModelConfig"; "CacheConfig"; "ParallelConfig";
          "SpeculativeConfig"].
Proof.
  eexists.
  refine (multi_step_with_speculative_fails speculative_world None
            (fresh speculative_world ngram_multi_step_args) _ _ _
            ltac:(vm_compute; reflexivity) ltac:(reflexivity)
            ltac:(reflexivity)).
Defined.

(* ===================================================================== *)
(** * The oracle on features V1 does not support *)
(* ===================================================================== *)

(** [st] with one more event, and with one more log record. *)
Definition with_event (e : event) (st : state) : state :=
  {| self := self st;
     is_AsyncEngineArgs := is_AsyncEngineArgs st;
     events := events st ++ [e] |}.

Definition logging (lvl : level) (msg : string) (st : state) : state :=
  with_event (Log lvl msg) st.

(** How the oracle ends once a rule for an unsupported feature has applied:
    under [VLLM_USE_V1] it raises [NotImplementedError], leaving the state
    as it was; otherwise it logs one warning and answers [False]. *)
Definition falls_back (w : World) (m : M bool) : Prop :=
  forall st,
    if VLLM_USE_V1 (envs w) then
      exists msg, m st = (Raise (NotImplementedError msg), st)
    else
      exists msg, m st = (Return false, logging WARNING msg st).

Lemma unsupported_hit w feature_name recommend_to_remove rest :
  falls_back w (unsupported w true feature_name recommend_to_remove rest).
Proof.
  intros st. unfold unsupported, _raise_or_warning, bind.
  destruct (VLLM_USE_V1 (envs w)); eexists; reflexivity.
Qed.

Lemma unsupported_falls_back w cond feature_name recommend_to_remove rest :
  falls_back w rest ->
  falls_back w (unsupported w cond feature_name recommend_to_remove rest).
Proof.
  intros Hrest. destruct cond; [apply unsupported_hit | exact Hrest].
Qed.

Lemma falls_back_after_get_self w (k : EngineArgs -> M bool) (st : state) :
  falls_back w (k (self st)) ->
  if VLLM_USE_V1 (envs w) then
    exists msg, bind get_self k st = (Raise (NotImplementedError msg), st)
  else
    exists msg, bind get_self k st = (Return false, logging WARNING msg st).
Proof. intros H. exact (H st). Qed.

(** A non-default scheduling policy is met by the fourth rule at the
    latest. *)
Lemma oracle_scheduling_policy w model_config st :
  scheduling_policy (self st) <> "fcfs" ->
  if VLLM_USE_V1 (envs w) then
    exists msg,
      _is_v1_supported_oracle w model_config st
      = (Raise (NotImplementedError msg), st)
  else
    exists msg,
      _is_v1_supported_oracle w model_config st
      = (Return false, logging WARNING msg st).
Proof.
  intros Hp. unfold _is_v1_supported_oracle.
  apply falls_back_after_get_self. cbv zeta.
  do 3 apply unsupported_falls_back.
  apply String.eqb_neq in Hp.
  change (scheduling_policy EngineArgs_default) with "fcfs".
  rewrite Hp. apply unsupported_hit.
Qed.

(** A task other than "generate" is met by the fourteenth rule at the
    latest. *)
Lemma oracle_task w model_config st :
  ModelConfig.task model_config <> "generate" ->
  if VLLM_USE_V1 (envs w) then
    exists msg,
      _is_v1_supported_oracle w model_config st
      = (Raise (NotImplementedError msg), st)
  else
    exists msg,
      _is_v1_supported_oracle w model_config st
      = (Return false, logging WARNING msg st).
Proof.
  intros Hp. unfold _is_v1_supported_oracle.
  apply falls_back_after_get_self. cbv zeta.
  do 13 apply unsupported_falls_back.
  apply String.eqb_neq in Hp.
  unfold str_in, existsb. rewrite Hp. apply unsupported_hit.
Qed.

(** The oracle never answers [False] under [VLLM_USE_V1]: an unsupported
    feature raises, an experimental one is let through. *)
Lemma oracle_answer_under_V1 w model_config st supported st1 :
  _is_v1_supported_oracle w model_config st = (Return supported, st1) ->
  VLLM_USE_V1 (envs w) = true -> supported = true.
Proof.
  intros H Hv1. unfold _is_v1_supported_oracle in H.
  apply bind_Return_inv in H. destruct H as (s & sa & Hs & H).
  apply get_self_inv in Hs. destruct Hs as [Hs ->].
  injection Hs as Hs. subst s. cbv zeta in H.
  unfold unsupported, experimental, _raise_or_warning, _experimental_warning
    in H.
  rewrite Hv1 in H.
  repeat match type of H with
         | (if ?c then _ else _) _ = _ => destruct c
         | bind (raise _) _ _ = _ => discriminate H
         | bind (logger_warning _) _ _ = _ =>
             apply bind_Return_inv in H;
             let u := fresh "u" in
             let sx := fresh "sx" in
             let Hx := fresh "Hx" in
             destruct H as (u & sx & Hx & H); clear Hx
         end.
  all: apply ret_inv in H; destruct H as [H _]; injection H as H; exact H.
Qed.

(** The resolved runtime and model configuration come from
    [choose_runtime]. *)
Lemma create_engine_config_Return_runtime w uc st cfg st6 :
  create_engine_config w uc st = (Return cfg, st6) ->
  exists l1 st1,
    choose_runtime w uc st = (Return l1, st1)
    /\ VllmConfig.use_v1 cfg = use_v1 l1
    /\ VllmConfig.model_config cfg = model_config l1.
Proof.
  intros H. apply create_engine_config_Return_inv in H.
  destruct H as (l1 & s1 & l2 & s2 & l3 & s3 & l4 & s4 & l5 & s5
                 & H1 & H2 & H3 & H4 & H5 & H6).
  exists l1, s1. split; [exact H1 |].
  apply build_speculative_Return in H2. destruct H2 as [Hl2 _].
  apply build_scheduler_Return in H3. destruct H3 as (Hl3 & _).
  apply build_load_Return in H4. destruct H4 as [Hl4 _].
  apply build_decoding_Return in H5.
  apply assemble_Return in H6. cbv zeta in H6.
  destruct H6 as (Hm & Hv & _).
  rewrite H5, Hl4, Hl3, Hl2 in Hm, Hv. split; assumption.
Qed.

(** What the state is when the oracle is consulted: [self] differs from the
    caller's only in what [create_model_config] assigned. *)
Lemma choose_runtime_oracle_state w uc st l1 st1 :
  choose_runtime w uc st = (Return l1, st1) ->
  exists sm supported so,
    _is_v1_supported_oracle w (model_config l1) sm = (Return supported, so)
    /\ use_v1 l1 = chosen_v1 w supported
    /\ scheduling_policy (self sm) = scheduling_policy (self st)
    /\ enable_chunked_prefill (self sm) = enable_chunked_prefill (self st).
Proof.
  intros H. apply choose_runtime_Return_inv in H.
  destruct H as (sd & sm & supported & so & su
                 & (Hd & _ & _) & Hm & Ho & Hv & _).
  exists sm, supported, so. split; [exact Ho |]. split; [exact Hv |].
  split.
  - rewrite <- Hd.
    refine (create_model_config_keeps scheduling_policy _ _ _ w sd _ _ Hm);
      reflexivity.
  - rewrite <- Hd.
    refine (create_model_config_keeps enable_chunked_prefill _ _ _
              w sd _ _ Hm); reflexivity.
Qed.

(** When the oracle raises, so do [choose_runtime] and
    [create_engine_config], provided the device and model configurations
    could be constructed on the way to it. *)
Lemma create_engine_config_oracle_Raise w uc st mc sm e so :
  pre_register_and_update w = Return tt ->
  DeviceConfig_init w {| DeviceConfig.device := device (self st) |} = None ->
  create_model_config w (with_event (Constructed "DeviceConfig") st)
  = (Return mc, sm) ->
  _is_v1_supported_oracle w mc sm = (Raise e, so) ->
  create_engine_config w uc st = (Raise e, so).
Proof.
  intros Hpre Hdev Hmc Ho.
  unfold create_engine_config, engine_upto_decoding, engine_upto_load,
    engine_upto_scheduler, engine_upto_speculative, engine_upto_runtime.
  do 5 apply bind_Raise.
  unfold choose_runtime.
  rewrite (bind_Return _ _ st tt st)
    by (unfold lift; rewrite Hpre; reflexivity).
  rewrite (bind_Return _ _ st (self st) st) by reflexivity.
  rewrite (bind_Return _ _ st {| DeviceConfig.device := device (self st) |}
             (with_event (Constructed "DeviceConfig") st))
    by (unfold construct; rewrite Hdev; reflexivity).
  rewrite (bind_Return _ _ _ _ _ Hmc).
  apply bind_Raise. exact Ho.
Qed.

(** C5.  With a scheduling policy other than the default "fcfs": when
    [VLLM_USE_V1] does not force V1, the oracle logs one warning and answers
    [False], and every configuration that resolution returns runs on V0;
    when [VLLM_USE_V1] forces V1, the oracle raises [NotImplementedError],
    resolution never returns a configuration, and it ends with that
    [NotImplementedError] as soon as the device and model configurations
    have been constructed. *)
Theorem non_default_scheduling_policy (w : World) (uc : option UsageContext)
    (st : state) :
  scheduling_policy (self st) <> "fcfs" ->
  (VLLM_USE_V1 (envs w) = false ->
   (forall model_config,
      exists msg,
        _is_v1_supported_oracle w model_config st
        = (Return false, logging WARNING msg st))
   /\ (forall cfg st1,
         create_engine_config w uc st = (Return cfg, st1) ->
         VllmConfig.use_v1 cfg = false))
  /\ (VLLM_USE_V1 (envs w) = true ->
      (forall model_config,
         exists msg,
           _is_v1_supported_oracle w model_config st
           = (Raise (NotImplementedError msg), st))
      /\ (forall cfg st1,
            create_engine_config w uc st <> (Return cfg, st1))
      /\ (forall mc sm,
            pre_register_and_update w = Return tt ->
            DeviceConfig_init w {| DeviceConfig.device := device (self st) |}
            = None ->
            create_model_config w (with_event (Constructed "DeviceConfig") st)
            = (Return mc, sm) ->
            exists msg,
              create_engine_config w uc st
              = (Raise (NotImplementedError msg), sm))).
Proof.
  intros Hp.
  assert (Hengine : forall cfg st1,
             create_engine_config w uc st = (Return cfg, st1) ->
             VLLM_USE_V1 (envs w) = false /\ VllmConfig.use_v1 cfg = false).
  { intros cfg st1 H.
    apply create_engine_config_Return_runtime in H.
    destruct H as (l1 & s1 & H1 & Hv & _).
    apply choose_runtime_oracle_state in H1.
    destruct H1 as (sm & supported & so & Ho & Hc & Hpol & _).
    rewrite <- Hpol in Hp.
    pose proof (oracle_scheduling_policy w (model_config l1) sm Hp) as Hf.
    destruct (VLLM_USE_V1 (envs w)); destruct Hf as [msg Hf];
      rewrite Hf in Ho; [discriminate Ho |].
    injection Ho as Hs _. subst supported.
    split; [reflexivity |]. rewrite Hv, Hc. reflexivity. }
  split; intros Hv1.
  - split.
    + intros mc. pose proof (oracle_scheduling_policy w mc st Hp) as Hf.
      rewrite Hv1 in Hf. exact Hf.
    + intros cfg st1 H. apply (Hengine cfg st1 H).
  - split; [| split].
    + intros mc. pose proof (oracle_scheduling_policy w mc st Hp) as Hf.
      rewrite Hv1 in Hf. exact Hf.
    + intros cfg st1 H. destruct (Hengine cfg st1 H) as [Hv0 _]. congruence.
    + intros mc sm Hpre Hdev Hmc.
      assert (Hpol : scheduling_policy (self sm) <> "fcfs").
      { replace (scheduling_policy (self sm))
          with (scheduling_policy (self st)); [exact Hp |].
        symmetry.
        refine (create_model_config_keeps scheduling_policy _ _ _
                  w _ _ _ Hmc); reflexivity. }
      pose proof (oracle_scheduling_policy w mc sm Hpol) as Hf.
      rewrite Hv1 in Hf. destruct Hf as [msg Hf]. exists msg.
      exact (create_engine_config_oracle_Raise w uc st mc sm _ _
               Hpre Hdev Hmc Hf).
Qed.

(** C5 at [scheduling_policy="priority"] on an H100: with [VLLM_USE_V1]
    unset the oracle warns and answers [False]; under [VLLM_USE_V1=1]
    resolution ends with [NotImplementedError]. *)
Lemma non_default_scheduling_policy_witness :
  (exists cfg st1,
     create_engine_config gpu_world None (fresh gpu_world priority_args)
     = (Return cfg, st1)
     /\ VllmConfig.use_v1 cfg = false)
  /\ (exists msg sm,
        create_engine_config forced_v1_world None
          (fresh forced_v1_world priority_args)
        = (Raise (NotImplementedError msg), sm)).
Proof.
  split.
  - eexists. eexists. split; [vm_compute; reflexivity |].
    refine (proj2 (proj1 (non_default_scheduling_policy gpu_world None
                            (fresh gpu_world priority_args)
                            ltac:(vm_compute; discriminate))
                     eq_refl)
              _ _ ltac:(vm_compute; reflexivity)).
  - destruct (proj2 (proj2 (proj2 (non_default_scheduling_policy
                                     forced_v1_world None
                                     (fresh forced_v1_world priority_args)
                                     ltac:(vm_compute; discriminate))
                              eq_refl))
                _ _ eq_refl eq_refl ltac:(vm_compute; reflexivity))
      as [msg H].
    exists msg. eexists. exact H.
Defined.

(* ===================================================================== *)
(** * Chunked prefill *)
(* ===================================================================== *)

(** [_set_default_args_v1] always returns, and with chunked prefill on. *)
Lemma _set_default_args_v1_Return w uc st :
  exists st1,
    _set_default_args_v1 w uc st = (Return tt, st1)
    /\ enable_chunked_prefill (self st1) = Some true.
Proof.
  unfold _set_default_args_v1. cbv zeta.
  set (table := if _ : bool then _ else _).
  set (value := match uc with Some u => _ | None => _ end).
  unfold bind, assign, get_self, logger_debug, emit, ret.
  cbn [self is_AsyncEngineArgs events].
  destruct (if is_None
                 (max_num_batched_tokens
                    (set_enable_chunked_prefill (Some true) (self st)))
            then usage_lookup uc table else None) as [n |];
    cbn [self is_AsyncEngineArgs events];
    match goal with
    | |- context [if ?c then _ else _] => destruct c
    end;
    eexists; split; reflexivity.
Qed.

(** The scheduler is built with the value of [enable_chunked_prefill] that
    the defaults left. *)
Lemma create_engine_config_chunked_prefill w uc st cfg st6 :
  create_engine_config w uc st = (Return cfg, st6) ->
  exists l1 st1,
    choose_runtime w uc st = (Return l1, st1)
    /\ VllmConfig.use_v1 cfg = use_v1 l1
    /\ VllmConfig.model_config cfg = model_config l1
    /\ SchedulerConfig.enable_chunked_prefill (VllmConfig.scheduler_config cfg)
       = enable_chunked_prefill (self st1).
Proof.
  intros H. apply create_engine_config_Return_inv in H.
  destruct H as (l1 & s1 & l2 & s2 & l3 & s3 & l4 & s4 & l5 & s5
                 & H1 & H2 & H3 & H4 & H5 & H6).
  exists l1, s1. split; [exact H1 |].
  apply build_speculative_Return in H2. destruct H2 as [Hl2 Hs2].
  apply build_scheduler_Return in H3.
  destruct H3 as (Hl3 & _ & Hs3 & _ & _ & Hecp).
  apply build_load_Return in H4. destruct H4 as [Hl4 _].
  apply build_decoding_Return in H5.
  apply assemble_Return in H6. cbv zeta in H6.
  destruct H6 as (Hm & Hv & _ & Hsched & _).
  rewrite H5, Hl4 in Hsched. rewrite H5, Hl4, Hl3, Hl2 in Hm, Hv.
  repeat split; try assumption.
  rewrite Hsched, Hecp, Hs3, Hs2.
  destruct ((1 <? num_scheduler_steps (self s1))
            && is_cpu (current_platform w)); reflexivity.
Qed.

(** C6.  Whenever resolution returns a configuration that runs on V1, its
    scheduler configuration has chunked prefill enabled, whatever the
    caller's [enable_chunked_prefill] was; and [_set_default_args_v1]
    itself always returns, leaving [enable_chunked_prefill] true. *)
Theorem v1_forces_chunked_prefill (w : World) (uc : option UsageContext)
    (st : state) :
  (forall cfg st1,
     create_engine_config w uc st = (Return cfg, st1) ->
     VllmConfig.use_v1 cfg = true ->
     SchedulerConfig.enable_chunked_prefill (VllmConfig.scheduler_config cfg)
     = Some true)
  /\ (exists st1,
        _set_default_args_v1 w uc st = (Return tt, st1)
        /\ enable_chunked_prefill (self st1) = Some true).
Proof.
  split; [| apply _set_default_args_v1_Return].
  intros cfg st6 H Hv1.
  apply create_engine_config_chunked_prefill in H.
  destruct H as (l1 & s1 & H1 & Hv & _ & Hecp).
  rewrite Hecp. rewrite Hv in Hv1.
  apply choose_runtime_Return_inv in H1.
  destruct H1 as (sd & sm & supported & so & su & _ & _ & _ & _ & _ & _ & Hd).
  rewrite Hv1 in Hd.
  destruct (_set_default_args_v1_Return w uc su) as (s1' & Hr & He).
  rewrite Hr in Hd. injection Hd as Hd. subst s1'. exact He.
Qed.

(** C6 on an H100 with [VLLM_USE_V1] unset, for a caller that asked for
    [enable_chunked_prefill=False]: V1 is chosen and chunked prefill is
    on. *)
Lemma v1_forces_chunked_prefill_witness :
  enable_chunked_prefill (self (fresh gpu_world no_chunked_prefill_args))
  = Some false
  /\ exists cfg st1,
       create_engine_config gpu_world (Some LLM_CLASS)
         (fresh gpu_world no_chunked_prefill_args)
       = (Return cfg, st1)
       /\ VllmConfig.use_v1 cfg = true
       /\ SchedulerConfig.enable_chunked_prefill
            (VllmConfig.scheduler_config cfg) = Some true.
Proof.
  split; [reflexivity |].
  eexists. eexists. split; [vm_compute; reflexivity |].
  split; [reflexivity |].
  refine (proj1 (v1_forces_chunked_prefill gpu_world (Some LLM_CLASS)
                   (fresh gpu_world no_chunked_prefill_args))
            _ _ ltac:(vm_compute; reflexivity) eq_refl).
Defined.

(** The pooling check of the V0 defaults. *)
Lemma _set_default_args_v0_pooling w model_config st :
  enable_chunked_prefill (self st) = Some true ->
  ModelConfig.runner_type model_config = "pooling" ->
  _set_default_args_v0 w model_config st
  = (Raise (ValueError "Chunked prefill is not supported for pooling models"),
     st).
Proof.
  intros Hecp Hrun. unfold _set_default_args_v0. cbv zeta.
  unfold bind at 1, get_self. rewrite Hecp. cbn [is_None].
  unfold bind at 1, ret. unfold bind at 1. rewrite Hecp, Hrun.
  reflexivity.
Qed.

(** When the oracle answers [False], with [VLLM_USE_V1] not forcing V1, and
    the V0 defaults raise, so does [create_engine_config]. *)
Lemma create_engine_config_v0_defaults_Raise w uc st mc sm so e st1 :
  pre_register_and_update w = Return tt ->
  DeviceConfig_init w {| DeviceConfig.device := device (self st) |} = None ->
  create_model_config w (with_event (Constructed "DeviceConfig") st)
  = (Return mc, sm) ->
  _is_v1_supported_oracle w mc sm = (Return false, so) ->
  VLLM_USE_V1 (envs w) = false ->
  _set_default_args_v0 w mc so = (Raise e, st1) ->
  create_engine_config w uc st = (Raise e, st1).
Proof.
  intros Hpre Hdev Hmc Ho Hv1 Hdef.
  unfold create_engine_config, engine_upto_decoding, engine_upto_load,
    engine_upto_scheduler, engine_upto_speculative, engine_upto_runtime.
  do 5 apply bind_Raise.
  unfold choose_runtime.
  rewrite (bind_Return _ _ st tt st)
    by (unfold lift; rewrite Hpre; reflexivity).
  rewrite (bind_Return _ _ st (self st) st) by reflexivity.
  rewrite (bind_Return _ _ st {| DeviceConfig.device := device (self st) |}
             (with_event (Constructed "DeviceConfig") st))
    by (unfold construct; rewrite Hdev; reflexivity).
  rewrite (bind_Return _ _ _ _ _ Hmc).
  rewrite (bind_Return _ _ _ _ _ Ho).
  rewrite (bind_Return _ _ so false so) by reflexivity.
  rewrite (bind_Return _ _ so tt so)
    by (rewrite Hv1; destruct (is_set_VLLM_USE_V1 (envs w)); reflexivity).
  apply bind_Raise. exact Hdef.
Qed.

(** C4, claim as stated, refuted.  Under [VLLM_USE_V1=1], with chunked
    prefill requested and an embedding model (task "embed", runner type
    "pooling"), resolution does not end with the pooling validation error:
    the oracle has already raised [NotImplementedError] for the task, and
    the pooling check, which only [_set_default_args_v0] makes, is never
    reached. *)
Lemma chunked_prefill_pooling_forced_v1_counterexample :
  enable_chunked_prefill
    (self (fresh forced_v1_embedding_world chunked_prefill_args))
  = Some true
  /\ fst (create_engine_config forced_v1_embedding_world None
            (fresh forced_v1_embedding_world chunked_prefill_args))
     = Raise (NotImplementedError
                "VLLM_USE_V1=1 is not supported with --task embed")
  /\ fst (create_engine_config forced_v1_embedding_world None
            (fresh forced_v1_embedding_world chunked_prefill_args))
     <> Raise (ValueError
                 "Chunked prefill is not supported for pooling models").
Proof.
  split; [reflexivity |]. split; [vm_compute; reflexivity |].
  vm_compute. discriminate.
Qed.

(** C4, amended.  The pooling check is part of the V0 defaults only:
    [_set_default_args_v0] raises the [ValueError] whenever chunked prefill
    is requested for a model whose runner type is "pooling".  For such a
    model, with a task other than "generate", resolution fails once the
    device and model configurations have been constructed: with that
    [ValueError] when [VLLM_USE_V1] does not force V1 (the oracle has logged
    its warning and V0 was chosen), and with the oracle's
    [NotImplementedError] when it does. *)
Theorem chunked_prefill_pooling (w : World) (uc : option UsageContext)
    (st : state) (mc : ModelConfig.t) (sm : state) :
  enable_chunked_prefill (self st) = Some true ->
  ModelConfig.runner_type mc = "pooling" ->
  _set_default_args_v0 w mc st
  = (Raise (ValueError "Chunked prefill is not supported for pooling models"),
     st)
  /\ (ModelConfig.task mc <> "generate" ->
      pre_register_and_update w = Return tt ->
      DeviceConfig_init w {| DeviceConfig.device := device (self st) |}
      = None ->
      create_model_config w (with_event (Constructed "DeviceConfig") st)
      = (Return mc, sm) ->
      if VLLM_USE_V1 (envs w) then
        exists msg,
          create_engine_config w uc st = (Raise (NotImplementedError msg), sm)
      else
        exists msg,
          create_engine_config w uc st
          = (Raise (ValueError
                      "Chunked prefill is not supported for pooling models"),
             logging WARNING msg sm)).
Proof.
  intros Hecp Hrun.
  split; [apply _set_default_args_v0_pooling; assumption |].
  intros Htask Hpre Hdev Hmc.
  pose proof (oracle_task w mc sm Htask) as Ho.
  destruct (VLLM_USE_V1 (envs w)) eqn:Hv1; destruct Ho as [msg Ho];
    exists msg.
  - exact (create_engine_config_oracle_Raise w uc st mc sm _ _
             Hpre Hdev Hmc Ho).
  - refine (create_engine_config_v0_defaults_Raise w uc st mc sm _ _ _
              Hpre Hdev Hmc Ho Hv1 _).
    apply _set_default_args_v0_pooling; [| exact Hrun].
    cbn [logging with_event self]. rewrite <- Hecp.
    refine (create_model_config_keeps enable_chunked_prefill _ _ _
              w _ _ _ Hmc); reflexivity.
Qed.

(** C4, the amended statement for an embedding model with chunked prefill
    requested: the [ValueError] with [VLLM_USE_V1] unset, the
    [NotImplementedError] under [VLLM_USE_V1=1]. *)
Lemma chunked_prefill_pooling_witness :
  (exists st1,
     create_engine_config embedding_world None
       (fresh embedding_world chunked_prefill_args)
     = (Raise (ValueError
                 "Chunked prefill is not supported for pooling models"),
        st1))
  /\ (exists msg st1,
        create_engine_config forced_v1_embedding_world None
          (fresh forced_v1_embedding_world chunked_prefill_args)
        = (Raise (NotImplementedError msg), st1)).
Proof.
  split.
  - assert (Hmc : exists mc sm,
               create_model_config embedding_world
                 (with_event (Constructed "DeviceConfig")
                    (fresh embedding_world chunked_prefill_args))
               = (Return mc, sm)
               /\ ModelConfig.runner_type mc = "pooling"
               /\ ModelConfig.task mc <> "generate").
    { eexists. eexists. split; [vm_compute; reflexivity |].
      split; [reflexivity | vm_compute; discriminate]. }
    destruct Hmc as (mc & sm & Hmc & Hr & Ht).
    destruct (proj2 (chunked_prefill_pooling embedding_world None
                       (fresh embedding_world chunked_prefill_args) mc sm
                       eq_refl Hr)
                Ht eq_refl eq_refl Hmc) as [msg H].
    eexists. exact H.
  - assert (Hmc : exists mc sm,
               create_model_config forced_v1_embedding_world
                 (with_event (Constructed "DeviceConfig")
                    (fresh forced_v1_embedding_world chunked_prefill_args))
               = (Return mc, sm)
               /\ ModelConfig.runner_type mc = "pooling"
               /\ ModelConfig.task mc <> "generate").
    { eexists. eexists. split; [vm_compute; reflexivity |].
      split; [reflexivity | vm_compute; discriminate]. }
    destruct Hmc as (mc & sm & Hmc & Hr & Ht).
    destruct (proj2 (chunked_prefill_pooling forced_v1_embedding_world None
                       (fresh forced_v1_embedding_world chunked_prefill_args)
                       mc sm eq_refl Hr)
                Ht eq_refl eq_refl Hmc) as [msg H].
    exists msg. eexists. exact H.
Defined.

(* ===================================================================== *)
(** * Attributes that resolution never assigns *)
(* ===================================================================== *)

Section KeepsEngine.
Context {B : Type} (f : EngineArgs -> B).
Hypothesis f_model : forall v s, f (set_model v s) = f s.
Hypothesis f_load_format : forall v s, f (set_load_format v s) = f s.
Hypothesis f_quantization : forall v s, f (set_quantization v s) = f s.
Hypothesis f_enable_chunked_prefill :
  forall v s, f (set_enable_chunked_prefill v s) = f s.
Hypothesis f_enable_prefix_caching :
  forall v s, f (set_enable_prefix_caching v s) = f s.
Hypothesis f_max_num_seqs : forall v s, f (set_max_num_seqs v s) = f s.
Hypothesis f_max_num_batched_tokens :
  forall v s, f (set_max_num_batched_tokens v s) = f s.
Hypothesis f_num_scheduler_steps :
  forall v s, f (set_num_scheduler_steps v s) = f s.
Hypothesis f_model_loader_extra_config :
  forall v s, f (set_model_loader_extra_config v s) = f s.

Lemma engine_upto_scheduler_keeps w uc : keeps f (engine_upto_scheduler w uc).
Proof.
  unfold engine_upto_scheduler, engine_upto_speculative, engine_upto_runtime.
  apply frame_bind; [typeclasses eauto | | intro].
  - apply frame_bind; [typeclasses eauto | | intro].
    + apply choose_runtime_keeps; assumption.
    + apply pure_keeps, build_speculative_pure.
  - apply build_scheduler_keeps; assumption.
Qed.

Lemma engine_upto_decoding_keeps w uc : keeps f (engine_upto_decoding w uc).
Proof.
  unfold engine_upto_decoding, engine_upto_load.
  apply frame_bind; [typeclasses eauto | | intro].
  - apply frame_bind; [typeclasses eauto | | intro].
    + apply engine_upto_scheduler_keeps.
    + apply build_load_keeps; assumption.
  - apply pure_keeps, build_decoding_pure.
Qed.

Lemma create_engine_config_keeps w uc : keeps f (create_engine_config w uc).
Proof.
  unfold create_engine_config.
  apply frame_bind; [typeclasses eauto | | intro].
  - apply engine_upto_decoding_keeps.
  - apply pure_keeps, assemble_pure.
Qed.

End KeepsEngine.

(* ===================================================================== *)
(** * Detailed-trace modules *)
(* ===================================================================== *)

(** The text of the [ValueError] for an unknown module [m]. *)
Definition invalid_module_message (m : string) : string :=
  "Invalid module " ++ m ++ " in collect_detailed_traces. "
  ++ "Valid modules are " ++ repr_str_list ALLOWED_DETAILED_TRACE_MODULES.

(** The first requested module that is not allowed, if any. *)
Definition first_invalid_module (modules : list string) : option string :=
  find (fun m => negb (str_in m ALLOWED_DETAILED_TRACE_MODULES)) modules.

Lemma check_detailed_trace_modules_spec modules st :
  check_detailed_trace_modules modules st
  = match first_invalid_module modules with
    | Some m => (Raise (ValueError (invalid_module_message m)), st)
    | None => (Return tt, st)
    end.
Proof.
  unfold first_invalid_module.
  induction modules as [| m rest IH];
    cbn [check_detailed_trace_modules find]; [reflexivity |].
  destruct (negb (str_in m ALLOWED_DETAILED_TRACE_MODULES));
    [reflexivity | exact IH].
Qed.

Lemma prefix_append (p s : string) : String.prefix p (p ++ s) = true.
Proof.
  induction p as [| c p IH]; simpl.
  - destruct s; reflexivity.
  - destruct (ascii_dec c c) as [_ | Hne]; [exact IH | contradiction].
Qed.

Lemma substring_in_append (p a s : string) :
  substring_in p s = true -> substring_in p (a ++ s) = true.
Proof.
  intros H. induction a as [| c a IH]; [exact H |].
  cbn [append substring_in]. rewrite IH. apply orb_true_r.
Qed.

Lemma substring_in_middle (a p b : string) :
  substring_in p (a ++ p ++ b) = true.
Proof.
  apply substring_in_append.
  destruct (p ++ b) eqn:E; cbn [substring_in];
    rewrite <- E, prefix_append; reflexivity.
Qed.

(** The message names the module. *)
Lemma invalid_module_message_names m :
  substring_in m (invalid_module_message m) = true.
Proof. unfold invalid_module_message. apply substring_in_middle. Qed.

(** A request for detailed traces is met by the seventeenth rule of the
    oracle at the latest (lines 1475-1479). *)
Lemma oracle_detailed_traces w model_config st :
  truthy_str (collect_detailed_traces (self st)) = true ->
  if VLLM_USE_V1 (envs w) then
    exists msg,
      _is_v1_supported_oracle w model_config st
      = (Raise (NotImplementedError msg), st)
  else
    exists msg,
      _is_v1_supported_oracle w model_config st
      = (Return false, logging WARNING msg st).
Proof.
  intros Hp. unfold _is_v1_supported_oracle.
  apply falls_back_after_get_self. cbv zeta.
  do 16 apply unsupported_falls_back.
  rewrite Hp, orb_true_r. apply unsupported_hit.
Qed.




(* ===================================================================== *)
(** * LoRA *)
(* ===================================================================== *)

(** An unset or non-positive [max_cpu_loras] is passed on as [None]. *)
Lemma max_cpu_loras_argument_None s :
  max_cpu_loras s = None
  \/ (exists c, max_cpu_loras s = Some c /\ c <= 0) ->
  max_cpu_loras_argument s = None.
Proof.
  unfold max_cpu_loras_argument. intros [-> | (c & -> & Hc)];
    [reflexivity |].
  destruct (0 <? c) eqn:E; [apply Z.ltb_lt in E; lia |].
  rewrite andb_false_r. reflexivity.
Qed.

(** C8.  Whenever resolution returns a configuration for arguments with
    LoRA enabled and [max_cpu_loras] unset or not positive, the
    configuration has a [LoRAConfig] whose [max_cpu_loras] is [max_loras]. *)
Theorem lora_max_cpu_loras_default (w : World) (uc : option UsageContext)
    (st : state) (cfg : VllmConfig.t) (st1 : state) :
  create_engine_config w uc st = (Return cfg, st1) ->
  enable_lora (self st) = true ->
  max_cpu_loras (self st) = None
  \/ (exists c, max_cpu_loras (self st) = Some c /\ c <= 0) ->
  exists lora,
    VllmConfig.lora_config cfg = Some lora
    /\ LoRAConfig.max_loras lora = max_loras (self st)
    /\ LoRAConfig.max_cpu_loras lora = Some (max_loras (self st)).
Proof.
  intros H Hlora Hcpu.
  apply create_engine_config_Return_inv in H.
  destruct H as (l1 & s1 & l2 & s2 & l3 & s3 & l4 & s4 & l5 & s5
                 & H1 & H2 & H3 & H4 & H5 & H6).
  assert (Hs3 : engine_upto_scheduler w uc st = (Return l3, s3)).
  { unfold engine_upto_scheduler, engine_upto_speculative,
      engine_upto_runtime.
    rewrite (bind_Return _ _ st l2 s2); [exact H3 |].
    rewrite (bind_Return _ _ _ _ _ H1). exact H2. }
  assert (Hk : forall {B} (f : EngineArgs -> B),
             (forall v s, f (set_model v s) = f s) ->
             (forall v s, f (set_load_format v s) = f s) ->
             (forall v s, f (set_quantization v s) = f s) ->
             (forall v s, f (set_enable_chunked_prefill v s) = f s) ->
             (forall v s, f (set_enable_prefix_caching v s) = f s) ->
             (forall v s, f (set_max_num_seqs v s) = f s) ->
             (forall v s, f (set_max_num_batched_tokens v s) = f s) ->
             (forall v s, f (set_num_scheduler_steps v s) = f s) ->
             f (self s3) = f (self st)).
  { intros B f F1 F2 F3 F4 F5 F6 F7 F8.
    exact (engine_upto_scheduler_keeps f F1 F2 F3 F4 F5 F6 F7 F8
             w uc st _ _ Hs3). }
  apply build_load_Return in H4. destruct H4 as [_ Hl4].
  apply build_decoding_Return in H5.
  apply assemble_Return in H6. cbv zeta in H6.
  destruct H6 as (_ & _ & _ & _ & Hlc & _).
  rewrite H5, Hl4 in Hlc.
  rewrite (Hk _ enable_lora) in Hlc by reflexivity. rewrite Hlora in Hlc.
  eexists. split; [exact Hlc |].
  assert (Harg : max_cpu_loras_argument (self s3) = None).
  { apply max_cpu_loras_argument_None.
    rewrite (Hk _ max_cpu_loras) by reflexivity. exact Hcpu. }
  unfold LoRAConfig.__post_init__.
  cbn [LoRAConfig.max_cpu_loras LoRAConfig.max_loras]. rewrite Harg.
  cbn [LoRAConfig.max_cpu_loras LoRAConfig.max_loras].
  rewrite (Hk _ max_loras) by reflexivity. split; reflexivity.
Qed.

(** C8 at [enable_lora=True], [max_loras=4], [max_cpu_loras] unset: the
    resolved [LoRAConfig] has [max_cpu_loras] 4. *)
Lemma lora_max_cpu_loras_default_witness :
  exists cfg st1 lora,
    create_engine_config forced_v0_world None
      (fresh forced_v0_world lora_args)
    = (Return cfg, st1)
    /\ VllmConfig.lora_config cfg = Some lora
    /\ LoRAConfig.max_cpu_loras lora = Some 4.
Proof.
  assert (Hrun : exists cfg st1,
             create_engine_config forced_v0_world None
               (fresh forced_v0_world lora_args)
             = (Return cfg, st1)).
  { eexists. eexists. vm_compute. reflexivity. }
  destruct Hrun as (cfg & st1 & Hrun).
  destruct (lora_max_cpu_loras_default forced_v0_world None
              (fresh forced_v0_world lora_args) cfg st1 Hrun eq_refl
              (or_introl eq_refl))
    as (lora & Hl & _ & Hc).
  exists cfg, st1, lora. split; [exact Hrun |]. split; [exact Hl |].
  exact Hc.
Defined.

(* ===================================================================== *)
(** * The tokenizer default *)
(* ===================================================================== *)

Lemma __post_init___tokenizer w async fields r st0 :
  new_EngineArgs w async fields = (r, st0) ->
  truthy_str (tokenizer fields) = false ->
  tokenizer (self st0) = Some (model fields)
  /\ model (self st0) = model fields.
Proof.
  unfold new_EngineArgs, __post_init__. intros H Htok.
  destruct (bind_inv _ _ _ _ _ H) as [(s & sa & Hs & H1) | (e & He & _)];
    [| apply get_self_inv in He; destruct He as [He _]; discriminate He].
  apply get_self_inv in Hs. destruct Hs as [Hs ->].
  injection Hs as Hs. subst s.
  cbn [self] in H1. rewrite Htok in H1. cbn [negb] in H1.
  destruct (bind_inv _ _ _ _ _ H1) as [(u & sb & Ha & H2) | (e & He & _)];
    [| apply assign_inv in He; destruct He as [He _]; discriminate He].
  apply assign_inv in Ha. destruct Ha as [_ ->]. cbn [self] in H2.
  split.
  - transitivity
      (tokenizer (self {| self := set_tokenizer (Some (model fields)) fields;
                          is_AsyncEngineArgs := async;
                          events := [] |})); [| reflexivity].
    refine ((_ : keeps tokenizer _) _ _ _ H2). frame_go.
  - transitivity
      (model (self {| self := set_tokenizer (Some (model fields)) fields;
                      is_AsyncEngineArgs := async;
                      events := [] |})); [| reflexivity].
    refine ((_ : keeps model _) _ _ _ H2). frame_go.
Qed.

(** Without the S3 rewrite of continuous integration, [create_model_config]
    leaves [model] alone. *)
Lemma create_model_config_model w st r st1 :
  VLLM_CI_USE_S3 (envs w) = false ->
  create_model_config w st = (r, st1) ->
  model (self st1) = model (self st).
Proof.
  intros Hs3 H. unfold create_model_config in H. rewrite Hs3 in H.
  refine ((_ : keeps model _) _ _ _ H).
  apply frame_bind; [typeclasses eauto | frame_go | intro s].
  apply frame_bind; [typeclasses eauto | frame_go | intro u].
  apply frame_bind; [typeclasses eauto | frame_go | intro s'].
  apply frame_bind; [typeclasses eauto | frame_go | intro a].
  rewrite andb_false_r. cbn [andb]. frame_go.
Qed.

(** C10.  If the arguments are created with no tokenizer ([None] or the
    empty string), [__post_init__] sets [tokenizer] to the model string;
    every configuration that resolution then returns has a [ModelConfig]
    created with that model string as its tokenizer, which is also the
    [ModelConfig]'s model unless the S3 rewrite of continuous integration
    has replaced the latter. *)
Theorem tokenizer_defaults_to_model (w : World) (async : bool)
    (fields : EngineArgs) (st0 : state) :
  new_EngineArgs w async fields = (Return tt, st0) ->
  tokenizer fields = None \/ tokenizer fields = Some "" ->
  tokenizer (self st0) = Some (model fields)
  /\ forall uc cfg st1,
       create_engine_config w uc st0 = (Return cfg, st1) ->
       ModelConfig.kw.tokenizer
         (ModelConfig.kwargs (VllmConfig.model_config cfg))
       = Some (model fields)
       /\ (VLLM_CI_USE_S3 (envs w) = false ->
           ModelConfig.kw.tokenizer
             (ModelConfig.kwargs (VllmConfig.model_config cfg))
           = Some (ModelConfig.kw.model
                     (ModelConfig.kwargs (VllmConfig.model_config cfg)))).
Proof.
  intros Hnew Hunset.
  assert (Htok : truthy_str (tokenizer fields) = false).
  { destruct Hunset as [-> | ->]; reflexivity. }
  destruct (__post_init___tokenizer _ _ _ _ _ Hnew Htok) as [Ht Hm].
  split; [exact Ht |].
  intros uc cfg st1 H.
  apply create_engine_config_Return_runtime in H.
  destruct H as (l1 & s1 & H1 & _ & Hmc).
  apply choose_runtime_Return_inv in H1.
  destruct H1 as (sd & sm & supported & so & su
                  & (Hd & _ & _) & Hcm & _).
  pose proof (create_model_config_Return _ _ _ _ Hcm)
    as (_ & Hkt & Hkm & _).
  rewrite Hmc, Hkt, Hd, Ht. split; [reflexivity |].
  intros Hs3. rewrite Hkm.
  rewrite (create_model_config_model _ _ _ _ Hs3 Hcm), Hd, Hm. reflexivity.
Qed.

(** C10 for a model given without a tokenizer, and with an empty one. *)
Lemma tokenizer_defaults_to_model_witness :
  (exists cfg st1,
     create_engine_config gpu_world None (fresh gpu_world llama_args)
     = (Return cfg, st1)
     /\ ModelConfig.kw.tokenizer
          (ModelConfig.kwargs (VllmConfig.model_config cfg))
        = Some "meta-llama/Llama-3.1-8B")
  /\ tokenizer (self (fresh gpu_world llama_empty_tokenizer_args))
     = Some "meta-llama/Llama-3.1-8B".
Proof.
  split.
  - eexists. eexists. split; [vm_compute; reflexivity |].
    refine (proj1 (proj2 (tokenizer_defaults_to_model gpu_world false
                            llama_args (fresh gpu_world llama_args)
                            eq_refl (or_introl eq_refl))
                     None _ _ ltac:(vm_compute; reflexivity))).
  - exact (proj1 (tokenizer_defaults_to_model gpu_world false
                    llama_empty_tokenizer_args
                    (fresh gpu_world llama_empty_tokenizer_args)
                    eq_refl (or_intror eq_refl))).
Defined.

(* ===================================================================== *)
(** * What a resolution depends on *)
(* ===================================================================== *)

Definition mk_state (s : EngineArgs) (a : bool) (ev : list event) : state :=
  {| self := s; is_AsyncEngineArgs := a; events := ev |}.

(** A method is uniform in the log when its outcome, the [self] it leaves
    and the events it adds are the same whatever had been logged before. *)
Definition uniform {A : Type} (m : M A) : Prop :=
  forall s a, exists r s1 d,
    forall ev, m (mk_state s a ev) = (r, mk_state s1 a (ev ++ d)).

Lemma uniform_ret {A : Type} (x : A) : uniform (ret x).
Proof.
  intros s a. exists (Return x), s, []. intros ev.
  rewrite app_nil_r. reflexivity.
Qed.

Lemma uniform_raise {A : Type} (e : exn) : uniform (@raise A e).
Proof.
  intros s a. exists (Raise e), s, []. intros ev.
  rewrite app_nil_r. reflexivity.
Qed.

Lemma uniform_lift {A : Type} (o : outcome A) : uniform (lift o).
Proof.
  intros s a. exists o, s, []. intros ev. rewrite app_nil_r. reflexivity.
Qed.

Lemma uniform_get_self : uniform get_self.
Proof.
  intros s a. exists (Return s), s, []. intros ev.
  rewrite app_nil_r. reflexivity.
Qed.

Lemma uniform_isinstance : uniform isinstance_AsyncEngineArgs.
Proof.
  intros s a. exists (Return a), s, []. intros ev.
  rewrite app_nil_r. reflexivity.
Qed.

Lemma uniform_assign g : uniform (assign g).
Proof.
  intros s a. exists (Return tt), (g s), []. intros ev.
  rewrite app_nil_r. reflexivity.
Qed.

Lemma uniform_emit e : uniform (emit e).
Proof. intros s a. exists (Return tt), s, [e]. intros ev. reflexivity. Qed.

Lemma uniform_bind {A B : Type} (m : M A) (k : A -> M B) :
  uniform m -> (forall x, uniform (k x)) -> uniform (bind m k).
Proof.
  intros Hm Hk s a. destruct (Hm s a) as (r & s1 & d & Hrun).
  destruct r as [x | e].
  - destruct (Hk x s1 a) as (r2 & s2 & d2 & Hrun2).
    exists r2, s2, (d ++ d2)%list. intros ev.
    unfold bind. rewrite Hrun, Hrun2, app_assoc. reflexivity.
  - exists (Raise e), s1, d. intros ev. unfold bind. rewrite Hrun.
    reflexivity.
Qed.

Lemma uniform_construct {A : Type} cls (validate : A -> option exn) v :
  uniform (construct cls validate v).
Proof.
  unfold construct. destruct (validate v).
  - apply uniform_raise.
  - apply uniform_bind; [apply uniform_emit | intro; apply uniform_ret].
Qed.

Create HintDb uniform.
#[export] Hint Resolve uniform_ret uniform_raise uniform_lift uniform_get_self
  uniform_isinstance uniform_assign uniform_emit uniform_construct : uniform.

Ltac uniform_step :=
  match goal with
  | |- uniform (bind _ _) => apply uniform_bind; [| intro]
  | |- uniform (logger_warning _) => apply uniform_emit
  | |- uniform (logger_info _) => apply uniform_emit
  | |- uniform (logger_debug _) => apply uniform_emit
  | |- uniform (if ?c then _ else _) => destruct c
  | |- uniform (match ?x with _ => _ end) => destruct x
  | |- uniform (let _ := _ in _) => cbv zeta
  end.

Ltac uniform_go := repeat first [solve [eauto 2 with uniform] | uniform_step].

Lemma _raise_or_warning_uniform w feature_name recommend_to_remove :
  uniform (_raise_or_warning w feature_name recommend_to_remove).
Proof. unfold _raise_or_warning. uniform_go. Qed.

Lemma unsupported_uniform w cond feature_name recommend_to_remove rest :
  uniform rest ->
  uniform (unsupported w cond feature_name recommend_to_remove rest).
Proof.
  intros Hr. pose proof _raise_or_warning_uniform.
  unfold unsupported. uniform_go.
Qed.

Lemma experimental_uniform w cond feature_name rest :
  uniform rest -> uniform (experimental w cond feature_name rest).
Proof.
  intros Hr. unfold experimental, _experimental_warning, _fallback_info.
  uniform_go.
Qed.

Lemma _is_v1_supported_oracle_uniform w model_config :
  uniform (_is_v1_supported_oracle w model_config).
Proof.
  unfold _is_v1_supported_oracle.
  apply uniform_bind; [apply uniform_get_self | intro s]. cbv zeta.
  repeat apply unsupported_uniform. repeat apply experimental_uniform.
  apply uniform_ret.
Qed.

Lemma create_model_config_uniform w : uniform (create_model_config w).
Proof. unfold create_model_config. uniform_go. Qed.

Lemma create_load_config_uniform w : uniform (create_load_config w).
Proof. unfold create_load_config. uniform_go. Qed.

Lemma _set_default_args_v0_uniform w model_config :
  uniform (_set_default_args_v0 w model_config).
Proof. unfold _set_default_args_v0. uniform_go. Qed.

Lemma _set_default_args_v1_uniform w usage_context :
  uniform (_set_default_args_v1 w usage_context).
Proof. unfold _set_default_args_v1. uniform_go. Qed.

#[export] Hint Resolve _is_v1_supported_oracle_uniform
  create_model_config_uniform create_load_config_uniform
  _set_default_args_v0_uniform _set_default_args_v1_uniform : uniform.

Lemma choose_runtime_uniform w uc : uniform (choose_runtime w uc).
Proof. unfold choose_runtime. uniform_go. Qed.

Lemma build_speculative_uniform w l : uniform (build_speculative w l).
Proof. unfold build_speculative. uniform_go. Qed.

Lemma check_multi_step_uniform w sc : uniform (check_multi_step w sc).
Proof. unfold check_multi_step. uniform_go. Qed.

#[export] Hint Resolve check_multi_step_uniform : uniform.

Lemma build_scheduler_uniform w l : uniform (build_scheduler w l).
Proof. unfold build_scheduler. uniform_go. Qed.

Lemma build_load_uniform w l : uniform (build_load w l).
Proof. unfold build_load. uniform_go. Qed.

Lemma build_decoding_uniform w l : uniform (build_decoding w l).
Proof. unfold build_decoding. uniform_go. Qed.

Lemma check_detailed_trace_modules_uniform modules :
  uniform (check_detailed_trace_modules modules).
Proof.
  induction modules as [| m rest IH]; cbn [check_detailed_trace_modules];
    uniform_go.
Qed.

#[export] Hint Resolve check_detailed_trace_modules_uniform : uniform.

Lemma assemble_uniform w l : uniform (assemble w l).
Proof. unfold assemble. uniform_go. Qed.

#[export] Hint Resolve choose_runtime_uniform build_speculative_uniform
  build_scheduler_uniform build_load_uniform build_decoding_uniform
  assemble_uniform : uniform.

Lemma create_engine_config_uniform w uc : uniform (create_engine_config w uc).
Proof.
  unfold create_engine_config, engine_upto_decoding, engine_upto_load,
    engine_upto_scheduler, engine_upto_speculative, engine_upto_runtime.
  uniform_go.
Qed.


(* ===================================================================== *)
(** * The oracle as two ordered tiers *)
(* ===================================================================== *)

(** The conditions of the rules for unsupported features, in the order in
    which [_is_v1_supported_oracle] tests them, and those of the rules for
    experimental features. *)
Definition unsupported_conditions (w : World) (model_config : ModelConfig.t)
    (s : EngineArgs) : list bool :=
  let D := EngineArgs_default in
  let current_platform := current_platform w in
  [ negb (opt_str_eqb (logits_processor_pattern s)
            (logits_processor_pattern D));
    negb (opt_str_eqb (preemption_mode s) (preemption_mode D));
    negb (Bool.eqb (disable_async_output_proc s)
            (disable_async_output_proc D));
    negb (String.eqb (scheduling_policy s) (scheduling_policy D));
    negb (String.eqb (scheduler_cls s) (scheduler_cls D));
    negb (String.eqb (worker_cls s) (worker_cls D));
    negb (num_scheduler_steps s =? num_scheduler_steps D);
    negb (PrimFloat.eqb (scheduler_delay_factor s)
            (scheduler_delay_factor D));
    is_not_None (additional_config s);
    negb (String.eqb (guided_decoding_backend s) "xgrammar");
    is_cuda current_platform
    && (get_device_capability_major current_platform <? 8);
    negb (String.eqb (kv_cache_dtype s) "auto");
    enable_prompt_adapter s;
    negb (str_in (ModelConfig.task model_config) ["generate"]);
    negb (ModelConfig.is_v1_compatible model_config);
    negb (opt_int_eqb (max_num_partial_prefills s)
            (max_num_partial_prefills D))
    || negb (opt_int_eqb (max_long_partial_prefills s)
               (max_long_partial_prefills D))
    || negb (opt_int_eqb (long_prefill_token_threshold s)
               (long_prefill_token_threshold D));
    truthy_str (otlp_traces_endpoint s)
    || truthy_str (collect_detailed_traces s);
    (is_not_None (speculative_model s)
     || is_not_None (num_speculative_tokens s))
    && negb (opt_str_eqb (speculative_model s) (Some "[ngram]"));
    is_not_None (kv_transfer_config s) ].

Definition experimental_conditions (w : World)
    (model_config : ModelConfig.t) (s : EngineArgs) : list bool :=
  [ ModelConfig.use_mla model_config;
    enable_lora s;
    1 <? pipeline_parallel_size s;
    opt_str_eqb (speculative_model s) (Some "[ngram]");
    negb (is_cuda (current_platform w)) ].

Definition any (l : list bool) : bool := existsb (fun b => b) l.

Definition count_true (l : list bool) : nat :=
  length (filter (fun b => b) l).

Definition is_warning (e : event) : Prop := exists msg, e = Log WARNING msg.

(** [st] followed by the events [d]. *)
Definition with_events (d : list event) (st : state) : state :=
  {| self := self st;
     is_AsyncEngineArgs := is_AsyncEngineArgs st;
     events := events st ++ d |}.

(** Under [VLLM_USE_V1], a chain of experimental rules answers [True] after
    one warning per rule that applies. *)
Definition lets_through (n : nat) (m : M bool) : Prop :=
  forall st, exists d,
    m st = (Return true, with_events d st)
    /\ length d = n /\ Forall is_warning d.

Lemma lets_through_ret : lets_through 0%nat (ret true).
Proof.
  intros st. exists []. unfold with_events. rewrite app_nil_r.
  destruct st. repeat split. constructor.
Qed.

Lemma experimental_lets_through w (cond : bool) feature_name rest n :
  VLLM_USE_V1 (envs w) = true ->
  lets_through n rest ->
  lets_through ((if cond then 1 else 0) + n)%nat
    (experimental w cond feature_name rest).
Proof.
  intros Hv1 Hrest st. unfold experimental. rewrite Hv1.
  destruct cond; [| exact (Hrest st)].
  unfold _experimental_warning, logger_warning, bind, emit.
  match goal with
  | |- context [Log WARNING ?m] => set (msg := m)
  end.
  destruct (Hrest {| self := self st;
                     is_AsyncEngineArgs := is_AsyncEngineArgs st;
                     events := events st ++ [Log WARNING msg] |})
    as (d & Hrun & Hlen & Hall).
  exists (Log WARNING msg :: d). rewrite Hrun.
  unfold with_events. cbn [self is_AsyncEngineArgs events].
  rewrite <- app_assoc. repeat split.
  - simpl. rewrite Hlen. reflexivity.
  - constructor; [exists msg; reflexivity | exact Hall].
Qed.

(** Without [VLLM_USE_V1], a chain of experimental rules answers [False]
    after one information record if some rule applies, and else goes on. *)
Definition falls_back_info (hit : bool) (m : M bool) : Prop :=
  forall st,
    if hit then exists msg, m st = (Return false, logging INFO msg st)
    else m st = (Return true, st).

Lemma falls_back_info_ret : falls_back_info false (ret true).
Proof. intros st. reflexivity. Qed.

Lemma experimental_falls_back_info w (cond : bool) feature_name rest hit :
  VLLM_USE_V1 (envs w) = false ->
  falls_back_info hit rest ->
  falls_back_info (cond || hit) (experimental w cond feature_name rest).
Proof.
  intros Hv1 Hrest st. unfold experimental. rewrite Hv1.
  destruct cond; [| exact (Hrest st)].
  cbn [orb]. eexists. reflexivity.
Qed.

(** A rule for an unsupported feature whose condition fails passes on to
    the rest. *)
Lemma unsupported_miss w feature_name recommend_to_remove rest :
  unsupported w false feature_name recommend_to_remove rest = rest.
Proof. reflexivity. Qed.

(** What the oracle answers when it answers: [True] exactly when no rule
    for an unsupported feature applies and either [VLLM_USE_V1] is on or no
    experimental feature is in use. *)
Lemma _is_v1_supported_oracle_answer (w : World)
    (model_config : ModelConfig.t) (st : state) (supported : bool)
    (st1 : state) :
  _is_v1_supported_oracle w model_config st = (Return supported, st1) ->
  supported
  = negb (any (unsupported_conditions w model_config (self st)))
    && (VLLM_USE_V1 (envs w)
        || negb (any (experimental_conditions w model_config (self st)))).
Proof.
  unfold _is_v1_supported_oracle, unsupported_conditions.
  unfold bind, get_self. cbv beta iota zeta.
  unfold any at 1. cbn [existsb].
  repeat match goal with
         | |- context [unsupported w ?c ?f ?r ?rest] =>
             destruct c;
             [ cbn [orb negb andb]; intros H;
               pose proof (unsupported_hit w f r rest st) as F;
               destruct (VLLM_USE_V1 (envs w)); destruct F as [msg F];
               rewrite F in H;
               [ discriminate H
               | injection H as H _; symmetry; exact H ]
             | rewrite unsupported_miss; cbn [orb] ]
         end.
  cbn [negb andb]. intros H.
  destruct (VLLM_USE_V1 (envs w)) eqn:Hv1; cbn [orb].
  - match type of H with
    | ?m st = _ => eassert (G : lets_through _ m)
    end.
    { do 5 (eapply (experimental_lets_through w _ _ _ _ Hv1)).
      apply lets_through_ret. }
    destruct (G st) as (d & Hrun & _). rewrite Hrun in H.
    injection H as H _. symmetry. exact H.
  - match type of H with
    | ?m st = _ =>
        assert (G : falls_back_info
                      (any (experimental_conditions w model_config (self st)))
                      m)
    end.
    { unfold any, experimental_conditions. cbn [existsb].
      do 5 (apply (experimental_falls_back_info w _ _ _ _ Hv1)).
      apply falls_back_info_ret. }
    specialize (G st).
    destruct (any (experimental_conditions w model_config (self st))).
    + destruct G as [msg G]. rewrite G in H.
      injection H as H _. symmetry. exact H.
    + rewrite G in H. injection H as H _. symmetry. exact H.
Qed.

(** X1.  The oracle is two ordered tiers.  If a rule for an unsupported
    feature applies, it raises [NotImplementedError] under [VLLM_USE_V1]
    and otherwise logs one warning and answers [False].  If none does:
    under [VLLM_USE_V1] it answers [True] after one warning per
    experimental feature in use; without it, it answers [False] after one
    information record if an experimental feature is in use, and [True],
    logging nothing, if none is. *)
Theorem oracle_two_tiers (w : World) (model_config : ModelConfig.t)
    (st : state) :
  if any (unsupported_conditions w model_config (self st)) then
    if VLLM_USE_V1 (envs w) then
      exists msg,
        _is_v1_supported_oracle w model_config st
        = (Raise (NotImplementedError msg), st)
    else
      exists msg,
        _is_v1_supported_oracle w model_config st
        = (Return false, logging WARNING msg st)
  else if VLLM_USE_V1 (envs w) then
    exists d,
      _is_v1_supported_oracle w model_config st
      = (Return true, with_events d st)
      /\ length d
         = count_true (experimental_conditions w model_config (self st))
      /\ Forall is_warning d
  else if any (experimental_conditions w model_config (self st)) then
    exists msg,
      _is_v1_supported_oracle w model_config st
      = (Return false, logging INFO msg st)
  else
    _is_v1_supported_oracle w model_config st = (Return true, st).
Proof.
  unfold _is_v1_supported_oracle, unsupported_conditions.
  unfold bind, get_self. cbv beta iota zeta.
  unfold any at 1. cbn [existsb].
  repeat match goal with
         | |- context [unsupported w ?c ?f ?r ?rest] =>
             destruct c;
             [ cbn [orb];
               exact (unsupported_hit w f r rest st)
             | rewrite unsupported_miss; cbn [orb] ]
         end.
  destruct (VLLM_USE_V1 (envs w)) eqn:Hv1.
  - pose proof lets_through_ret as H0.
    do 5 (eapply (experimental_lets_through w _ _ _ _ Hv1) in H0).
    destruct (H0 st) as (d & Hrun & Hlen & Hall).
    exists d. split; [exact Hrun |]. split; [| exact Hall].
    rewrite Hlen. unfold count_true, experimental_conditions.
    cbn [filter].
    repeat match goal with
           | |- context [if ?c then _ else _] => destruct c
           end; reflexivity.
  - pose proof falls_back_info_ret as H0.
    do 5 (eapply (experimental_falls_back_info w _ _ _ _ Hv1) in H0).
    specialize (H0 st). unfold any, experimental_conditions.
    cbn [existsb]. exact H0.
Qed.

(** X2.  The oracle only reads the arguments and only adds to the log:
    whatever it answers, [self] is as before, and the events so far are
    kept, with no sub-configuration constructed. *)
Theorem oracle_only_logs (w : World) (model_config : ModelConfig.t)
    (st : state) :
  self (snd (_is_v1_supported_oracle w model_config st)) = self st
  /\ (exists d,
        events (snd (_is_v1_supported_oracle w model_config st))
        = (events st ++ d)%list)
  /\ constructed (events (snd (_is_v1_supported_oracle w model_config st)))
     = constructed (events st).
Proof.
  destruct (_is_v1_supported_oracle w model_config st) as [r st1] eqn:H.
  cbn [snd]. split; [| split].
  - exact (_is_v1_supported_oracle_pure w model_config st r st1 H).
  - destruct st as [s a ev].
    destruct (_is_v1_supported_oracle_uniform w model_config s a)
      as (r' & s1 & d & Hu).
    change (_is_v1_supported_oracle w model_config (mk_state s a ev)
            = (r, st1)) in H.
    rewrite (Hu ev) in H. injection H as _ <-. exists d. reflexivity.
  - exact (_is_v1_supported_oracle_silent w model_config st r st1 H).
Qed.

(* ===================================================================== *)
(** * The defaults of the two engines *)
(* ===================================================================== *)

(** The value the V0 defaults give [enable_chunked_prefill]: the caller's
    if there is one; otherwise on only for a long-context model on a GPU
    with none of the features that exclude it. *)
Definition v0_chunked_prefill (w : World) (model_config : ModelConfig.t)
    (s : EngineArgs) : bool :=
  match enable_chunked_prefill s with
  | Some b => b
  | None =>
      negb (ModelConfig.is_multimodal_model model_config
            || ModelConfig.use_mla model_config)
      && (32768 <? ModelConfig.max_model_len model_config)
      && is_cuda (current_platform w)
      && is_None (ModelConfig.get_sliding_window model_config)
      && is_None (speculative_model s)
      && negb (enable_lora s)
      && negb (enable_prompt_adapter s)
      && negb (String.eqb (ModelConfig.runner_type model_config) "pooling")
  end.

Definition default_to {A : Type} (d : A) (o : option A) : A :=
  match o with Some x => x | None => d end.

Lemma _set_default_args_v0_Return w model_config st st1 :
  _set_default_args_v0 w model_config st = (Return tt, st1) ->
  enable_chunked_prefill (self st1)
  = Some (v0_chunked_prefill w model_config (self st))
  /\ max_num_seqs (self st1) = Some (default_to 256 (max_num_seqs (self st)))
  /\ max_num_batched_tokens (self st1) = max_num_batched_tokens (self st)
  /\ enable_prefix_caching (self st1)
     = (if ModelConfig.is_multimodal_model model_config
           && truthy_bool (enable_prefix_caching (self st))
        then Some false else enable_prefix_caching (self st)).
Proof.
  unfold _set_default_args_v0, v0_chunked_prefill, default_to.
  cbv zeta. intros H.
  apply bind_Return_inv in H. destruct H as (s & sa & Hs & H).
  apply get_self_inv in Hs. destruct Hs as [Hs ->].
  injection Hs as Hs. subst s.
  apply bind_Return_inv in H. destruct H as (u1 & sb & Hecp & H).
  apply bind_Return_inv in H. destruct H as (s & sa & Hs & H).
  apply get_self_inv in Hs. destruct Hs as [Hs ->].
  injection Hs as Hs. subst s.
  apply bind_Return_inv in H. destruct H as (u2 & sc & Hchk & H).
  apply bind_Return_inv in H. destruct H as (s & sa & Hs & H).
  apply get_self_inv in Hs. destruct Hs as [Hs ->].
  injection Hs as Hs. subst s.
  apply bind_Return_inv in H. destruct H as (u3 & sd & Hepc & H).
  apply bind_Return_inv in H. destruct H as (s & sa & Hs & H).
  apply get_self_inv in Hs. destruct Hs as [Hs ->].
  injection Hs as Hs. subst s.
  (* the first block decides enable_chunked_prefill *)
  assert (Hb : enable_chunked_prefill (self sb)
               = Some (v0_chunked_prefill w model_config (self st))
               /\ max_num_seqs (self sb) = max_num_seqs (self st)
               /\ max_num_batched_tokens (self sb)
                  = max_num_batched_tokens (self st)
               /\ enable_prefix_caching (self sb)
                  = enable_prefix_caching (self st)).
  { unfold v0_chunked_prefill. revert Hecp.
    destruct (enable_chunked_prefill (self st)) as [b |] eqn:He;
      cbn [is_None]; intros Hecp.
    - follow. rewrite He. repeat split.
    - apply bind_Return_inv in Hecp. destruct Hecp as (u & sx & Hx & Hy).
      apply bind_Return_inv in Hy. destruct Hy as (s & sa & Hs & Hy).
      apply get_self_inv in Hs. destruct Hs as [Hs ->].
      injection Hs as Hs. subst s.
      revert Hx.
      destruct (ModelConfig.is_multimodal_model model_config
                || ModelConfig.use_mla model_config);
        [intros Hx; follow; cbn in Hy; follow; cbn; repeat split |].
      destruct (32768 <? ModelConfig.max_model_len model_config);
        cbn [negb andb].
      + unfold is_not_None.
        destruct (is_cuda (current_platform w)
                  && negb (negb (is_None (ModelConfig.get_sliding_window
                                            model_config)))
                  && negb (negb (is_None (speculative_model (self st))))
                  && negb (enable_lora (self st))
                  && negb (enable_prompt_adapter (self st))
                  && negb (ModelConfig.runner_type model_config
                           =? "pooling")%string) eqn:Hc;
          intros Hx; follow; cbn [self] in Hy; rewrite ?He in Hy;
          cbn in Hy; follow; cbn;
          rewrite ?negb_involutive in Hc; rewrite Hc; repeat split.
      + intros Hx. follow. rewrite He in Hy. cbn in Hy. follow. cbn.
        repeat split. }
  destruct Hb as (Hb1 & Hb2 & Hb3 & Hb4).
  assert (Hc : self sc = self sb).
  { refine ((_ : pure _) _ _ _ Hchk). frame_go. }
  assert (Hd : enable_chunked_prefill (self sd)
               = enable_chunked_prefill (self sc)
               /\ max_num_seqs (self sd) = max_num_seqs (self sc)
               /\ max_num_batched_tokens (self sd)
                  = max_num_batched_tokens (self sc)
               /\ enable_prefix_caching (self sd)
                  = (if ModelConfig.is_multimodal_model model_config
                        && truthy_bool (enable_prefix_caching (self sc))
                     then Some false else enable_prefix_caching (self sc))).
  { revert Hepc.
    destruct (ModelConfig.is_multimodal_model model_config
              && truthy_bool (enable_prefix_caching (self sc)));
      intros Hepc; follow; cbn; repeat split. }
  destruct Hd as (Hd1 & Hd2 & Hd3 & Hd4).
  revert H. rewrite Hc in *.
  destruct (max_num_seqs (self sd)) as [n |] eqn:Hn; cbn [is_None];
    intros H; follow; cbn [self];
    rewrite <- ?Hb2, <- ?Hd2, ?Hn;
    cbn; rewrite ?Hd1, ?Hd3, ?Hd4, ?Hb1, ?Hb3, ?Hb4; repeat split;
    try reflexivity.
Qed.

(** The table of [_set_default_args_v1]: default [max_num_batched_tokens]
    by device name and usage context. *)
Definition v1_default_max_num_batched_tokens (w : World)
  : list (UsageContext * Z) :=
  let device_name := lower (get_device_name (current_platform w)) in
  if substring_in "h100" device_name || substring_in "h200" device_name then
    [(LLM_CLASS, 16384); (OPENAI_API_SERVER, 8192)]
  else
    [(LLM_CLASS, 8192); (OPENAI_API_SERVER, 2048)].

Lemma _set_default_args_v1_Return_values w uc st st1 :
  _set_default_args_v1 w uc st = (Return tt, st1) ->
  enable_chunked_prefill (self st1) = Some true
  /\ max_num_seqs (self st1) = Some (default_to 1024 (max_num_seqs (self st)))
  /\ max_num_batched_tokens (self st1)
     = match max_num_batched_tokens (self st) with
       | Some n => Some n
       | None => usage_lookup uc (v1_default_max_num_batched_tokens w)
       end
  /\ enable_prefix_caching (self st1) = enable_prefix_caching (self st).
Proof.
  unfold _set_default_args_v1, v1_default_max_num_batched_tokens, default_to.
  cbv zeta.
  set (table := if _ : bool then _ else _).
  set (value := match uc with Some u => _ | None => _ end).
  unfold bind, assign, get_self, logger_debug, emit, ret.
  cbn [self is_AsyncEngineArgs events].
  change (max_num_batched_tokens
            (set_enable_chunked_prefill (Some true) (self st)))
    with (max_num_batched_tokens (self st)).
  destruct (max_num_batched_tokens (self st)) as [n |] eqn:Hn;
    cbn [is_None].
  - cbn [self is_AsyncEngineArgs events].
    change (max_num_seqs (set_enable_chunked_prefill (Some true) (self st)))
      with (max_num_seqs (self st)).
    destruct (max_num_seqs (self st)) as [k |] eqn:Hk; cbn [is_None];
      intros H; injection H as <-; cbn; rewrite ?Hn, ?Hk; repeat split.
  - destruct (usage_lookup uc table) as [n |] eqn:Hl;
      cbn [self is_AsyncEngineArgs events].
    + change (max_num_seqs
                (set_max_num_batched_tokens (Some n)
                   (set_enable_chunked_prefill (Some true) (self st))))
        with (max_num_seqs (self st)).
      destruct (max_num_seqs (self st)) as [k |] eqn:Hk; cbn [is_None];
        intros H; injection H as <-; cbn; rewrite ?Hk; repeat split.
    + change (max_num_seqs
                (set_enable_chunked_prefill (Some true) (self st)))
        with (max_num_seqs (self st)).
      destruct (max_num_seqs (self st)) as [k |] eqn:Hk; cbn [is_None];
        intros H; injection H as <-; cbn; rewrite ?Hn, ?Hk; repeat split.
Qed.

(** The state in which [choose_runtime] applies the defaults of the chosen
    engine: [self] is the caller's but for what [create_model_config]
    assigned. *)
Lemma choose_runtime_defaults w uc st l1 st1 :
  choose_runtime w uc st = (Return l1, st1) ->
  exists su,
    (if use_v1 l1 then _set_default_args_v1 w uc
     else _set_default_args_v0 w (model_config l1)) su
    = (Return tt, st1)
    /\ forall (B : Type) (f : EngineArgs -> B),
         (forall v s, f (set_model v s) = f s) ->
         (forall v s, f (set_load_format v s) = f s) ->
         (forall v s, f (set_quantization v s) = f s) ->
         f (self su) = f (self st).
Proof.
  intros H. apply choose_runtime_Return_inv in H.
  destruct H as (sd & sm & supported & so & su
                 & (Hd & _ & _) & Hm & Ho & _ & Hsu & _ & Hdef).
  exists su. split; [exact Hdef |].
  intros B f F1 F2 F3.
  rewrite Hsu, (_is_v1_supported_oracle_pure _ _ _ _ _ Ho), <- Hd.
  exact (create_model_config_keeps f F1 F2 F3 w sd _ _ Hm).
Qed.

(** What the cache and scheduler configurations take from the defaults. *)
Lemma create_engine_config_Return_defaults w uc st cfg st6 :
  create_engine_config w uc st = (Return cfg, st6) ->
  exists l1 st1,
    choose_runtime w uc st = (Return l1, st1)
    /\ VllmConfig.use_v1 cfg = use_v1 l1
    /\ VllmConfig.model_config cfg = model_config l1
    /\ CacheConfig.use_v1 (VllmConfig.cache_config cfg) = use_v1 l1
    /\ CacheConfig.enable_prefix_caching (VllmConfig.cache_config cfg)
       = enable_prefix_caching (self st1)
    /\ SchedulerConfig.enable_chunked_prefill
         (VllmConfig.scheduler_config cfg)
       = enable_chunked_prefill (self st1)
    /\ SchedulerConfig.max_num_seqs (VllmConfig.scheduler_config cfg)
       = max_num_seqs (self st1)
    /\ SchedulerConfig.max_num_batched_tokens
         (VllmConfig.scheduler_config cfg)
       = max_num_batched_tokens (self st1).
Proof.
  intros H.
  unfold create_engine_config, engine_upto_decoding, engine_upto_load,
    engine_upto_scheduler, engine_upto_speculative, engine_upto_runtime in H.
  apply bind_Return_inv in H. destruct H as (l5 & s5 & H & H6).
  apply bind_Return_inv in H. destruct H as (l4 & s4 & H & H5).
  apply bind_Return_inv in H. destruct H as (l3 & s3 & H & H4).
  apply bind_Return_inv in H. destruct H as (l2 & s2 & H & H3).
  apply bind_Return_inv in H. destruct H as (l1 & s1 & H1 & H2).
  exists l1, s1. split; [exact H1 |].
  assert (Hl2 : in_runtime l2 = l1
                /\ self s2 = self s1
                /\ CacheConfig.use_v1 (cache_config l2) = use_v1 l1
                /\ CacheConfig.enable_prefix_caching (cache_config l2)
                   = enable_prefix_caching (self s1)).
  { pose proof (build_speculative_Return _ _ _ _ _ H2) as [Hin Hself].
    split; [exact Hin |]. split; [exact Hself |].
    unfold build_speculative in H2. cbv zeta in H2.
    follow_all; cbn; split; reflexivity. }
  destruct Hl2 as (Hl2 & Hs2 & Hcv & Hcp).
  assert (Hl3 : in_speculative l3 = l2
                /\ SchedulerConfig.enable_chunked_prefill
                     (scheduler_config l3)
                   = enable_chunked_prefill (self s2)
                /\ SchedulerConfig.max_num_seqs (scheduler_config l3)
                   = max_num_seqs (self s2)
                /\ SchedulerConfig.max_num_batched_tokens
                     (scheduler_config l3)
                   = max_num_batched_tokens (self s2)).
  { unfold build_scheduler in H3. cbv zeta in H3.
    apply bind_Return_inv in H3. destruct H3 as ([] & sx & Hc & H3).
    apply check_multi_step_Return in Hc. destruct Hc as [_ Hsx].
    follow. cbn.
    assert (Hk : forall {B} (f : EngineArgs -> B),
               (forall v s, f (set_num_scheduler_steps v s) = f s) ->
               f (self sx) = f (self s2)).
    { intros B f F. rewrite Hsx.
      destruct ((1 <? num_scheduler_steps (self s2))
                && is_cpu (current_platform w)); [apply F | reflexivity]. }
    split; [reflexivity |].
    split; [apply (Hk _ enable_chunked_prefill); reflexivity |].
    split; [apply (Hk _ max_num_seqs); reflexivity |].
    apply (Hk _ max_num_batched_tokens); reflexivity. }
  destruct Hl3 as (Hl3 & He3 & Hn3 & Hb3).
  apply build_load_Return in H4. destruct H4 as [Hl4 _].
  apply build_decoding_Return in H5.
  assert (H6' : VllmConfig.cache_config cfg
                = cache_config (in_speculative (in_scheduler (in_load l5)))).
  { unfold assemble in H6. cbv zeta in H6.
    apply bind_Return_inv in H6. destruct H6 as (s & sa & Hs & H6).
    apply bind_Return_inv in H6. destruct H6 as (u & sb & Hc & H6).
    follow. reflexivity. }
  apply assemble_Return in H6. cbv zeta in H6.
  destruct H6 as (Hm & Hv & _ & Hsched & _).
  rewrite H5, Hl4 in Hsched. rewrite H5, Hl4, Hl3 in H6'.
  rewrite H5, Hl4, Hl3, Hl2 in Hm, Hv.
  rewrite Hsched, H6', He3, Hn3, Hb3, Hs2.
  repeat split; assumption.
Qed.

(** X3.  In every configuration that resolution returns, the engine is the
    one [VLLM_USE_V1] names whenever the variable is set (the [assert] of
    line 1189 holds); V1 is chosen only if the variable asks for it, or is
    unset while V1 is tried by default; and the cache configuration is told
    the same engine. *)
Theorem runtime_follows_VLLM_USE_V1 (w : World) (uc : option UsageContext)
    (st : state) (cfg : VllmConfig.t) (st1 : state) :
  create_engine_config w uc st = (Return cfg, st1) ->
  (is_set_VLLM_USE_V1 (envs w) = true ->
   VllmConfig.use_v1 cfg = VLLM_USE_V1 (envs w))
  /\ (VllmConfig.use_v1 cfg = true ->
      VLLM_USE_V1 (envs w) = true
      \/ (is_set_VLLM_USE_V1 (envs w) = false
          /\ VLLM_USE_V1_BY_DEFAULT (envs w) = true))
  /\ CacheConfig.use_v1 (VllmConfig.cache_config cfg) = VllmConfig.use_v1 cfg.
Proof.
  intros H.
  apply create_engine_config_Return_defaults in H.
  destruct H as (l1 & s1 & H1 & Hv & _ & Hcv & _).
  apply choose_runtime_Return_inv in H1.
  destruct H1 as (sd & sm & supported & so & su & _ & _ & Ho & Hc & _).
  rewrite Hcv, Hv, Hc. unfold chosen_v1.
  split; [| split; [| reflexivity]].
  - intros Hset. rewrite Hset. cbn [negb andb].
    destruct (VLLM_USE_V1 (envs w)) eqn:Hv1.
    + rewrite (oracle_answer_under_V1 _ _ _ _ _ Ho Hv1). reflexivity.
    + cbn [orb]. apply andb_false_r.
  - intros Hch. apply andb_true_iff in Hch. destruct Hch as [_ Hch].
    apply orb_true_iff in Hch. destruct Hch as [Hch | Hch]; [left; exact Hch |].
    right. apply andb_true_iff in Hch. destruct Hch as [Hn Hd].
    apply negb_true_iff in Hn. split; assumption.
Qed.

(** X3 on an H100 with default arguments: V0 under [VLLM_USE_V1=0], V1
    under [VLLM_USE_V1=1]. *)
Lemma runtime_follows_VLLM_USE_V1_witness :
  (exists cfg st1,
     create_engine_config forced_v0_world None
       (fresh forced_v0_world EngineArgs_default)
     = (Return cfg, st1)
     /\ VllmConfig.use_v1 cfg = false)
  /\ (exists cfg st1,
        create_engine_config forced_v1_world None
          (fresh forced_v1_world EngineArgs_default)
        = (Return cfg, st1)
        /\ VllmConfig.use_v1 cfg = true).
Proof.
  split.
  - eexists. eexists. split; [vm_compute; reflexivity |].
    exact (proj1 (runtime_follows_VLLM_USE_V1 forced_v0_world None
                    (fresh forced_v0_world EngineArgs_default) _ _
                    ltac:(vm_compute; reflexivity))
             eq_refl).
  - eexists. eexists. split; [vm_compute; reflexivity |].
    exact (proj1 (runtime_follows_VLLM_USE_V1 forced_v1_world None
                    (fresh forced_v1_world EngineArgs_default) _ _
                    ltac:(vm_compute; reflexivity))
             eq_refl).
Defined.

(** X4.  The scheduler limits of a returned configuration: [max_num_seqs]
    is the caller's value, or 1024 on V1 and 256 on V0 when unset;
    [max_num_batched_tokens] is the caller's value, and when unset stays
    unset on V0 and on V1 comes from the table by device name and usage
    context (no entry, no default). *)
Theorem resolved_scheduler_limits (w : World) (uc : option UsageContext)
    (st : state) (cfg : VllmConfig.t) (st1 : state) :
  create_engine_config w uc st = (Return cfg, st1) ->
  SchedulerConfig.max_num_seqs (VllmConfig.scheduler_config cfg)
  = Some (default_to (if VllmConfig.use_v1 cfg then 1024 else 256)
            (max_num_seqs (self st)))
  /\ SchedulerConfig.max_num_batched_tokens (VllmConfig.scheduler_config cfg)
     = match max_num_batched_tokens (self st) with
       | Some n => Some n
       | None =>
           if VllmConfig.use_v1 cfg
           then usage_lookup uc (v1_default_max_num_batched_tokens w)
           else None
       end.
Proof.
  intros H.
  apply create_engine_config_Return_defaults in H.
  destruct H as (l1 & s1 & H1 & Hv & _ & _ & _ & _ & Hn & Hb).
  apply choose_runtime_defaults in H1. destruct H1 as (su & Hdef & Hk).
  rewrite Hn, Hb, Hv.
  rewrite <- (Hk _ max_num_seqs) by reflexivity.
  rewrite <- (Hk _ max_num_batched_tokens) by reflexivity.
  destruct (use_v1 l1).
  - apply _set_default_args_v1_Return_values in Hdef.
    destruct Hdef as (_ & Hs & Ht & _). split; assumption.
  - apply _set_default_args_v0_Return in Hdef.
    destruct Hdef as (_ & Hs & Ht & _). split; [exact Hs |].
    rewrite Ht. destruct (max_num_batched_tokens (self su)); reflexivity.
Qed.

(** X4 on an H100: the defaults for an embedded [LLM] under V1 and under
    V0, and explicit limits kept. *)
Lemma resolved_scheduler_limits_witness :
  (exists cfg st1,
     create_engine_config gpu_world (Some LLM_CLASS)
       (fresh gpu_world EngineArgs_default)
     = (Return cfg, st1)
     /\ SchedulerConfig.max_num_seqs (VllmConfig.scheduler_config cfg)
        = Some 1024
     /\ SchedulerConfig.max_num_batched_tokens
          (VllmConfig.scheduler_config cfg) = Some 16384)
  /\ (exists cfg st1,
        create_engine_config forced_v0_world (Some LLM_CLASS)
          (fresh forced_v0_world limits_args)
        = (Return cfg, st1)
        /\ SchedulerConfig.max_num_seqs (VllmConfig.scheduler_config cfg)
           = Some 64
        /\ SchedulerConfig.max_num_batched_tokens
             (VllmConfig.scheduler_config cfg) = Some 4096).
Proof.
  split.
  - eexists. eexists. split; [vm_compute; reflexivity |].
    exact (resolved_scheduler_limits gpu_world (Some LLM_CLASS)
             (fresh gpu_world EngineArgs_default) _ _
             ltac:(vm_compute; reflexivity)).
  - eexists. eexists. split; [vm_compute; reflexivity |].
    exact (resolved_scheduler_limits forced_v0_world (Some LLM_CLASS)
             (fresh forced_v0_world limits_args) _ _
             ltac:(vm_compute; reflexivity)).
Defined.

(** X5.  Chunked prefill in a returned configuration is always decided (it
    is never left unset): on under V1; under V0 the caller's value when
    given, and otherwise on exactly for a model with more than 32768 tokens
    of context that is neither multimodal nor MLA, on a GPU, without
    sliding window, speculative model, LoRA, prompt adapter or pooling. *)
Theorem resolved_chunked_prefill (w : World) (uc : option UsageContext)
    (st : state) (cfg : VllmConfig.t) (st1 : state) :
  create_engine_config w uc st = (Return cfg, st1) ->
  SchedulerConfig.enable_chunked_prefill (VllmConfig.scheduler_config cfg)
  = Some (if VllmConfig.use_v1 cfg then true
          else v0_chunked_prefill w (VllmConfig.model_config cfg) (self st)).
Proof.
  intros H.
  apply create_engine_config_Return_defaults in H.
  destruct H as (l1 & s1 & H1 & Hv & Hm & _ & _ & He & _).
  apply choose_runtime_defaults in H1. destruct H1 as (su & Hdef & Hk).
  rewrite He, Hv, Hm.
  destruct (use_v1 l1).
  - apply _set_default_args_v1_Return_values in Hdef. apply Hdef.
  - apply _set_default_args_v0_Return in Hdef. destruct Hdef as (Hd & _).
    rewrite Hd. f_equal.
    apply (Hk _ (v0_chunked_prefill w (model_config l1))); reflexivity.
Qed.

(** X5 under [VLLM_USE_V1=0]: on by default for a long-context text model,
    off for a long-context multimodal model. *)
Lemma resolved_chunked_prefill_witness :
  (exists cfg st1,
     create_engine_config long_context_v0_world None
       (fresh long_context_v0_world EngineArgs_default)
     = (Return cfg, st1)
     /\ SchedulerConfig.enable_chunked_prefill
          (VllmConfig.scheduler_config cfg) = Some true)
  /\ (exists cfg st1,
        create_engine_config multimodal_v0_world None
          (fresh multimodal_v0_world EngineArgs_default)
        = (Return cfg, st1)
        /\ SchedulerConfig.enable_chunked_prefill
             (VllmConfig.scheduler_config cfg) = Some false).
Proof.
  split.
  - eexists. eexists. split; [vm_compute; reflexivity |].
    exact (resolved_chunked_prefill long_context_v0_world None
             (fresh long_context_v0_world EngineArgs_default) _ _
             ltac:(vm_compute; reflexivity)).
  - eexists. eexists. split; [vm_compute; reflexivity |].
    exact (resolved_chunked_prefill multimodal_v0_world None
             (fresh multimodal_v0_world EngineArgs_default) _ _
             ltac:(vm_compute; reflexivity)).
Defined.

(** X6.  Prefix caching in a returned configuration is the caller's
    setting, except that V0 turns a requested prefix caching off for a
    multimodal model; so under V0 a multimodal model never has it on. *)
Theorem resolved_prefix_caching (w : World) (uc : option UsageContext)
    (st : state) (cfg : VllmConfig.t) (st1 : state) :
  create_engine_config w uc st = (Return cfg, st1) ->
  CacheConfig.enable_prefix_caching (VllmConfig.cache_config cfg)
  = (if negb (VllmConfig.use_v1 cfg)
        && ModelConfig.is_multimodal_model (VllmConfig.model_config cfg)
        && truthy_bool (enable_prefix_caching (self st))
     then Some false else enable_prefix_caching (self st))
  /\ (VllmConfig.use_v1 cfg = false ->
      ModelConfig.is_multimodal_model (VllmConfig.model_config cfg) = true ->
      CacheConfig.enable_prefix_caching (VllmConfig.cache_config cfg)
      <> Some true).
Proof.
  intros H.
  apply create_engine_config_Return_defaults in H.
  destruct H as (l1 & s1 & H1 & Hv & Hm & _ & Hp & _).
  apply choose_runtime_defaults in H1. destruct H1 as (su & Hdef & Hk).
  rewrite Hp, Hv, Hm.
  rewrite <- (Hk _ enable_prefix_caching) by reflexivity.
  assert (Hval : enable_prefix_caching (self s1)
                 = (if negb (use_v1 l1)
                       && ModelConfig.is_multimodal_model (model_config l1)
                       && truthy_bool (enable_prefix_caching (self su))
                    then Some false else enable_prefix_caching (self su))).
  { destruct (use_v1 l1); cbn [negb andb].
    - apply _set_default_args_v1_Return_values in Hdef. apply Hdef.
    - apply _set_default_args_v0_Return in Hdef. apply Hdef. }
  split; [exact Hval |].
  intros Hv0 Hmm. rewrite Hval, Hv0, Hmm. cbn [negb andb].
  destruct (enable_prefix_caching (self su)) as [[|] |]; cbn; discriminate.
Qed.

(** X6 for a multimodal model under [VLLM_USE_V1=0] with
    [enable_prefix_caching=True]: resolved off. *)
Lemma resolved_prefix_caching_witness :
  exists cfg st1,
    create_engine_config multimodal_v0_world None
      (fresh multimodal_v0_world prefix_caching_args)
    = (Return cfg, st1)
    /\ CacheConfig.enable_prefix_caching (VllmConfig.cache_config cfg)
       = Some false.
Proof.
  eexists. eexists. split; [vm_compute; reflexivity |].
  exact (proj1 (resolved_prefix_caching multimodal_v0_world None
                  (fresh multimodal_v0_world prefix_caching_args) _ _
                  ltac:(vm_compute; reflexivity))).
Defined.

(* ===================================================================== *)
(** * Quantization and load format in a returned configuration *)
(* ===================================================================== *)

Lemma dict_get_setitem d k v : dict_get (dict_setitem d k v) k = Some v.
Proof.
  induction d as [| [k' v'] r IH]; cbn.
  - rewrite String.eqb_refl. reflexivity.
  - destruct (String.eqb k' k) eqn:E; cbn; rewrite E; [reflexivity | exact IH].
Qed.

(** A GGUF model file decides the quantization, and the load format too
    unless the S3 rewrite then applies. *)
Lemma create_model_config_gguf w st r st1 :
  create_model_config w st = (r, st1) ->
  check_gguf_file w (model (self st)) = true ->
  quantization (self st1) = Some "gguf"
  /\ (LoadFormat_AUTO w <> "gguf" -> load_format (self st1) = "gguf").
Proof.
  unfold create_model_config. intros H Hg.
  destruct (bind_inv _ _ _ _ _ H) as [(s & sa & Hs & H1) | (e & He & _)];
    [| apply get_self_inv in He; destruct He as [He _]; discriminate He].
  apply get_self_inv in Hs. destruct Hs as [Hs ->].
  injection Hs as Hs. subst s. rewrite Hg in H1. clear H.
  destruct (bind_inv _ _ _ _ _ H1) as [(u & sb & Ha & H2) | (e & He & _)].
  2:{ exfalso. revert He. unfold bind, assign. discriminate. }
  assert (Hsb : quantization (self sb) = Some "gguf"
                /\ load_format (self sb) = "gguf").
  { follow. split; reflexivity. }
  clear Ha H1. destruct Hsb as [Hq Hl].
  destruct (bind_inv _ _ _ _ _ H2) as [(s & sa & Hs & H3) | (e & He & _)];
    [| apply get_self_inv in He; destruct He as [He _]; discriminate He].
  apply get_self_inv in Hs. destruct Hs as [Hs ->].
  injection Hs as Hs. subst s. clear H2.
  destruct (bind_inv _ _ _ _ _ H3) as [(a & sa & Ha & H4) | (e & He & _)];
    [| inversion He].
  assert (sa = sb) as -> by (inversion Ha; reflexivity). clear H3 Ha.
  destruct (bind_inv _ _ _ _ _ H4) as [(u2 & sc & Hs3 & H5) | (e & He & _)].
  2:{ exfalso. revert He.
      destruct (negb a && VLLM_CI_USE_S3 (envs w)
                && str_in (model (self sb)) (MODELS_ON_S3 w)
                && (load_format (self sb) =? LoadFormat_AUTO w)%string);
        unfold bind, assign, ret; discriminate. }
  assert (Hsc : quantization (self sc) = Some "gguf"
                /\ (LoadFormat_AUTO w <> "gguf" ->
                    load_format (self sc) = "gguf")).
  { revert Hs3. rewrite Hl.
    destruct ("gguf" =? LoadFormat_AUTO w)%string eqn:Hauto.
    - apply String.eqb_eq in Hauto.
      destruct (negb a && VLLM_CI_USE_S3 (envs w)
                && str_in (model (self sb)) (MODELS_ON_S3 w) && true);
        intros Hs3; follow; cbn; (split; [exact Hq | congruence]).
    - rewrite andb_false_r. intros Hs3. follow. split; [exact Hq |].
      intros _. exact Hl. }
  clear Hs3 H4. destruct Hsc as [Hq' Hl'].
  assert (Hrest : self st1 = self sc).
  { refine ((_ : pure _) _ _ _ H5). frame_go. }
  rewrite Hrest. split; assumption.
Qed.

(** After [create_load_config] has returned, quantization and load format
    agree on "bitsandbytes", and a QLoRA adapter implies both. *)
Lemma create_load_config_Return w st config st1 :
  create_load_config w st = (Return config, st1) ->
  LoadConfig.load_format config = load_format (self st)
  /\ LoadConfig.model_loader_extra_config config
     = model_loader_extra_config (self st)
  /\ (quantization (self st) = Some "bitsandbytes"
      <-> load_format (self st) = "bitsandbytes")
  /\ (qlora_adapter_name_or_path (self st) <> None ->
      load_format (self st) = "bitsandbytes").
Proof.
  unfold create_load_config. intros H.
  apply bind_Return_inv in H. destruct H as (s & sa & Hs & H).
  apply get_self_inv in Hs. destruct Hs as [Hs ->].
  injection Hs as Hs. subst s.
  destruct (opt_str_eqb (quantization (self st)) (Some "bitsandbytes"))
    eqn:Hq;
    [apply opt_str_eqb_eq in Hq | apply opt_str_eqb_neq in Hq];
    (destruct (load_format (self st) =? "bitsandbytes")%string eqn:Hl;
     [apply String.eqb_eq in Hl | apply String.eqb_neq in Hl]);
    destruct (is_not_None (qlora_adapter_name_or_path (self st))) eqn:Hql;
    cbn [orb andb negb] in H; follow; cbn;
    (split; [reflexivity |]); (split; [reflexivity |]);
    (split; [split; intros; congruence |]);
    intros Hn; try assumption;
    apply is_not_None_true in Hn; congruence.
Qed.

(** [build_load] calls [create_load_config] after it has at most recorded
    the QLoRA adapter path in [model_loader_extra_config]. *)
Lemma build_load_create_load_config w l3 st3 l4 st4 :
  build_load w l3 st3 = (Return l4, st4) ->
  exists sq,
    create_load_config w sq = (Return (load_config l4), st4)
    /\ (forall (B : Type) (f : EngineArgs -> B),
          (forall v s, f (set_model_loader_extra_config v s) = f s) ->
          f (self sq) = f (self st3))
    /\ model_loader_extra_config (self sq)
       = match qlora_adapter_name_or_path (self st3) with
         | Some path =>
             if negb (String.eqb path "") then
               Some (dict_setitem
                       (default_to [] (model_loader_extra_config (self st3)))
                       "qlora_adapter_name_or_path" (PyStr path))
             else model_loader_extra_config (self st3)
         | None => model_loader_extra_config (self st3)
         end.
Proof.
  unfold build_load. intros H.
  apply bind_Return_inv in H. destruct H as (s & sa & Hs & H).
  apply get_self_inv in Hs. destruct Hs as [Hs ->].
  injection Hs as Hs. subst s.
  apply bind_Return_inv in H. destruct H as (lc & sl & Hl & H).
  apply bind_Return_inv in H. destruct H as (u & sq & Hq & H).
  apply bind_Return_inv in H. destruct H as (ld & sz & Hld & H).
  apply ret_inv in H. destruct H as [H ->]. injection H as H. subst l4.
  cbn [load_config]. exists sq. split; [exact Hld |].
  assert (Hsl : self sl = self st3).
  { refine ((_ : pure _) _ _ _ Hl). frame_go. }
  split.
  - intros B f F. rewrite <- Hsl.
    refine ((_ : keeps f _) _ _ _ Hq). frame_go.
  - rewrite <- Hsl in *. revert Hq.
    destruct (qlora_adapter_name_or_path (self sl)) as [path |];
      [| intros Hq; follow; reflexivity].
    destruct (negb (path =? "")%string); [| intros Hq; follow; reflexivity].
    intros Hq.
    apply bind_Return_inv in Hq. destruct Hq as (s & sa & Hs & Hq).
    apply get_self_inv in Hs. destruct Hs as [Hs ->].
    injection Hs as Hs. subst s.
    destruct (model_loader_extra_config (self sl)) as [d |] eqn:Hd;
      cbn [is_None] in Hq.
    + apply bind_Return_inv in Hq. destruct Hq as (u1 & s1 & Hu & Hq).
      apply ret_inv in Hu. destruct Hu as [_ ->].
      apply bind_Return_inv in Hq. destruct Hq as (s & sa & Hs & Hq).
      apply get_self_inv in Hs. destruct Hs as [Hs ->].
      injection Hs as Hs. subst s. rewrite Hd in Hq.
      follow. reflexivity.
    + apply bind_Return_inv in Hq. destruct Hq as (u1 & s1 & Hu & Hq).
      apply assign_inv in Hu. destruct Hu as [_ ->].
      apply bind_Return_inv in Hq. destruct Hq as (s & sa & Hs & Hq).
      apply get_self_inv in Hs. destruct Hs as [Hs ->].
      injection Hs as Hs. subst s. cbn in Hq.
      follow. reflexivity.
Qed.

(** From the model configuration to the load configuration, resolution
    assigns neither [quantization] nor [load_format]. *)
Lemma create_engine_config_Return_load w uc st cfg st6 :
  create_engine_config w uc st = (Return cfg, st6) ->
  exists sd sm sq st4,
    after_event (Constructed "DeviceConfig") st sd
    /\ create_model_config w sd
       = (Return (VllmConfig.model_config cfg), sm)
    /\ create_load_config w sq = (Return (VllmConfig.load_config cfg), st4)
    /\ quantization (self sq) = quantization (self sm)
    /\ load_format (self sq) = load_format (self sm)
    /\ qlora_adapter_name_or_path (self sq)
       = qlora_adapter_name_or_path (self st)
    /\ model_loader_extra_config (self sq)
       = match qlora_adapter_name_or_path (self st) with
         | Some path =>
             if negb (String.eqb path "") then
               Some (dict_setitem
                       (default_to [] (model_loader_extra_config (self st)))
                       "qlora_adapter_name_or_path" (PyStr path))
             else model_loader_extra_config (self st)
         | None => model_loader_extra_config (self st)
         end.
Proof.
  intros H. apply create_engine_config_Return_inv in H.
  destruct H as (l1 & s1 & l2 & s2 & l3 & s3 & l4 & s4 & l5 & s5
                 & H1 & H2 & H3 & H4 & H5 & H6).
  pose proof (choose_runtime_Return_inv _ _ _ _ _ H1)
    as (sd & sm & supported & so & su & Hd & Hm & Ho & _ & Hsu & _ & Hdef).
  pose proof (build_speculative_Return _ _ _ _ _ H2) as [Hl2 Hs2].
  pose proof (build_scheduler_Return _ _ _ _ _ H3) as (Hl3 & _ & Hs3 & _).
  pose proof (build_load_Return _ _ _ _ _ H4) as [Hl4 _].
  pose proof (build_decoding_Return _ _ _ _ _ H5) as Hl5.
  apply assemble_Return in H6. cbv zeta in H6.
  destruct H6 as (Hmc & _ & _ & _ & _ & Hld & _).
  rewrite Hl5 in Hld. rewrite Hl5, Hl4, Hl3, Hl2 in Hmc.
  apply build_load_create_load_config in H4.
  destruct H4 as (sq & Hq & Hk & Hx).
  exists sd, sm, sq, s4. rewrite Hmc, Hld.
  split; [exact Hd |]. split; [exact Hm |]. split; [exact Hq |].
  assert (Hfrom_sm : forall (B : Type) (f : EngineArgs -> B),
             (forall v s, f (set_enable_chunked_prefill v s) = f s) ->
             (forall v s, f (set_enable_prefix_caching v s) = f s) ->
             (forall v s, f (set_max_num_seqs v s) = f s) ->
             (forall v s, f (set_max_num_batched_tokens v s) = f s) ->
             (forall v s, f (set_num_scheduler_steps v s) = f s) ->
             f (self s3) = f (self sm)).
  { intros B f F1 F2 F3 F4 F5.
    transitivity (f (self s1)).
    - rewrite Hs3, Hs2.
      destruct ((1 <? num_scheduler_steps (self s1))
                && is_cpu (current_platform w)); [apply F5 | reflexivity].
    - rewrite <- (_is_v1_supported_oracle_pure _ _ _ _ _ Ho), <- Hsu.
      destruct (use_v1 l1).
      + refine ((_ : keeps f _) _ _ _ Hdef).
        unfold _set_default_args_v1. frame_go.
      + refine ((_ : keeps f _) _ _ _ Hdef).
        unfold _set_default_args_v0. frame_go. }
  assert (Hfrom_st : forall (B : Type) (f : EngineArgs -> B),
             (forall v s, f (set_model v s) = f s) ->
             (forall v s, f (set_load_format v s) = f s) ->
             (forall v s, f (set_quantization v s) = f s) ->
             (forall v s, f (set_enable_chunked_prefill v s) = f s) ->
             (forall v s, f (set_enable_prefix_caching v s) = f s) ->
             (forall v s, f (set_max_num_seqs v s) = f s) ->
             (forall v s, f (set_max_num_batched_tokens v s) = f s) ->
             (forall v s, f (set_num_scheduler_steps v s) = f s) ->
             f (self s3) = f (self st)).
  { intros B f F1 F2 F3 F4 F5 F6 F7 F8.
    rewrite (Hfrom_sm B f F4 F5 F6 F7 F8).
    destruct Hd as (Hd & _). rewrite <- Hd.
    exact (create_model_config_keeps f F1 F2 F3 w sd _ _ Hm). }
  split; [rewrite (Hk _ quantization) by reflexivity;
          apply (Hfrom_sm _ quantization); reflexivity |].
  split; [rewrite (Hk _ load_format) by reflexivity;
          apply (Hfrom_sm _ load_format); reflexivity |].
  split; [rewrite (Hk _ qlora_adapter_name_or_path) by reflexivity;
          apply (Hfrom_st _ qlora_adapter_name_or_path); reflexivity |].
  rewrite Hx.
  rewrite (Hfrom_st _ qlora_adapter_name_or_path) by reflexivity.
  rewrite (Hfrom_st _ model_loader_extra_config) by reflexivity.
  reflexivity.
Qed.

(** X7. When the model is a GGUF file, every returned configuration has
    quantization "gguf" in its [ModelConfig] and load format "gguf" in its
    [LoadConfig], whatever [quantization] and [load_format] the caller
    passed (the load format as long as the automatic format is not itself
    named "gguf"); and no such resolution succeeds with a QLoRA adapter. *)
Theorem gguf_file_decides_quantization w uc st cfg st1 :
  create_engine_config w uc st = (Return cfg, st1) ->
  check_gguf_file w (model (self st)) = true ->
  LoadFormat_AUTO w <> "gguf" ->
  ModelConfig.kw.quantization
    (ModelConfig.kwargs (VllmConfig.model_config cfg)) = Some "gguf"
  /\ LoadConfig.load_format (VllmConfig.load_config cfg) = "gguf"
  /\ qlora_adapter_name_or_path (self st) = None.
Proof.
  intros H Hg Hauto.
  apply create_engine_config_Return_load in H.
  destruct H as (sd & sm & sq & st4 & Hd & Hm & Hq & Eq & El & Eql & _).
  destruct Hd as (Hd & _).
  rewrite <- Hd in Hg.
  destruct (create_model_config_gguf _ _ _ _ Hm Hg) as [Gq Gl].
  specialize (Gl Hauto).
  pose proof (create_model_config_Return _ _ _ _ Hm)
    as (_ & _ & _ & Kq & _).
  pose proof (create_load_config_Return _ _ _ _ Hq)
    as (Ll & _ & _ & Lql).
  rewrite El, Gl in Ll.
  split; [rewrite Kq; exact Gq |]. split; [exact Ll |].
  destruct (qlora_adapter_name_or_path (self st)) as [p |] eqn:Hp;
    [| reflexivity].
  exfalso. rewrite Eql in Lql.
  assert (Hb : load_format (self sq) = "bitsandbytes")
    by (apply Lql; discriminate).
  rewrite El, Gl in Hb. discriminate Hb.
Qed.

Lemma gguf_file_decides_quantization_witness :
  exists cfg st1,
    create_engine_config gguf_world None
      (fresh gguf_world bnb_both_args) = (Return cfg, st1)
    /\ ModelConfig.kw.quantization
         (ModelConfig.kwargs (VllmConfig.model_config cfg)) = Some "gguf"
    /\ LoadConfig.load_format (VllmConfig.load_config cfg) = "gguf"
    /\ qlora_adapter_name_or_path (self (fresh gguf_world bnb_both_args))
       = None.
Proof.
  eexists. eexists. split; [vm_compute; reflexivity |].
  exact (gguf_file_decides_quantization gguf_world None
           (fresh gguf_world bnb_both_args) _ _
           ltac:(vm_compute; reflexivity) eq_refl
           ltac:(vm_compute; discriminate)).
Defined.

(** X8. In every returned configuration the [ModelConfig] has quantization
    "bitsandbytes" exactly when the [LoadConfig] has load format
    "bitsandbytes"; with a QLoRA adapter path both hold, and a non-empty
    path is found in the [LoadConfig]'s [model_loader_extra_config] under
    the key "qlora_adapter_name_or_path". *)
Theorem bitsandbytes_agreement w uc st cfg st1 :
  create_engine_config w uc st = (Return cfg, st1) ->
  (ModelConfig.kw.quantization
     (ModelConfig.kwargs (VllmConfig.model_config cfg)) = Some "bitsandbytes"
   <-> LoadConfig.load_format (VllmConfig.load_config cfg) = "bitsandbytes")
  /\ (forall path,
        qlora_adapter_name_or_path (self st) = Some path ->
        LoadConfig.load_format (VllmConfig.load_config cfg) = "bitsandbytes"
        /\ (path <> "" ->
            exists d,
              LoadConfig.model_loader_extra_config
                (VllmConfig.load_config cfg) = Some d
              /\ dict_get d "qlora_adapter_name_or_path"
                 = Some (PyStr path))).
Proof.
  intros H.
  apply create_engine_config_Return_load in H.
  destruct H as (sd & sm & sq & st4 & Hd & Hm & Hq & Eq & El & Eql & Ex).
  pose proof (create_model_config_Return _ _ _ _ Hm)
    as (_ & _ & _ & Kq & _).
  pose proof (create_load_config_Return _ _ _ _ Hq)
    as (Ll & Lx & Lb & Lql).
  rewrite Kq, Ll, <- Eq. split; [exact Lb |].
  intros path Hp. split.
  - apply Lql. rewrite Eql, Hp. discriminate.
  - intros Hne. rewrite Lx, Ex, Hp.
    apply String.eqb_neq in Hne. rewrite Hne. cbn [negb].
    eexists. split; [reflexivity |]. apply dict_get_setitem.
Qed.

Lemma bitsandbytes_agreement_witness :
  exists cfg st1,
    create_engine_config forced_v0_world None
      (fresh forced_v0_world qlora_args) = (Return cfg, st1)
    /\ LoadConfig.load_format (VllmConfig.load_config cfg) = "bitsandbytes"
    /\ LoadConfig.model_loader_extra_config (VllmConfig.load_config cfg)
       = Some [("qlora_adapter_name_or_path", PyStr "adapters/qlora")].
Proof.
  eexists. eexists. split; [vm_compute; reflexivity |].
  pose proof (bitsandbytes_agreement forced_v0_world None
                (fresh forced_v0_world qlora_args) _ _
                ltac:(vm_compute; reflexivity)) as [_ H].
  destruct (H "adapters/qlora" eq_refl) as [Hl _].
  split; [exact Hl | vm_compute; reflexivity].
Defined.

(* ===================================================================== *)
(** * Which engine a returned configuration runs on *)
(* ===================================================================== *)

(** The oracle is consulted on the caller's arguments as far as its
    conditions go: they read nothing [create_model_config] assigns. *)
Lemma choose_runtime_oracle_conditions w uc st l1 st1 :
  choose_runtime w uc st = (Return l1, st1) ->
  exists sm supported so,
    _is_v1_supported_oracle w (model_config l1) sm = (Return supported, so)
    /\ use_v1 l1 = chosen_v1 w supported
    /\ unsupported_conditions w (model_config l1) (self sm)
       = unsupported_conditions w (model_config l1) (self st)
    /\ experimental_conditions w (model_config l1) (self sm)
       = experimental_conditions w (model_config l1) (self st).
Proof.
  intros H. apply choose_runtime_Return_inv in H.
  destruct H as (sd & sm & supported & so & su
                 & (Hd & _ & _) & Hm & Ho & Hc & _).
  exists sm, supported, so. split; [exact Ho |]. split; [exact Hc |].
  rewrite <- Hd. split.
  - exact (create_model_config_keeps
             (unsupported_conditions w (model_config l1))
             (fun _ _ => eq_refl) (fun _ _ => eq_refl) (fun _ _ => eq_refl)
             w sd _ _ Hm).
  - exact (create_model_config_keeps
             (experimental_conditions w (model_config l1))
             (fun _ _ => eq_refl) (fun _ _ => eq_refl) (fun _ _ => eq_refl)
             w sd _ _ Hm).
Qed.

(** X9.  The engine of a returned configuration, from the caller's
    arguments and the environment alone: V1 exactly when no rule for an
    unsupported feature applies and either [VLLM_USE_V1] is on, or the
    variable is unset, V1 is tried by default and no experimental feature
    is in use. *)
Theorem resolved_engine (w : World) (uc : option UsageContext)
    (st : state) (cfg : VllmConfig.t) (st1 : state) :
  create_engine_config w uc st = (Return cfg, st1) ->
  VllmConfig.use_v1 cfg
  = negb (any (unsupported_conditions w (VllmConfig.model_config cfg)
                 (self st)))
    && (VLLM_USE_V1 (envs w)
        || (negb (is_set_VLLM_USE_V1 (envs w))
            && VLLM_USE_V1_BY_DEFAULT (envs w)
            && negb (any (experimental_conditions w
                            (VllmConfig.model_config cfg) (self st))))).
Proof.
  intros H.
  apply create_engine_config_Return_runtime in H.
  destruct H as (l1 & s1 & H1 & Hv & Hm).
  apply choose_runtime_oracle_conditions in H1.
  destruct H1 as (sm & supported & so & Ho & Hc & Hu & He).
  rewrite Hv, Hm, Hc, <- Hu, <- He. unfold chosen_v1.
  rewrite (_is_v1_supported_oracle_answer _ _ _ _ _ Ho).
  destruct (any (unsupported_conditions w (model_config l1) (self sm)));
    destruct (VLLM_USE_V1 (envs w));
    destruct (any (experimental_conditions w (model_config l1) (self sm)));
    destruct (is_set_VLLM_USE_V1 (envs w));
    destruct (VLLM_USE_V1_BY_DEFAULT (envs w)); reflexivity.
Qed.

(** X9 on an H100 with [VLLM_USE_V1] unset: V1 for the default arguments,
    V0 with LoRA (experimental) and with a priority policy (unsupported). *)
Lemma resolved_engine_witness :
  (exists cfg st1,
     create_engine_config gpu_world None (fresh gpu_world EngineArgs_default)
     = (Return cfg, st1)
     /\ VllmConfig.use_v1 cfg = true)
  /\ (exists cfg st1,
        create_engine_config gpu_world None (fresh gpu_world lora_args)
        = (Return cfg, st1)
        /\ VllmConfig.use_v1 cfg = false)
  /\ (exists cfg st1,
        create_engine_config gpu_world None (fresh gpu_world priority_args)
        = (Return cfg, st1)
        /\ VllmConfig.use_v1 cfg = false).
Proof.
  split; [| split].
  - eexists. eexists. split; [vm_compute; reflexivity |].
    exact (resolved_engine gpu_world None
             (fresh gpu_world EngineArgs_default) _ _
             ltac:(vm_compute; reflexivity)).
  - eexists. eexists. split; [vm_compute; reflexivity |].
    exact (resolved_engine gpu_world None (fresh gpu_world lora_args) _ _
             ltac:(vm_compute; reflexivity)).
  - eexists. eexists. split; [vm_compute; reflexivity |].
    exact (resolved_engine gpu_world None (fresh gpu_world priority_args) _ _
             ltac:(vm_compute; reflexivity)).
Defined.

(* ===================================================================== *)
(** * Multi-step scheduling *)
(* ===================================================================== *)

(** [check_multi_step] does not return for multi-step chunked prefill on
    more than one pipeline stage. *)
Lemma check_multi_step_pipeline w speculative_config st u st1 :
  check_multi_step w speculative_config st = (Return u, st1) ->
  1 < num_scheduler_steps (self st) ->
  truthy_bool (enable_chunked_prefill (self st)) = true ->
  pipeline_parallel_size (self st) <= 1.
Proof.
  unfold check_multi_step. intros H Hsteps Hcp.
  apply bind_Return_inv in H. destruct H as (s & sa & Hs & H).
  apply get_self_inv in Hs. destruct Hs as [Hs ->].
  injection Hs as Hs. subst s.
  apply Z.ltb_lt in Hsteps. rewrite Hsteps, Hcp in H.
  destruct (is_not_None speculative_config); [discriminate H |].
  cbn [andb] in H.
  destruct (1 <? pipeline_parallel_size (self st)) eqn:Hpp;
    [discriminate H |].
  apply Z.ltb_ge in Hpp. exact Hpp.
Qed.

Lemma build_scheduler_pipeline w l2 st2 l3 st3 :
  build_scheduler w l2 st2 = (Return l3, st3) ->
  1 < num_scheduler_steps (self st2) ->
  truthy_bool (enable_chunked_prefill (self st2)) = true ->
  pipeline_parallel_size (self st2) <= 1.
Proof.
  unfold build_scheduler. cbv zeta. intros H.
  apply bind_Return_inv in H. destruct H as (u & sa & Hc & _).
  exact (check_multi_step_pipeline _ _ _ _ _ Hc).
Qed.

(** X10.  A returned configuration for which more than one scheduler step
    was requested runs on V0 and has no speculative configuration; and if
    its scheduler has chunked prefill on, [pipeline_parallel_size] is at
    most 1. *)
Theorem multi_step_configuration (w : World) (uc : option UsageContext)
    (st : state) (cfg : VllmConfig.t) (st1 : state) :
  create_engine_config w uc st = (Return cfg, st1) ->
  1 < num_scheduler_steps (self st) ->
  VllmConfig.use_v1 cfg = false
  /\ VllmConfig.speculative_config cfg = None
  /\ (SchedulerConfig.enable_chunked_prefill
        (VllmConfig.scheduler_config cfg) = Some true ->
      pipeline_parallel_size (self st) <= 1).
Proof.
  intros H Hsteps.
  pose proof (create_engine_config_Return_runtime _ _ _ _ _ H)
    as (l1' & s1' & H1' & Hv & Hm).
  apply create_engine_config_Return_inv in H.
  destruct H as (l1 & s1 & l2 & s2 & l3 & s3 & l4 & s4 & l5 & s5
                 & H1 & H2 & H3 & H4 & H5 & H6).
  rewrite H1 in H1'. injection H1' as <- <-.
  pose proof (choose_runtime_keeps_steps _ _ _ _ _ H1) as [Hst _].
  assert (Hpp : pipeline_parallel_size (self s1)
                = pipeline_parallel_size (self st)).
  { refine (choose_runtime_keeps pipeline_parallel_size _ _ _ _ _ _ _
              w uc st _ _ H1); reflexivity. }
  pose proof (build_speculative_Return _ _ _ _ _ H2) as [_ Hs2].
  pose proof (build_scheduler_Return _ _ _ _ _ H3)
    as (Hl3 & Hspec & Hs3 & _ & _ & Hcp).
  pose proof (build_load_Return _ _ _ _ _ H4) as [Hl4 _].
  pose proof (build_decoding_Return _ _ _ _ _ H5) as Hl5.
  apply assemble_Return in H6. cbv zeta in H6.
  destruct H6 as (_ & _ & Hsc & Hsched & _).
  rewrite Hl5, Hl4 in Hsched, Hsc. rewrite Hl3 in Hsc.
  split; [| split].
  - rewrite Hv.
    apply choose_runtime_oracle_conditions in H1.
    destruct H1 as (sm & supported & so & Ho & Hc & Hu & _).
    rewrite Hc.
    assert (Hany : any (unsupported_conditions w (model_config l1) (self sm))
                   = true).
    { rewrite Hu. unfold any, unsupported_conditions.
      apply existsb_exists.
      exists (negb (num_scheduler_steps (self st)
                    =? num_scheduler_steps EngineArgs_default)).
      split; [cbn; tauto |].
      apply negb_true_iff, Z.eqb_neq.
      change (num_scheduler_steps EngineArgs_default) with 1. lia. }
    rewrite (_is_v1_supported_oracle_answer _ _ _ _ _ Ho), Hany.
    reflexivity.
  - rewrite Hsc. apply Hspec. rewrite Hs2, Hst. exact Hsteps.
  - rewrite Hsched, Hcp. intros Hon. rewrite <- Hpp, <- Hs2.
    apply (build_scheduler_pipeline _ _ _ _ _ H3).
    + rewrite Hs2, Hst. exact Hsteps.
    + assert (He : enable_chunked_prefill (self s3)
                   = enable_chunked_prefill (self s2)).
      { rewrite Hs3.
        destruct ((1 <? num_scheduler_steps (self s2))
                  && is_cpu (current_platform w)); reflexivity. }
      rewrite <- He, Hon. reflexivity.
Qed.

(** X10 on an H100: four scheduler steps with chunked prefill on one
    pipeline stage resolve, on V0. *)
Lemma multi_step_configuration_witness :
  exists cfg st1,
    create_engine_config gpu_world None
      (fresh gpu_world (set_enable_chunked_prefill (Some true)
                          multi_step_args))
    = (Return cfg, st1)
    /\ VllmConfig.use_v1 cfg = false
    /\ VllmConfig.speculative_config cfg = None
    /\ SchedulerConfig.enable_chunked_prefill
         (VllmConfig.scheduler_config cfg) = Some true
    /\ pipeline_parallel_size
         (self (fresh gpu_world (set_enable_chunked_prefill (Some true)
                                   multi_step_args))) <= 1.
Proof.
  eexists. eexists. split; [vm_compute; reflexivity |].
  pose proof (multi_step_configuration gpu_world None
                (fresh gpu_world (set_enable_chunked_prefill (Some true)
                                    multi_step_args)) _ _
                ltac:(vm_compute; reflexivity)
                ltac:(vm_compute; reflexivity)) as (Hv & Hs & Hp).
  split; [exact Hv |]. split; [exact Hs |].
  split; [vm_compute; reflexivity |].
  apply Hp. vm_compute. reflexivity.
Defined.

(* ===================================================================== *)
(** * The sub-configurations of a returned configuration *)
(* ===================================================================== *)

Lemma build_scheduler_constructed w l2 st2 l3 st3 :
  build_scheduler w l2 st2 = (Return l3, st3) ->
  constructed (events st3)
  = (constructed (events st2) ++ ["SchedulerConfig"])%list.
Proof.
  unfold build_scheduler. cbv zeta. intros H.
  apply bind_Return_inv in H. destruct H as (u & sa & Hc & H).
  assert (Hs : constructed (events sa) = constructed (events st2)).
  { refine ((_ : silent _) _ _ _ Hc). unfold check_multi_step. frame_go. }
  rewrite <- Hs. clear Hc Hs.
  follow_all;
    repeat match goal with
           | E : events _ = _ |- _ => rewrite E; clear E
           end;
    cbn [events]; rewrite ?constructed_app; simpl; reflexivity.
Qed.

Lemma create_load_config_constructed w st config st1 :
  create_load_config w st = (Return config, st1) ->
  constructed (events st1) = (constructed (events st) ++ ["LoadConfig"])%list.
Proof.
  unfold create_load_config. intros H.
  follow_all;
    repeat match goal with
           | E : events _ = _ |- _ => rewrite E; clear E
           end;
    cbn [events]; rewrite ?constructed_app; simpl; reflexivity.
Qed.

Lemma build_load_constructed w l3 st3 l4 st4 :
  build_load w l3 st3 = (Return l4, st4) ->
  constructed (events st4)
  = (constructed (events st3)
     ++ (if enable_lora (self st3) then ["LoRAConfig"] else [])
     ++ ["LoadConfig"])%list.
Proof.
  unfold build_load. intros H.
  apply bind_Return_inv in H. destruct H as (s & sa & Hs & H).
  apply get_self_inv in Hs. destruct Hs as [Hs ->].
  injection Hs as Hs. subst s.
  apply bind_Return_inv in H. destruct H as (lc & sl & Hl & H).
  apply bind_Return_inv in H. destruct H as (u & sq & Hq & H).
  apply bind_Return_inv in H. destruct H as (ld & sz & Hld & H).
  apply ret_inv in H. destruct H as [_ ->].
  rewrite (create_load_config_constructed _ _ _ _ Hld).
  assert (Hsq : constructed (events sq) = constructed (events sl)).
  { refine ((_ : silent _) _ _ _ Hq). frame_go. }
  rewrite Hsq. clear Hq Hsq Hld.
  destruct (enable_lora (self st3)).
  - follow_all;
      repeat match goal with
             | E : events _ = _ |- _ => rewrite E; clear E
             end;
      cbn [events]; rewrite ?constructed_app; simpl;
      rewrite <- ?app_assoc; reflexivity.
  - follow. rewrite app_nil_l. reflexivity.
Qed.

Lemma build_decoding_constructed w l4 st4 l5 st5 :
  build_decoding w l4 st4 = (Return l5, st5) ->
  constructed (events st5)
  = (constructed (events st4)
     ++ (if enable_prompt_adapter (self st4) then ["PromptAdapterConfig"]
         else [])
     ++ ["DecodingConfig"])%list
  /\ self st5 = self st4
  /\ (is_not_None (prompt_adapter_config l5)
      = enable_prompt_adapter (self st4)).
Proof.
  unfold build_decoding. cbv zeta. intros H.
  apply bind_Return_inv in H. destruct H as (s & sa & Hs & H).
  apply get_self_inv in Hs. destruct Hs as [Hs ->].
  injection Hs as Hs. subst s.
  destruct (enable_prompt_adapter (self st4)).
  - follow_all;
      repeat match goal with
             | E : events _ = _ |- _ => rewrite E; clear E
             end;
      cbn [events prompt_adapter_config is_not_None is_None negb];
      rewrite ?constructed_app; simpl; rewrite <- ?app_assoc;
      (split; [reflexivity |]); (split; [congruence | reflexivity]).
  - follow_all;
      repeat match goal with
             | E : events _ = _ |- _ => rewrite E; clear E
             end;
      cbn [events prompt_adapter_config is_not_None is_None negb];
      rewrite ?constructed_app; simpl; rewrite <- ?app_assoc;
      (split; [reflexivity |]); (split; [congruence | reflexivity]).
Qed.

Lemma assemble_constructed w l5 st5 cfg st6 :
  assemble w l5 st5 = (Return cfg, st6) ->
  constructed (events st6)
  = (constructed (events st5) ++ ["ObservabilityConfig"; "VllmConfig"])%list
  /\ VllmConfig.prompt_adapter_config cfg = prompt_adapter_config l5.
Proof.
  unfold assemble. cbv zeta. intros H.
  apply bind_Return_inv in H. destruct H as (s & sa & Hs & H).
  apply get_self_inv in Hs. destruct Hs as [Hs ->].
  injection Hs as Hs. subst s.
  apply bind_Return_inv in H. destruct H as ([] & sb & Hc & H).
  pose proof (check_detailed_trace_modules_state _ _ _ _ Hc). subst sb.
  clear Hc.
  follow_all;
    repeat match goal with
           | E : events _ = _ |- _ => rewrite E; clear E
           end;
    cbn [events VllmConfig.prompt_adapter_config];
    rewrite ?constructed_app; simpl; rewrite <- ?app_assoc;
    (split; reflexivity).
Qed.

(** The tokenizer pool of the [ParallelConfig] is what
    [TokenizerPoolConfig.create_config] returned (line 1215). *)
Lemma build_speculative_tokenizer_pool w l1 st1 l2 st2 :
  build_speculative w l1 st1 = (Return l2, st2) ->
  TokenizerPoolConfig_create_config w (tokenizer_pool_size (self st1))
    (tokenizer_pool_type (self st1)) (tokenizer_pool_extra_config (self st1))
  = Return (ParallelConfig.tokenizer_pool_config (parallel_config l2)).
Proof.
  unfold build_speculative. cbv zeta. intros H.
  apply bind_Return_inv in H. destruct H as (s & sa & Hs & H).
  apply get_self_inv in Hs. destruct Hs as [Hs ->].
  injection Hs as Hs. subst s.
  apply bind_Return_inv in H. destruct H as (cc & sb & Hcc & H).
  apply bind_Return_inv in H. destruct H as (pool & sc & Hpool & H).
  apply lift_inv in Hpool. destruct Hpool as [Hpool _].
  apply bind_Return_inv in H. destruct H as (pc & sd & Hpc & H).
  apply construct_Return_inv in Hpc. destruct Hpc as (-> & _).
  follow_all; cbn [parallel_config ParallelConfig.tokenizer_pool_config];
    symmetry; exact Hpool.
Qed.

Lemma assemble_parallel_config w l5 st5 cfg st6 :
  assemble w l5 st5 = (Return cfg, st6) ->
  VllmConfig.parallel_config cfg
  = parallel_config (in_speculative (in_scheduler (in_load l5))).
Proof.
  unfold assemble. cbv zeta. intros H.
  apply bind_Return_inv in H. destruct H as (s & sa & Hs & H).
  apply get_self_inv in Hs. destruct Hs as [Hs ->].
  injection Hs as Hs. subst s.
  apply bind_Return_inv in H. destruct H as ([] & sb & Hc & H).
  pose proof (check_detailed_trace_modules_state _ _ _ _ Hc). subst sb.
  follow. reflexivity.
Qed.

(** X11.  The constructor calls that a returned resolution has recorded
    (a class called, or [SpeculativeConfig.maybe_create_spec_config] giving
    a configuration) were made in one fixed order, the optional ones
    exactly when the configuration holds their result; a [LoRAConfig] is
    present exactly when [enable_lora] is set and a [PromptAdapterConfig]
    exactly when [enable_prompt_adapter] is.  One more object is made that
    is not among the recorded calls: the tokenizer pool, which
    [TokenizerPoolConfig.create_config] returns (or [None]) for the three
    tokenizer-pool attributes and which the [ParallelConfig] holds. *)
Theorem construction_order (w : World) (uc : option UsageContext)
    (st : state) (cfg : VllmConfig.t) (st1 : state) :
  create_engine_config w uc st = (Return cfg, st1) ->
  constructed (events st1)
  = (constructed (events st)
     ++ ["DeviceConfig"; "ModelConfig"; "CacheConfig"; "ParallelConfig"]
     ++ (if is_not_None (VllmConfig.speculative_config cfg)
         then ["SpeculativeConfig"] else [])
     ++ ["SchedulerConfig"]
     ++ (if is_not_None (VllmConfig.lora_config cfg)
         then ["LoRAConfig"] else [])
     ++ ["LoadConfig"]
     ++ (if is_not_None (VllmConfig.prompt_adapter_config cfg)
         then ["PromptAdapterConfig"] else [])
     ++ ["DecodingConfig"; "ObservabilityConfig"; "VllmConfig"])%list
  /\ is_not_None (VllmConfig.lora_config cfg) = enable_lora (self st)
  /\ is_not_None (VllmConfig.prompt_adapter_config cfg)
     = enable_prompt_adapter (self st)
  /\ TokenizerPoolConfig_create_config w (tokenizer_pool_size (self st))
       (tokenizer_pool_type (self st)) (tokenizer_pool_extra_config (self st))
     = Return (ParallelConfig.tokenizer_pool_config
                 (VllmConfig.parallel_config cfg)).
Proof.
  intros H.
  apply create_engine_config_Return_inv in H.
  destruct H as (l1 & s1 & l2 & s2 & l3 & s3 & l4 & s4 & l5 & s5
                 & H1 & H2 & H3 & H4 & H5 & H6).
  assert (Hpool :
            TokenizerPoolConfig_create_config w
              (tokenizer_pool_size (self st)) (tokenizer_pool_type (self st))
              (tokenizer_pool_extra_config (self st))
            = Return (ParallelConfig.tokenizer_pool_config
                        (VllmConfig.parallel_config cfg))).
  { rewrite (assemble_parallel_config _ _ _ _ _ H6).
    rewrite (build_decoding_Return _ _ _ _ _ H5).
    rewrite (proj1 (build_load_Return _ _ _ _ _ H4)).
    rewrite (proj1 (build_scheduler_Return _ _ _ _ _ H3)).
    rewrite <- (build_speculative_tokenizer_pool _ _ _ _ _ H2).
    rewrite (choose_runtime_keeps tokenizer_pool_size
               (fun _ _ => eq_refl) (fun _ _ => eq_refl) (fun _ _ => eq_refl)
               (fun _ _ => eq_refl) (fun _ _ => eq_refl) (fun _ _ => eq_refl)
               (fun _ _ => eq_refl) w uc _ _ _ H1).
    rewrite (choose_runtime_keeps tokenizer_pool_type
               (fun _ _ => eq_refl) (fun _ _ => eq_refl) (fun _ _ => eq_refl)
               (fun _ _ => eq_refl) (fun _ _ => eq_refl) (fun _ _ => eq_refl)
               (fun _ _ => eq_refl) w uc _ _ _ H1).
    rewrite (choose_runtime_keeps tokenizer_pool_extra_config
               (fun _ _ => eq_refl) (fun _ _ => eq_refl) (fun _ _ => eq_refl)
               (fun _ _ => eq_refl) (fun _ _ => eq_refl) (fun _ _ => eq_refl)
               (fun _ _ => eq_refl) w uc _ _ _ H1).
    reflexivity. }
  assert (Hk3 : forall (B : Type) (f : EngineArgs -> B),
             (forall v s, f (set_model v s) = f s) ->
             (forall v s, f (set_load_format v s) = f s) ->
             (forall v s, f (set_quantization v s) = f s) ->
             (forall v s, f (set_enable_chunked_prefill v s) = f s) ->
             (forall v s, f (set_enable_prefix_caching v s) = f s) ->
             (forall v s, f (set_max_num_seqs v s) = f s) ->
             (forall v s, f (set_max_num_batched_tokens v s) = f s) ->
             (forall v s, f (set_num_scheduler_steps v s) = f s) ->
             f (self s3) = f (self st)).
  { intros B f F1 F2 F3 F4 F5 F6 F7 F8.
    rewrite (build_scheduler_keeps f F8 w l2 _ _ _ H3).
    rewrite (proj2 (build_speculative_Return _ _ _ _ _ H2)).
    exact (choose_runtime_keeps f F1 F2 F3 F4 F5 F6 F7 w uc _ _ _ H1). }
  assert (Hk4 : enable_prompt_adapter (self s4)
                = enable_prompt_adapter (self st)).
  { rewrite (build_load_keeps enable_prompt_adapter
               (fun _ _ => eq_refl) w l3 _ _ _ H4).
    apply Hk3; reflexivity. }
  pose proof (choose_runtime_constructed _ _ _ _ _ H1) as C1.
  pose proof (build_speculative_constructed _ _ _ _ _ H2) as C2.
  pose proof (build_scheduler_constructed _ _ _ _ _ H3) as C3.
  pose proof (build_load_constructed _ _ _ _ _ H4) as C4.
  pose proof (build_decoding_constructed _ _ _ _ _ H5) as (C5 & _ & P5).
  pose proof (assemble_constructed _ _ _ _ _ H6) as (C6 & P6).
  pose proof (build_scheduler_Return _ _ _ _ _ H3) as (Hl3 & _).
  pose proof (build_load_Return _ _ _ _ _ H4) as [Hl4 Hlora].
  pose proof (build_decoding_Return _ _ _ _ _ H5) as Hl5.
  apply assemble_Return in H6. cbv zeta in H6.
  destruct H6 as (_ & _ & Hsc & _ & Hlc & _).
  rewrite Hl5 in Hlc. rewrite Hl5, Hl4, Hl3 in Hsc.
  assert (L : is_not_None (VllmConfig.lora_config cfg)
              = enable_lora (self st)).
  { rewrite Hlc, Hlora, (Hk3 _ enable_lora) by reflexivity.
    destruct (enable_lora (self st)); reflexivity. }
  assert (P : is_not_None (VllmConfig.prompt_adapter_config cfg)
              = enable_prompt_adapter (self st)).
  { rewrite P6, P5. exact Hk4. }
  split; [| split; [| split]; assumption].
  rewrite C6, C5, C4, C3, C2, C1, L, P, Hsc, Hk4.
  rewrite (Hk3 _ enable_lora) by reflexivity.
  rewrite <- !app_assoc. reflexivity.
Qed.

(** X11 on an H100 under [VLLM_USE_V1=0], with LoRA enabled and no
    tokenizer pool. *)
Lemma construction_order_witness :
  exists cfg st1,
    create_engine_config forced_v0_world None (fresh forced_v0_world lora_args)
    = (Return cfg, st1)
    /\ constructed (events st1)
       = ["DeviceConfig"; "ModelConfig"; "CacheConfig"; "ParallelConfig";
          "SchedulerConfig"; "LoRAConfig"; "LoadConfig"; "DecodingConfig";
          "ObservabilityConfig"; "VllmConfig"]
    /\ ParallelConfig.tokenizer_pool_config (VllmConfig.parallel_config cfg)
       = None.
Proof.
  eexists. eexists. split; [vm_compute; reflexivity |].
  pose proof (construction_order forced_v0_world None
                (fresh forced_v0_world lora_args) _ _
                ltac:(vm_compute; reflexivity)) as (C & _ & _ & Hpool).
  split; [rewrite C; vm_compute; reflexivity |].
  exact (f_equal
           (fun o => match o with Return pool => pool | Raise _ => None end)
           (eq_sym Hpool)).
Defined.

(* ===================================================================== *)
(** * The model and the load format of a returned configuration *)
(* ===================================================================== *)

(** The load format once [create_model_config] has looked at the model
    file, and whether it then redirects the model to the S3 bucket. *)
Definition load_format_for_file (w : World) (s : EngineArgs) : string :=
  if check_gguf_file w (model s) then "gguf" else load_format s.

Definition loads_from_S3 (w : World) (async : bool) (s : EngineArgs) : bool :=
  negb async && VLLM_CI_USE_S3 (envs w)
  && str_in (model s) (MODELS_ON_S3 w)
  && String.eqb (load_format_for_file w s) (LoadFormat_AUTO w).

Lemma create_model_config_assigns w st mc st1 :
  create_model_config w st = (Return mc, st1) ->
  model (self st1)
  = (if loads_from_S3 w (is_AsyncEngineArgs st) (self st)
     then MODEL_WEIGHTS_S3_BUCKET w ++ "/" ++ model (self st)
     else model (self st))
  /\ load_format (self st1)
     = (if loads_from_S3 w (is_AsyncEngineArgs st) (self st)
        then LoadFormat_RUNAI_STREAMER w
        else load_format_for_file w (self st))
  /\ quantization (self st1)
     = (if check_gguf_file w (model (self st)) then Some "gguf"
        else quantization (self st)).
Proof.
  intros H. unfold create_model_config in H.
  apply bind_Return_inv in H. destruct H as (s & sa & Hs & H).
  apply get_self_inv in Hs. destruct Hs as [Hs ->].
  injection Hs as Hs. subst s.
  apply bind_Return_inv in H. destruct H as (u1 & sb & Hgguf & H).
  apply bind_Return_inv in H. destruct H as (s & sa & Hs & H).
  apply get_self_inv in Hs. destruct Hs as [Hs ->].
  injection Hs as Hs. subst s.
  apply bind_Return_inv in H. destruct H as (async & sa & Ha & H).
  assert (sa = sb /\ async = is_AsyncEngineArgs sb) as [-> ->]
    by (inversion Ha; split; reflexivity).
  apply bind_Return_inv in H. destruct H as (u2 & sc & Hs3 & H).
  assert (Hrest : self st1 = self sc).
  { refine ((_ : pure _) _ _ _ H). frame_go. }
  clear H Ha. rewrite Hrest. clear Hrest.
  assert (Hb : model (self sb) = model (self st)
               /\ load_format (self sb) = load_format_for_file w (self st)
               /\ quantization (self sb)
                  = (if check_gguf_file w (model (self st)) then Some "gguf"
                     else quantization (self st))
               /\ is_AsyncEngineArgs sb = is_AsyncEngineArgs st).
  { unfold load_format_for_file. revert Hgguf.
    destruct (check_gguf_file w (model (self st))); intros Hgguf; follow;
      cbn; repeat split; congruence. }
  clear Hgguf. destruct Hb as (Bm & Bl & Bq & Ba).
  unfold loads_from_S3. rewrite <- Bq, <- Bl, <- Ba, <- Bm. revert Hs3.
  destruct (negb (is_AsyncEngineArgs sb) && VLLM_CI_USE_S3 (envs w)
            && str_in (model (self sb)) (MODELS_ON_S3 w)
            && (load_format (self sb) =? LoadFormat_AUTO w)%string);
    intros Hs3; follow; cbn; repeat split; congruence.
Qed.

(** X12.  The model and load format of a returned configuration.  Outside
    continuous integration ([VLLM_CI_USE_S3] off), for an
    [AsyncEngineArgs], for a model not in [MODELS_ON_S3] or with a load
    format other than the automatic one, the [ModelConfig] gets the
    caller's model, and the [LoadConfig] the caller's load format, or
    "gguf" for a GGUF file.  Otherwise the model is redirected to the S3
    bucket and loaded with the RunAI streamer. *)
Theorem resolved_model_and_load_format (w : World)
    (uc : option UsageContext) (st : state) (cfg : VllmConfig.t)
    (st1 : state) :
  create_engine_config w uc st = (Return cfg, st1) ->
  ModelConfig.kw.model (ModelConfig.kwargs (VllmConfig.model_config cfg))
  = (if loads_from_S3 w (is_AsyncEngineArgs st) (self st)
     then MODEL_WEIGHTS_S3_BUCKET w ++ "/" ++ model (self st)
     else model (self st))
  /\ LoadConfig.load_format (VllmConfig.load_config cfg)
     = (if loads_from_S3 w (is_AsyncEngineArgs st) (self st)
        then LoadFormat_RUNAI_STREAMER w
        else if check_gguf_file w (model (self st)) then "gguf"
             else load_format (self st)).
Proof.
  intros H.
  apply create_engine_config_Return_load in H.
  destruct H as (sd & sm & sq & st4 & (Hd & Ha & _) & Hm & Hq & _ & El & _).
  pose proof (create_model_config_Return _ _ _ _ Hm)
    as (_ & _ & Km & _).
  pose proof (create_model_config_assigns _ _ _ _ Hm) as (Am & Al & _).
  pose proof (create_load_config_Return _ _ _ _ Hq) as (Ll & _).
  rewrite Km, Ll, El, Am, Al, Hd, Ha. split; reflexivity.
Qed.

(** X12 in continuous integration: the default model is redirected to the
    bucket for an [EngineArgs], and left alone for an [AsyncEngineArgs]. *)
Lemma resolved_model_and_load_format_witness :
  (exists cfg st1,
     create_engine_config s3_world None (fresh s3_world EngineArgs_default)
     = (Return cfg, st1)
     /\ ModelConfig.kw.model
          (ModelConfig.kwargs (VllmConfig.model_config cfg))
        = "s3://vllm-ci-model-weights/facebook/opt-125m"
     /\ LoadConfig.load_format (VllmConfig.load_config cfg)
        = "runai_streamer")
  /\ (exists cfg st1,
        create_engine_config s3_world None
          (snd (new_EngineArgs s3_world true EngineArgs_default))
        = (Return cfg, st1)
        /\ ModelConfig.kw.model
             (ModelConfig.kwargs (VllmConfig.model_config cfg))
           = "facebook/opt-125m"
        /\ LoadConfig.load_format (VllmConfig.load_config cfg) = "auto").
Proof.
  split.
  - eexists. eexists. split; [vm_compute; reflexivity |].
    exact (resolved_model_and_load_format s3_world None
             (fresh s3_world EngineArgs_default) _ _
             ltac:(vm_compute; reflexivity)).
  - eexists. eexists. split; [vm_compute; reflexivity |].
    exact (resolved_model_and_load_format s3_world None
             (snd (new_EngineArgs s3_world true EngineArgs_default)) _ _
             ltac:(vm_compute; reflexivity)).
Defined.

(* ===================================================================== *)
(** * The command-line parser [nullable_kvs] (lines 55-87) *)
(* ===================================================================== *)

(** ** Python's [str.strip()] and [int(str)], on ASCII text *)

(** A Python [str] is modelled by a [string] only when it is ASCII text:
    every character below U+0080.  On such text [lower], [strip] and [int]
    below are Python's [str.lower()], [str.strip()] and [int()]; on other
    text Python also folds the case of letters, strips white space and
    reads digits that are not ASCII.  Every statement about the parser
    therefore assumes [is_ascii] of its input. *)
Definition is_ascii (s : string) : bool :=
  forallb (fun c => Nat.ltb (nat_of_ascii c) 128) (list_ascii_of_string s).

(** [c.isspace()]: tab to carriage return, the four separators and the
    space. *)
Definition isspace (c : ascii) : bool :=
  let n := nat_of_ascii c in
  (Nat.leb 9 n && Nat.leb n 13) || (Nat.leb 28 n && Nat.leb n 32).

Fixpoint lstrip (s : string) : string :=
  match s with
  | EmptyString => EmptyString
  | String c r => if isspace c then lstrip r else s
  end.

Fixpoint rstrip (s : string) : string :=
  match s with
  | EmptyString => EmptyString
  | String c r =>
      match rstrip r with
      | EmptyString =>
          if isspace c then EmptyString else String c EmptyString
      | r' => String c r'
      end
  end.

(** [s.strip()]. *)
Definition strip (s : string) : string := rstrip (lstrip s).

Definition isdigit (c : ascii) : bool :=
  let n := nat_of_ascii c in Nat.leb 48 n && Nat.leb n 57.

Definition digit_value (c : ascii) : Z := Z.of_nat (nat_of_ascii c) - 48.

(** The digits of a decimal literal, single underscores allowed between
    two digits: the value read so far, whether the last character was a
    digit, and the number of digits read. *)
Fixpoint int_digits (acc : Z) (after_digit : bool) (count : nat)
    (s : string) : option (Z * nat) :=
  match s with
  | EmptyString => if after_digit then Some (acc, count) else None
  | String c r =>
      if isdigit c then int_digits (10 * acc + digit_value c) true (S count) r
      else if Ascii.eqb c "_" && after_digit then int_digits acc false count r
      else None
  end.

(** [int(s)] in base 10, [None] for [ValueError]: surrounding whitespace,
    an optional sign, digits.  [max_str_digits] is the interpreter's limit
    on the number of digits ([sys.get_int_max_str_digits()], 4300 by
    default; 0 for none). *)
Definition int (max_str_digits : nat) (s : string) : option Z :=
  let signed :=
    match strip s with
    | String "+" r => (false, r)
    | String "-" r => (true, r)
    | r => (false, r)
    end in
  match int_digits 0 false 0 (snd signed) with
  | Some (z, count) =>
      if Nat.ltb 0 max_str_digits && Nat.ltb max_str_digits count then None
      else Some (if fst signed then - z else z)
  | None => None
  end.

(** ** The parser *)

Definition ArgumentTypeError (msg : string) : exn :=
  ForeignError "argparse.ArgumentTypeError" msg.

(** The body of the loop up to the parsed value: the item's key and
    value. *)
Definition parse_item (max_str_digits : nat) (item : string)
  : outcome (string * Z) :=
  let kv_parts := map (fun part => strip (lower part)) (split "=" item) in
  match kv_parts with
  | [key; value] =>
      match int max_str_digits value with
      | Some parsed_value => Return (key, parsed_value)
      | None =>
          Raise (ArgumentTypeError
                   ("Failed to parse value of item " ++ key ++ "=" ++ value))
      end
  | _ => Raise (ArgumentTypeError "Each item should be in the form KEY=VALUE")
  end.

(** [out_dict[key] != parsed_value], for a key of [out_dict]. *)
Definition differs (out_dict : pydict) (key : string) (parsed_value : Z)
  : bool :=
  match dict_get out_dict key with
  | Some (PyInt z) => negb (z =? parsed_value)
  | Some _ => true
  | None => false
  end.

Fixpoint nullable_kvs_items (max_str_digits : nat) (items : list string)
    (out_dict : pydict) : outcome pydict :=
  match items with
  | [] => Return out_dict
  | item :: rest =>
      match parse_item max_str_digits item with
      | Raise e => Raise e
      | Return (key, parsed_value) =>
          if is_not_None (dict_get out_dict key)
             && differs out_dict key parsed_value then
            Raise (ArgumentTypeError
                     ("Conflicting values specified for key: " ++ key))
          else
            nullable_kvs_items max_str_digits rest
              (dict_setitem out_dict key (PyInt parsed_value))
      end
  end.

Definition nullable_kvs (max_str_digits : nat) (val : string)
  : outcome (option pydict) :=
  if Nat.eqb (String.length val) 0 then Return None
  else
    match nullable_kvs_items max_str_digits (split "," val) [] with
    | Return out_dict => Return (Some out_dict)
    | Raise e => Raise e
    end.

(** ** Dictionaries *)

Lemma dict_get_setitem_other d k v k' :
  k' <> k -> dict_get (dict_setitem d k v) k' = dict_get d k'.
Proof.
  intros Hne. induction d as [| [k0 v0] r IH]; cbn.
  - destruct (String.eqb k k') eqn:E; [| reflexivity].
    apply String.eqb_eq in E. congruence.
  - destruct (String.eqb k0 k) eqn:E; cbn.
    + apply String.eqb_eq in E. subst k0.
      destruct (String.eqb k k') eqn:E'; [| reflexivity].
      apply String.eqb_eq in E'. congruence.
    + rewrite IH. reflexivity.
Qed.

Lemma dict_get_None d k : dict_get d k = None <-> ~ In k (map fst d).
Proof.
  induction d as [| [k0 v0] r IH]; cbn.
  - tauto.
  - destruct (String.eqb k0 k) eqn:E.
    + apply String.eqb_eq in E. split; [discriminate | tauto].
    + apply String.eqb_neq in E. rewrite IH. tauto.
Qed.

Lemma dict_setitem_keys d k v :
  map fst (dict_setitem d k v)
  = if is_not_None (dict_get d k) then map fst d else (map fst d ++ [k])%list.
Proof.
  induction d as [| [k0 v0] r IH]; cbn.
  - reflexivity.
  - destruct (String.eqb k0 k) eqn:E; cbn.
    + reflexivity.
    + rewrite IH. destruct (is_not_None (dict_get r k)); reflexivity.
Qed.

Lemma NoDup_snoc (l : list string) (k : string) :
  NoDup l -> ~ In k l -> NoDup (l ++ [k]).
Proof.
  induction l as [| a l IH]; cbn; intros Hn Hk.
  - constructor; [intros [] | constructor].
  - inversion Hn as [| a' l' Ha Hl]; subst. constructor.
    + rewrite in_app_iff. cbn. intros [H | [H | []]]; [contradiction |].
      subst. apply Hk. left. reflexivity.
    + apply IH; [exact Hl | tauto].
Qed.

Lemma dict_setitem_NoDup d k v :
  NoDup (map fst d) -> NoDup (map fst (dict_setitem d k v)).
Proof.
  intros Hd. rewrite dict_setitem_keys.
  destruct (dict_get d k) eqn:E; cbn [is_not_None is_None negb].
  - exact Hd.
  - apply dict_get_None in E. apply NoDup_snoc; assumption.
Qed.

(** ** What the loop has done when it returns or raises *)

Lemma parse_item_Raise n item e :
  parse_item n item = Raise e -> exists msg, e = ArgumentTypeError msg.
Proof.
  unfold parse_item. cbv zeta.
  destruct (map _ (split "=" item)) as [| key [| value [| x r]]];
    try (intros H; injection H as <-; eexists; reflexivity).
  destruct (int n value); [discriminate |].
  intros H. injection H as <-. eexists. reflexivity.
Qed.

(** The test of the loop fails exactly if the key is new or has the same
    value. *)
Lemma no_conflict out_dict key parsed_value :
  is_not_None (dict_get out_dict key) && differs out_dict key parsed_value
  = false <->
  (forall x, dict_get out_dict key = Some x -> x = PyInt parsed_value).
Proof.
  unfold differs.
  destruct (dict_get out_dict key) as [x |]; cbn.
  - destruct x; try (split; [discriminate | intros H; specialize (H _ eq_refl);
                                            discriminate H]).
    destruct (z =? parsed_value) eqn:E; cbn.
    + apply Z.eqb_eq in E. subst z. split; [| reflexivity].
      intros _ x H. injection H as <-. reflexivity.
    + apply Z.eqb_neq in E. split; [discriminate |].
      intros H. specialize (H _ eq_refl). congruence.
  - split; [| reflexivity]. intros _ x H. discriminate H.
Qed.

Lemma nullable_kvs_items_Return n items : forall acc d,
  nullable_kvs_items n items acc = Return d ->
  (forall k x, dict_get acc k = Some x -> dict_get d k = Some x)
  /\ (forall item, In item items ->
        exists k v, parse_item n item = Return (k, v)
                    /\ dict_get d k = Some (PyInt v))
  /\ (forall k x, dict_get d k = Some x ->
        dict_get acc k = Some x
        \/ exists item v, In item items
                          /\ parse_item n item = Return (k, v)
                          /\ x = PyInt v)
  /\ (NoDup (map fst acc) -> NoDup (map fst d)).
Proof.
  induction items as [| item rest IH]; intros acc d H.
  - cbn in H. injection H as <-.
    split; [auto |]. split; [intros item [] |]. split; auto.
  - cbn [nullable_kvs_items] in H.
    destruct (parse_item n item) as [[k0 v0] | e] eqn:Hp; [| discriminate H].
    destruct (is_not_None (dict_get acc k0) && differs acc k0 v0) eqn:Hc;
      [discriminate H |].
    pose proof (proj1 (no_conflict _ _ _) Hc) as Hsame.
    apply IH in H. destruct H as (Hkeep & Hall & Hfrom & Hnd).
    assert (Hget0 : dict_get (dict_setitem acc k0 (PyInt v0)) k0
                    = Some (PyInt v0)) by apply dict_get_setitem.
    split; [| split; [| split]].
    + intros k x Hk. apply Hkeep.
      destruct (String.eqb k k0) eqn:E.
      * apply String.eqb_eq in E. subst k.
        rewrite Hget0, (Hsame _ Hk). reflexivity.
      * apply String.eqb_neq in E.
        rewrite dict_get_setitem_other by exact E. exact Hk.
    + intros item' [<- | Hin].
      * exists k0, v0. split; [exact Hp |]. apply Hkeep, Hget0.
      * apply Hall, Hin.
    + intros k x Hk. destruct (Hfrom _ _ Hk) as [Hacc | (it & v & Hin & Hit & ->)].
      * destruct (String.eqb k k0) eqn:E.
        -- apply String.eqb_eq in E. subst k.
           rewrite Hget0 in Hacc. injection Hacc as <-.
           right. exists item, v0. split; [left; reflexivity |].
           split; [exact Hp | reflexivity].
        -- apply String.eqb_neq in E.
           rewrite dict_get_setitem_other in Hacc by exact E.
           left. exact Hacc.
      * right. exists it, v. split; [right; exact Hin |].
        split; [exact Hit | reflexivity].
    + intros Hn. apply Hnd, dict_setitem_NoDup, Hn.
Qed.

Lemma nullable_kvs_items_Raise n items : forall acc e,
  nullable_kvs_items n items acc = Raise e ->
  (exists msg, e = ArgumentTypeError msg)
  /\ ((exists item e', In item items /\ parse_item n item = Raise e')
      \/ (exists item k v x,
            In item items /\ parse_item n item = Return (k, v)
            /\ dict_get acc k = Some x /\ x <> PyInt v)
      \/ (exists item1 item2 k v1 v2,
            In item1 items /\ In item2 items
            /\ parse_item n item1 = Return (k, v1)
            /\ parse_item n item2 = Return (k, v2)
            /\ v1 <> v2)).
Proof.
  induction items as [| item rest IH]; intros acc e H.
  - discriminate H.
  - cbn [nullable_kvs_items] in H.
    destruct (parse_item n item) as [[k0 v0] | e0] eqn:Hp.
    + destruct (is_not_None (dict_get acc k0) && differs acc k0 v0) eqn:Hc.
      * injection H as <-. split; [eexists; reflexivity |].
        right. left.
        destruct (dict_get acc k0) as [x |] eqn:Hx; [| discriminate Hc].
        exists item, k0, v0, x.
        split; [left; reflexivity |]. split; [exact Hp |].
        split; [exact Hx |]. intros ->.
        unfold differs in Hc. rewrite Hx, Z.eqb_refl in Hc. discriminate Hc.
      * pose proof (proj1 (no_conflict _ _ _) Hc) as Hsame.
        apply IH in H. destruct H as (Hmsg & H). split; [exact Hmsg |].
        destruct H as [(it & e' & Hin & Hit)
                      | [(it & k & v & x & Hin & Hit & Hx & Hne)
                        | (i1 & i2 & k & v1 & v2 & H1 & H2 & P1 & P2 & Hne)]].
        -- left. exists it, e'. split; [right; exact Hin | exact Hit].
        -- destruct (String.eqb k k0) eqn:E.
           ++ apply String.eqb_eq in E. subst k.
              rewrite dict_get_setitem in Hx. injection Hx as <-.
              right. right. exists item, it, k0, v0, v.
              split; [left; reflexivity |]. split; [right; exact Hin |].
              split; [exact Hp |]. split; [exact Hit |]. congruence.
           ++ apply String.eqb_neq in E.
              rewrite dict_get_setitem_other in Hx by exact E.
              right. left. exists it, k, v, x.
              split; [right; exact Hin |]. auto.
        -- right. right. exists i1, i2, k, v1, v2.
           split; [right; exact H1 |]. split; [right; exact H2 |]. auto.
    + injection H as <-. split; [exact (parse_item_Raise _ _ _ Hp) |].
      left. exists item, e0. split; [left; reflexivity | exact Hp].
Qed.

Lemma length_0 (s : string) : Nat.eqb (String.length s) 0 = true <-> s = "".
Proof.
  destruct s; cbn; split; intros H; try reflexivity; discriminate H.
Qed.

(** X13.  What [nullable_kvs] returns on ASCII text.  It returns [None]
    only for the empty string.  A dictionary it returns has no key twice; every item of
    the comma-separated input is a pair KEY=VALUE whose key the dictionary
    maps to the item's integer, and the dictionary holds nothing else. *)
Theorem nullable_kvs_Return (max_str_digits : nat) (val : string)
    (r : option pydict) :
  is_ascii val = true ->
  nullable_kvs max_str_digits val = Return r ->
  match r with
  | None => val = ""
  | Some out_dict =>
      val <> ""
      /\ NoDup (map fst out_dict)
      /\ (forall item, In item (split "," val) ->
            exists key value,
              parse_item max_str_digits item = Return (key, value)
              /\ dict_get out_dict key = Some (PyInt value))
      /\ (forall key x, dict_get out_dict key = Some x ->
            exists item value,
              In item (split "," val)
              /\ parse_item max_str_digits item = Return (key, value)
              /\ x = PyInt value)
  end.
Proof.
  intros _. unfold nullable_kvs.
  destruct (Nat.eqb (String.length val) 0) eqn:Hlen.
  - intros H. injection H as <-. apply length_0, Hlen.
  - destruct (nullable_kvs_items max_str_digits (split "," val) [])
      as [d | e] eqn:Hitems; [| discriminate].
    intros H. injection H as <-.
    apply nullable_kvs_items_Return in Hitems.
    destruct Hitems as (_ & Hall & Hfrom & Hnd).
    split.
    { intros ->. discriminate Hlen. }
    split; [apply Hnd; constructor |]. split; [exact Hall |].
    intros key x Hk. destruct (Hfrom _ _ Hk) as [Hacc | Hit];
      [discriminate Hacc | exact Hit].
Qed.

Lemma nullable_kvs_Return_witness :
  nullable_kvs 4300 "image=16,video=2"
  = Return (Some [("image", PyInt 16); ("video", PyInt 2)])
  /\ NoDup (map fst [("image", PyInt 16); ("video", PyInt 2)]).
Proof.
  split; [vm_compute; reflexivity |].
  exact (proj1 (proj2 (nullable_kvs_Return 4300 "image=16,video=2"
                         (Some [("image", PyInt 16); ("video", PyInt 2)])
                         eq_refl ltac:(vm_compute; reflexivity)))).
Defined.

(** X14.  When [nullable_kvs] fails on ASCII text.  It raises nothing but
    [argparse.ArgumentTypeError]; and it raises exactly when the input is
    not empty and either some item is not a pair KEY=VALUE with an integer
    value, or two items give the same key (after lower-casing and
    stripping) different integers. *)
Theorem nullable_kvs_Raise (max_str_digits : nat) (val : string) :
  is_ascii val = true ->
  (forall e, nullable_kvs max_str_digits val = Raise e ->
             exists msg, e = ArgumentTypeError msg)
  /\ ((exists e, nullable_kvs max_str_digits val = Raise e) <->
      val <> ""
      /\ ((exists item e',
             In item (split "," val)
             /\ parse_item max_str_digits item = Raise e')
          \/ (exists item1 item2 key value1 value2,
                In item1 (split "," val) /\ In item2 (split "," val)
                /\ parse_item max_str_digits item1 = Return (key, value1)
                /\ parse_item max_str_digits item2 = Return (key, value2)
                /\ value1 <> value2))).
Proof.
  intros _.
  assert (Hraise : forall e, nullable_kvs max_str_digits val = Raise e ->
             val <> ""
             /\ nullable_kvs_items max_str_digits (split "," val) []
                = Raise e).
  { unfold nullable_kvs. intros e.
    destruct (Nat.eqb (String.length val) 0) eqn:Hlen; [discriminate |].
    destruct (nullable_kvs_items max_str_digits (split "," val) [])
      as [d | e0]; [discriminate |].
    intros H. injection H as <-. split; [| reflexivity].
    intros ->. discriminate Hlen. }
  split; [| split].
  - intros e H. apply Hraise in H. destruct H as [_ H].
    apply nullable_kvs_items_Raise in H. apply H.
  - intros [e H]. apply Hraise in H. destruct H as [Hne H].
    split; [exact Hne |].
    apply nullable_kvs_items_Raise in H.
    destruct H as (_ & [H | [(it & k & v & x & _ & _ & Hx & _) | H]]).
    + left. exact H.
    + discriminate Hx.
    + right. exact H.
  - intros [Hne Hbad].
    destruct (nullable_kvs max_str_digits val) as [r | e] eqn:H;
      [| exists e; reflexivity].
    exfalso. unfold nullable_kvs in H.
    destruct (Nat.eqb (String.length val) 0) eqn:Hlen;
      [apply length_0 in Hlen; contradiction |].
    destruct (nullable_kvs_items max_str_digits (split "," val) [])
      as [d | e] eqn:Hitems; [| discriminate H].
    apply nullable_kvs_items_Return in Hitems.
    destruct Hitems as (_ & Hall & _).
    destruct Hbad as [(it & e' & Hin & Hit)
                     | (i1 & i2 & k & v1 & v2 & H1 & H2 & P1 & P2 & Hv)].
    + destruct (Hall _ Hin) as (k & v & Hp & _). congruence.
    + destruct (Hall _ H1) as (k1 & w1 & Q1 & G1).
      destruct (Hall _ H2) as (k2 & w2 & Q2 & G2).
      rewrite P1 in Q1. rewrite P2 in Q2.
      injection Q1 as <- <-. injection Q2 as <- <-.
      rewrite G1 in G2. injection G2 as G2. contradiction.
Qed.

(** X14 at two inputs: a repeated key with two values is refused, and so is
    an item without a value. *)
Lemma nullable_kvs_Raise_witness :
  (exists e, nullable_kvs 4300 "image=16,image=2" = Raise e)
  /\ (exists e, nullable_kvs 4300 "image=16," = Raise e).
Proof.
  split.
  - apply (proj2 (nullable_kvs_Raise 4300 "image=16,image=2" eq_refl)).
    split; [discriminate |]. right.
    exists "image=16", "image=2", "image", 16, 2.
    split; [left; reflexivity |].
    split; [right; left; reflexivity |].
    split; [vm_compute; reflexivity |].
    split; [vm_compute; reflexivity | discriminate].
  - apply (proj2 (nullable_kvs_Raise 4300 "image=16," eq_refl)).
    split; [discriminate |]. left.
    exists "". eexists.
    split; [right; left; reflexivity | vm_compute; reflexivity].
Defined.

(** ** The keys of the dictionary *)

Lemma isspace_lower_ascii c : isspace (lower_ascii c) = isspace c.
Proof. destruct c as [[] [] [] [] [] [] [] []]; reflexivity. Qed.

Lemma lower_ascii_idempotent c : lower_ascii (lower_ascii c) = lower_ascii c.
Proof. destruct c as [[] [] [] [] [] [] [] []]; reflexivity. Qed.

Lemma lower_ascii_separator c (sep : ascii) :
  sep = "="%char \/ sep = ","%char -> lower_ascii c = sep -> c = sep.
Proof.
  intros [-> | ->]; destruct c as [[] [] [] [] [] [] [] []];
    cbv; intros H; try reflexivity; discriminate H.
Qed.

Lemma lower_idempotent s : lower (lower s) = lower s.
Proof.
  induction s as [| c r IH]; cbn; [reflexivity |].
  rewrite lower_ascii_idempotent, IH. reflexivity.
Qed.

Lemma lstrip_lower s : lstrip (lower s) = lower (lstrip s).
Proof.
  induction s as [| c r IH]; cbn; [reflexivity |].
  rewrite isspace_lower_ascii. destruct (isspace c); [exact IH | reflexivity].
Qed.

Lemma rstrip_lower s : rstrip (lower s) = lower (rstrip s).
Proof.
  induction s as [| c r IH]; cbn; [reflexivity |].
  rewrite IH, isspace_lower_ascii.
  destruct (rstrip r) as [| c' r']; cbn; [| reflexivity].
  destruct (isspace c); reflexivity.
Qed.

Lemma strip_lower s : strip (lower s) = lower (strip s).
Proof. unfold strip. rewrite lstrip_lower, rstrip_lower. reflexivity. Qed.

Lemma rstrip_idempotent s : rstrip (rstrip s) = rstrip s.
Proof.
  induction s as [| c r IH]; cbn; [reflexivity |].
  destruct (rstrip r) as [| c' r'] eqn:E.
  - destruct (isspace c) eqn:Hc; cbn; [reflexivity |]. rewrite Hc. reflexivity.
  - cbn [rstrip]. cbn [rstrip] in IH. rewrite IH. reflexivity.
Qed.

(** A string that does not begin with whitespace still does not once it is
    stripped on the right. *)
Lemma lstrip_rstrip s : lstrip s = s -> lstrip (rstrip s) = rstrip s.
Proof.
  destruct s as [| c r]; cbn; [reflexivity |].
  destruct (isspace c) eqn:Hc.
  - intros H. exfalso.
    assert (Hlen : forall t,
               (String.length (lstrip t) <= String.length t)%nat).
    { induction t as [| a t IHt]; cbn; [lia |].
      destruct (isspace a); cbn; lia. }
    specialize (Hlen r). rewrite H in Hlen. cbn in Hlen. lia.
  - intros _. destruct (rstrip r); cbn; rewrite Hc; reflexivity.
Qed.

Lemma lstrip_idempotent s : lstrip (lstrip s) = lstrip s.
Proof.
  induction s as [| c r IH]; cbn; [reflexivity |].
  destruct (isspace c) eqn:Hc; [exact IH |]. cbn. rewrite Hc. reflexivity.
Qed.

Lemma strip_idempotent s : strip (strip s) = strip s.
Proof.
  unfold strip.
  rewrite (lstrip_rstrip (lstrip s)) by apply lstrip_idempotent.
  apply rstrip_idempotent.
Qed.

(** The characters of a string. *)
Definition chars (s : string) : list ascii := list_ascii_of_string s.

Lemma chars_lstrip c s : In c (chars (lstrip s)) -> In c (chars s).
Proof.
  induction s as [| a r IH]; cbn; [tauto |].
  destruct (isspace a); cbn; intros H; [right; apply IH, H | exact H].
Qed.

Lemma chars_rstrip c s : In c (chars (rstrip s)) -> In c (chars s).
Proof.
  induction s as [| a r IH]; cbn; [tauto |].
  destruct (rstrip r) as [| a' r'].
  - destruct (isspace a); cbn; tauto.
  - cbn. cbn in IH. tauto.
Qed.

Lemma chars_lower (sep : ascii) s :
  sep = "="%char \/ sep = ","%char ->
  In sep (chars (lower s)) -> In sep (chars s).
Proof.
  intros Hsep. induction s as [| a r IH]; cbn; [tauto |].
  intros [H | H]; [left; exact (lower_ascii_separator _ _ Hsep H) |].
  right. apply IH, H.
Qed.

(** No field of [s.split(sep)] holds the separator, and a field holds no
    character that [s] does not. *)
Lemma split_fields sep s :
  forall field, In field (split sep s) ->
    ~ In sep (chars field) /\ (forall c, In c (chars field) -> In c (chars s)).
Proof.
  induction s as [| a r IH]; cbn [split].
  - intros field [<- | []]. cbn. tauto.
  - destruct (Ascii.eqb a sep) eqn:E.
    + intros field [<- | Hin].
      * cbn. tauto.
      * destruct (IH _ Hin) as [H1 H2]. split; [exact H1 |].
        intros c Hc. right. apply H2, Hc.
    + apply Ascii.eqb_neq in E.
      destruct (split sep r) as [| h t] eqn:Hs.
      * intros field [<- | []]. cbn. split; [| tauto].
        intros [H | []]. contradiction.
      * intros field [<- | Hin].
        -- destruct (IH h (or_introl eq_refl)) as [H1 H2]. cbn. split.
           ++ intros [H | H]; [contradiction | apply H1, H].
           ++ intros c [H | H]; [left; exact H | right; apply H2, H].
        -- destruct (IH field (or_intror Hin)) as [H1 H2].
           split; [exact H1 |]. intros c Hc. right. apply H2, Hc.
Qed.

(** The key of an item: lower-case, stripped, free of "=". *)
Lemma parse_item_key n item key value :
  parse_item n item = Return (key, value) ->
  lower key = key /\ strip key = key
  /\ ~ In "="%char (chars key)
  /\ (forall c, In c (chars key) -> In c (chars (lower item))).
Proof.
  unfold parse_item. cbv zeta.
  destruct (split "=" item) as [| p1 [| p2 [| p3 r]]] eqn:Hs;
    cbn [map]; try discriminate.
  destruct (int n (strip (lower p2))); [| discriminate].
  intros H. injection H as <- _.
  destruct (split_fields "=" item p1) as [H1 H2];
    [rewrite Hs; left; reflexivity |].
  split; [rewrite <- strip_lower, lower_idempotent; reflexivity |].
  split; [apply strip_idempotent |].
  split.
  - intros H. apply H1. apply (chars_lower "="); [left; reflexivity |].
    apply chars_lstrip, chars_rstrip. exact H.
  - intros c Hc. unfold strip in Hc.
    apply chars_rstrip, chars_lstrip in Hc.
    clear - Hc H2. revert Hc.
    assert (Hmap : forall s, chars (lower s) = map lower_ascii (chars s)).
    { induction s as [| a s IHs]; cbn; [reflexivity |].
      f_equal. exact IHs. }
    rewrite !Hmap, !in_map_iff. intros (a & <- & Ha).
    exists a. split; [reflexivity | apply H2, Ha].
Qed.

Lemma NoDup_dict_get (d : pydict) k x :
  NoDup (map fst d) -> In (k, x) d -> dict_get d k = Some x.
Proof.
  induction d as [| [k0 v0] r IH]; cbn; [tauto |].
  intros Hn. inversion Hn as [| a l Ha Hl]; subst.
  intros [H | H].
  - injection H as -> ->. rewrite String.eqb_refl. reflexivity.
  - destruct (String.eqb k0 k) eqn:E.
    + apply String.eqb_eq in E. subst k0. exfalso. apply Ha.
      apply in_map_iff. exists (k, x). split; [reflexivity | exact H].
    + apply IH; assumption.
Qed.

Lemma lower_ascii_is_ascii c :
  Nat.ltb (nat_of_ascii c) 128 = true ->
  Nat.ltb (nat_of_ascii (lower_ascii c)) 128 = true.
Proof.
  destruct c as [[] [] [] [] [] [] [] []]; intros H;
    try reflexivity; discriminate H.
Qed.

Lemma chars_lower_map s : chars (lower s) = map lower_ascii (chars s).
Proof.
  induction s as [| a s IH]; cbn; [reflexivity |]. f_equal. exact IH.
Qed.

(** X15.  Every entry of a dictionary that [nullable_kvs] returns for ASCII
    text has an integer value and a normalised key: ASCII, lower-case,
    without whitespace at either end, and holding neither "=" nor ",". *)
Theorem nullable_kvs_entries (max_str_digits : nat) (val : string)
    (out_dict : pydict) :
  is_ascii val = true ->
  nullable_kvs max_str_digits val = Return (Some out_dict) ->
  forall key x, In (key, x) out_dict ->
    (exists value, x = PyInt value)
    /\ is_ascii key = true
    /\ lower key = key /\ strip key = key
    /\ ~ In "="%char (chars key) /\ ~ In ","%char (chars key).
Proof.
  intros Hascii. unfold nullable_kvs.
  destruct (Nat.eqb (String.length val) 0); [discriminate |].
  destruct (nullable_kvs_items max_str_digits (split "," val) [])
    as [d | e] eqn:Hitems; [| discriminate].
  intros H. injection H as <-. intros key x Hin.
  apply nullable_kvs_items_Return in Hitems.
  destruct Hitems as (_ & _ & Hfrom & Hnd).
  assert (Hget : dict_get d key = Some x).
  { apply NoDup_dict_get; [apply Hnd; constructor | exact Hin]. }
  destruct (Hfrom _ _ Hget) as [Hacc | (item & value & Hitem & Hp & ->)];
    [discriminate Hacc |].
  split; [exists value; reflexivity |].
  destruct (parse_item_key _ _ _ _ Hp) as (K1 & K2 & K3 & K4).
  split.
  { unfold is_ascii. apply forallb_forall. intros c Hc.
    apply K4 in Hc. rewrite chars_lower_map in Hc.
    apply in_map_iff in Hc. destruct Hc as (a & <- & Ha).
    apply lower_ascii_is_ascii.
    unfold is_ascii in Hascii.
    apply (proj1 (forallb_forall _ _) Hascii).
    exact (proj2 (split_fields "," val item Hitem) a Ha). }
  split; [exact K1 |]. split; [exact K2 |]. split; [exact K3 |].
  intros Hc. apply K4 in Hc.
  apply (chars_lower ",") in Hc; [| right; reflexivity].
  destruct (split_fields "," val item Hitem) as [Hno _]. contradiction.
Qed.

Lemma nullable_kvs_entries_witness :
  nullable_kvs 4300 " Image = 1_6 ,video=-2,image=+16"
  = Return (Some [("image", PyInt 16); ("video", PyInt (-2))])
  /\ lower "image" = "image" /\ strip "image" = "image".
Proof.
  split; [vm_compute; reflexivity |].
  destruct (nullable_kvs_entries 4300 " Image = 1_6 ,video=-2,image=+16"
              [("image", PyInt 16); ("video", PyInt (-2))]
              eq_refl ltac:(vm_compute; reflexivity)
              "image" (PyInt 16) (or_introl eq_refl))
    as (_ & _ & H1 & H2 & _).
  split; [exact H1 | exact H2].
Defined.

(* ===================================================================== *)
(** * Tracing in a returned configuration *)
(* ===================================================================== *)

(** A returned configuration for which a rule for an unsupported feature
    applies runs on V0. *)
Lemma create_engine_config_unsupported w uc st cfg st1 :
  create_engine_config w uc st = (Return cfg, st1) ->
  any (unsupported_conditions w (VllmConfig.model_config cfg) (self st))
  = true ->
  VllmConfig.use_v1 cfg = false.
Proof.
  intros H Hany.
  apply create_engine_config_Return_runtime in H.
  destruct H as (l1 & s1 & H1 & Hv & Hm).
  apply choose_runtime_oracle_conditions in H1.
  destruct H1 as (sm & supported & so & Ho & Hc & Hu & _).
  rewrite Hm, <- Hu in Hany.
  rewrite Hv, Hc, (_is_v1_supported_oracle_answer _ _ _ _ _ Ho), Hany.
  reflexivity.
Qed.

Lemma assemble_observability w l5 st5 cfg st6 :
  assemble w l5 st5 = (Return cfg, st6) ->
  let modules := detailed_trace_modules_of (self st5) in
  first_invalid_module modules = None
  /\ ObservabilityConfig.collect_model_forward_time
       (VllmConfig.observability_config cfg)
     = (str_in "model" modules || str_in "all" modules)
  /\ ObservabilityConfig.collect_model_execute_time
       (VllmConfig.observability_config cfg)
     = (str_in "worker" modules || str_in "all" modules).
Proof.
  intros H. cbv zeta.
  pose proof (assemble_Return _ _ _ _ _ H) as Hc. cbv zeta in Hc.
  destruct Hc as (_ & _ & _ & _ & _ & _ & Hc).
  rewrite check_detailed_trace_modules_spec in Hc.
  split.
  { destruct (first_invalid_module (detailed_trace_modules_of (self st5)));
      [discriminate Hc | reflexivity]. }
  unfold assemble in H. cbv zeta in H.
  apply bind_Return_inv in H. destruct H as (s & sa & Hs & H).
  apply get_self_inv in Hs. destruct Hs as [Hs ->].
  injection Hs as Hs. subst s.
  apply bind_Return_inv in H. destruct H as ([] & sb & Hchk & H).
  pose proof (check_detailed_trace_modules_state _ _ _ _ Hchk). subst sb.
  follow. cbn. split; reflexivity.
Qed.

Lemma first_invalid_module_None modules :
  first_invalid_module modules = None ->
  Forall (fun m => m = "model" \/ m = "worker" \/ m = "all") modules.
Proof.
  unfold first_invalid_module.
  induction modules as [| m rest IH]; cbn [find]; [constructor |].
  destruct (str_in m ALLOWED_DETAILED_TRACE_MODULES) eqn:E; cbn [negb];
    [| discriminate].
  intros H. constructor; [| apply IH, H].
  unfold str_in, ALLOWED_DETAILED_TRACE_MODULES in E. cbn [existsb] in E.
  repeat (apply orb_true_iff in E; destruct E as [E | E]);
    try discriminate E; apply String.eqb_eq in E; tauto.
Qed.

Lemma split_not_nil sep s : split sep s <> [].
Proof.
  destruct s as [| c r]; cbn; [discriminate |].
  destruct (Ascii.eqb c sep); [discriminate |].
  destruct (split sep r); discriminate.
Qed.

(** X16.  Tracing in a returned configuration.  Every requested module is
    "model", "worker" or "all"; model forward time is collected exactly
    when "model" or "all" is requested and model execute time exactly when
    "worker" or "all" is.  If [collect_detailed_traces] is given (not
    [None]) it is not the empty string, at least one of the two times is
    collected, and the configuration runs on V0; if it is not given,
    neither time is collected. *)
Theorem tracing_configuration (w : World) (uc : option UsageContext)
    (st : state) (cfg : VllmConfig.t) (st1 : state) :
  create_engine_config w uc st = (Return cfg, st1) ->
  let modules := detailed_trace_modules_of (self st) in
  let forward :=
    ObservabilityConfig.collect_model_forward_time
      (VllmConfig.observability_config cfg) in
  let execute :=
    ObservabilityConfig.collect_model_execute_time
      (VllmConfig.observability_config cfg) in
  Forall (fun m => m = "model" \/ m = "worker" \/ m = "all") modules
  /\ forward = (str_in "model" modules || str_in "all" modules)
  /\ execute = (str_in "worker" modules || str_in "all" modules)
  /\ (collect_detailed_traces (self st) <> None ->
      collect_detailed_traces (self st) <> Some ""
      /\ forward || execute = true
      /\ VllmConfig.use_v1 cfg = false)
  /\ (collect_detailed_traces (self st) = None ->
      forward = false /\ execute = false).
Proof.
  intros H. cbv zeta.
  pose proof H as H0.
  unfold create_engine_config in H.
  apply bind_Return_inv in H. destruct H as (l5 & st5 & Hup & Hasm).
  assert (Hkeep : detailed_trace_modules_of (self st5)
                  = detailed_trace_modules_of (self st)).
  { refine (engine_upto_decoding_keeps detailed_trace_modules_of
              _ _ _ _ _ _ _ _ _ w uc st _ _ Hup); reflexivity. }
  apply assemble_observability in Hasm. cbv zeta in Hasm.
  rewrite Hkeep in Hasm. destruct Hasm as (Hnone & Hf & He).
  apply first_invalid_module_None in Hnone.
  split; [exact Hnone |]. split; [exact Hf |]. split; [exact He |].
  rewrite Hf, He. unfold detailed_trace_modules_of in *.
  destruct (collect_detailed_traces (self st)) as [traces |] eqn:Ht.
  - split; [| intros Hn; discriminate Hn]. intros _.
    assert (Hne : traces <> "").
    { intros ->. cbn in Hnone. inversion Hnone as [| m l Hm _]; subst.
      destruct Hm as [Hm | [Hm | Hm]]; discriminate Hm. }
    split; [congruence |]. split.
    + destruct (split "," traces) as [| m rest] eqn:Hs;
        [exfalso; exact (split_not_nil _ _ Hs) |].
      inversion Hnone as [| m' l Hm _]; subst.
      destruct Hm as [-> | [-> | ->]]; cbn; rewrite ?orb_true_r; reflexivity.
    + apply (create_engine_config_unsupported _ _ _ _ _ H0).
      unfold any, unsupported_conditions. apply existsb_exists.
      exists (truthy_str (otlp_traces_endpoint (self st))
              || truthy_str (collect_detailed_traces (self st))).
      split; [cbn; tauto |].
      rewrite Ht. cbn [truthy_str].
      apply String.eqb_neq in Hne. rewrite Hne. apply orb_true_r.
  - split; [intros Hn; contradiction |]. intros _. split; reflexivity.
Qed.

(** X16 on an H100 with [collect_detailed_traces="model,all"]. *)
Lemma tracing_configuration_witness :
  exists cfg st1,
    create_engine_config gpu_world None (fresh gpu_world valid_traces_args)
    = (Return cfg, st1)
    /\ ObservabilityConfig.collect_model_forward_time
         (VllmConfig.observability_config cfg) = true
    /\ VllmConfig.use_v1 cfg = false.
Proof.
  eexists. eexists. split; [vm_compute; reflexivity |].
  pose proof (tracing_configuration gpu_world None
                (fresh gpu_world valid_traces_args) _ _
                ltac:(vm_compute; reflexivity)) as H.
  cbv zeta in H. destruct H as (_ & Hf & _ & Hset & _).
  split; [rewrite Hf; vm_compute; reflexivity |].
  apply Hset. vm_compute. discriminate.
Defined.

(* ===================================================================== *)
(** * What a resolution may assign *)
(* ===================================================================== *)

(** X17.  Whether it returns or raises, [create_engine_config] assigns at
    most nine attributes of the object: [model], [load_format],
    [quantization], [enable_chunked_prefill], [enable_prefix_caching],
    [max_num_seqs], [max_num_batched_tokens], [num_scheduler_steps] and
    [model_loader_extra_config].  Whatever can be read from the arguments
    without these is the same afterwards, and the object is of the same
    class. *)
Theorem resolution_assigns_only (w : World) (uc : option UsageContext)
    (st : state) (B : Type) (f : EngineArgs -> B) :
  (forall v s, f (set_model v s) = f s) ->
  (forall v s, f (set_load_format v s) = f s) ->
  (forall v s, f (set_quantization v s) = f s) ->
  (forall v s, f (set_enable_chunked_prefill v s) = f s) ->
  (forall v s, f (set_enable_prefix_caching v s) = f s) ->
  (forall v s, f (set_max_num_seqs v s) = f s) ->
  (forall v s, f (set_max_num_batched_tokens v s) = f s) ->
  (forall v s, f (set_num_scheduler_steps v s) = f s) ->
  (forall v s, f (set_model_loader_extra_config v s) = f s) ->
  f (self (snd (create_engine_config w uc st))) = f (self st)
  /\ is_AsyncEngineArgs (snd (create_engine_config w uc st))
     = is_AsyncEngineArgs st.
Proof.
  intros F1 F2 F3 F4 F5 F6 F7 F8 F9.
  destruct (create_engine_config w uc st) as [r st1] eqn:H. cbn [snd].
  split.
  - exact (create_engine_config_keeps f F1 F2 F3 F4 F5 F6 F7 F8 F9
             w uc st r st1 H).
  - destruct st as [s a ev].
    destruct (create_engine_config_uniform w uc s a) as (r' & s1 & d & Hu).
    change (create_engine_config w uc (mk_state s a ev) = (r, st1)) in H.
    rewrite (Hu ev) in H. injection H as _ <-. reflexivity.
Qed.

(** X17 for a resolution that returns and one that raises: the tokenizer
    and the scheduling policy are as the caller gave them. *)
Lemma resolution_assigns_only_witness :
  (tokenizer (self (snd (create_engine_config gpu_world None
                           (fresh gpu_world priority_args))))
   = tokenizer (self (fresh gpu_world priority_args)))
  /\ (scheduling_policy
        (self (snd (create_engine_config forced_v1_world None
                      (fresh forced_v1_world priority_args))))
      = scheduling_policy (self (fresh forced_v1_world priority_args))).
Proof.
  split.
  - exact (proj1 (resolution_assigns_only gpu_world None
                    (fresh gpu_world priority_args) _ tokenizer
                    (fun _ _ => eq_refl) (fun _ _ => eq_refl)
                    (fun _ _ => eq_refl) (fun _ _ => eq_refl)
                    (fun _ _ => eq_refl) (fun _ _ => eq_refl)
                    (fun _ _ => eq_refl) (fun _ _ => eq_refl)
                    (fun _ _ => eq_refl))).
  - exact (proj1 (resolution_assigns_only forced_v1_world None
                    (fresh forced_v1_world priority_args) _ scheduling_policy
                    (fun _ _ => eq_refl) (fun _ _ => eq_refl)
                    (fun _ _ => eq_refl) (fun _ _ => eq_refl)
                    (fun _ _ => eq_refl) (fun _ _ => eq_refl)
                    (fun _ _ => eq_refl) (fun _ _ => eq_refl)
                    (fun _ _ => eq_refl))).
Defined.

(* ===================================================================== *)
(** * The bitsandbytes check in a resolution *)
(* ===================================================================== *)

(** What the check at lines 1137-1149 reads when [create_engine_config]
    comes to it: the caller's quantization and load format, unless
    [create_model_config] has replaced them, for a GGUF file or for a model
    redirected to the S3 bucket (lines 1085-1093). *)
Definition checked_quantization (w : World) (s : EngineArgs)
  : option string :=
  if check_gguf_file w (model s) then Some "gguf" else quantization s.

Definition checked_load_format (w : World) (async : bool) (s : EngineArgs)
  : string :=
  if loads_from_S3 w async s then LoadFormat_RUNAI_STREAMER w
  else load_format_for_file w s.

(** Lines 1308-1313: [model_loader_extra_config] once a non-empty QLoRA
    adapter path has been recorded in it. *)
Definition recorded_extra_config (s : EngineArgs) : option pydict :=
  match qlora_adapter_name_or_path s with
  | Some path =>
      if negb (String.eqb path "") then
        Some (dict_setitem (default_to [] (model_loader_extra_config s))
                "qlora_adapter_name_or_path" (PyStr path))
      else model_loader_extra_config s
  | None => model_loader_extra_config s
  end.

(** The [LoRAConfig] asked for at lines 1297-1306, and the [LoadConfig]
    asked for at lines 1151-1156 when the check has passed. *)
Definition requested_lora_config (s : EngineArgs) : LoRAConfig.t :=
  LoRAConfig.__post_init__
    {| LoRAConfig.bias_enabled := enable_lora_bias s;
       LoRAConfig.max_lora_rank := max_lora_rank s;
       LoRAConfig.max_loras := max_loras s;
       LoRAConfig.fully_sharded_loras := fully_sharded_loras s;
       LoRAConfig.lora_extra_vocab_size := lora_extra_vocab_size s;
       LoRAConfig.long_lora_scaling_factors := long_lora_scaling_factors s;
       LoRAConfig.lora_dtype := lora_dtype s;
       LoRAConfig.max_cpu_loras := max_cpu_loras_argument s |}.

Definition checked_load_config (w : World) (async : bool) (s : EngineArgs)
  : LoadConfig.t :=
  {| LoadConfig.load_format := checked_load_format w async s;
     LoadConfig.download_dir := download_dir s;
     LoadConfig.model_loader_extra_config := recorded_extra_config s;
     LoadConfig.ignore_patterns := ignore_patterns s |}.

Lemma engine_upto_scheduler_Return_inv w uc st l3 st3 :
  engine_upto_scheduler w uc st = (Return l3, st3) ->
  exists l1 st1 l2 st2,
    choose_runtime w uc st = (Return l1, st1)
    /\ build_speculative w l1 st1 = (Return l2, st2)
    /\ build_scheduler w l2 st2 = (Return l3, st3).
Proof.
  unfold engine_upto_scheduler, engine_upto_speculative, engine_upto_runtime.
  intros H.
  apply bind_Return_inv in H. destruct H as (l2 & st2 & H & H3).
  apply bind_Return_inv in H. destruct H as (l1 & st1 & H1 & H2).
  exists l1, st1, l2, st2. auto.
Qed.

(** When resolution has built the scheduler configuration, quantization
    and load format are those [create_model_config] left, and the
    constructor calls so far are recorded. *)
Lemma engine_upto_scheduler_Return w uc st l3 st3 :
  engine_upto_scheduler w uc st = (Return l3, st3) ->
  quantization (self st3) = checked_quantization w (self st)
  /\ load_format (self st3)
     = checked_load_format w (is_AsyncEngineArgs st) (self st)
  /\ constructed (events st3)
     = (constructed (events st)
        ++ ["DeviceConfig"; "ModelConfig"; "CacheConfig"; "ParallelConfig"]
        ++ (if is_not_None (speculative_config (in_speculative l3))
            then ["SpeculativeConfig"] else [])
        ++ ["SchedulerConfig"])%list.
Proof.
  intros H. apply engine_upto_scheduler_Return_inv in H.
  destruct H as (l1 & s1 & l2 & s2 & H1 & H2 & H3).
  pose proof (choose_runtime_constructed _ _ _ _ _ H1) as C1.
  pose proof (build_speculative_constructed _ _ _ _ _ H2) as C2.
  pose proof (build_scheduler_constructed _ _ _ _ _ H3) as C3.
  pose proof (choose_runtime_Return_inv _ _ _ _ _ H1)
    as (sd & sm & supported & so & su & (Hd & Ha & _) & Hm & Ho & _ & Hsu
        & _ & Hdef).
  pose proof (build_speculative_Return _ _ _ _ _ H2) as [_ Hs2].
  pose proof (build_scheduler_Return _ _ _ _ _ H3) as (Hl3 & _ & Hs3 & _).
  pose proof (create_model_config_assigns _ _ _ _ Hm) as (_ & Al & Aq).
  rewrite Hd, Ha in Al. rewrite Hd in Aq.
  assert (Hfrom_sm : forall (B : Type) (f : EngineArgs -> B),
             (forall v s, f (set_enable_chunked_prefill v s) = f s) ->
             (forall v s, f (set_enable_prefix_caching v s) = f s) ->
             (forall v s, f (set_max_num_seqs v s) = f s) ->
             (forall v s, f (set_max_num_batched_tokens v s) = f s) ->
             (forall v s, f (set_num_scheduler_steps v s) = f s) ->
             f (self st3) = f (self sm)).
  { intros B f F1 F2 F3 F4 F5.
    transitivity (f (self s1)).
    - rewrite Hs3, Hs2.
      destruct ((1 <? num_scheduler_steps (self s1))
                && is_cpu (current_platform w)); [apply F5 | reflexivity].
    - rewrite <- (_is_v1_supported_oracle_pure _ _ _ _ _ Ho), <- Hsu.
      destruct (use_v1 l1).
      + refine ((_ : keeps f _) _ _ _ Hdef).
        unfold _set_default_args_v1. frame_go.
      + refine ((_ : keeps f _) _ _ _ Hdef).
        unfold _set_default_args_v0. frame_go. }
  split; [rewrite (Hfrom_sm _ quantization) by reflexivity; exact Aq |].
  split; [rewrite (Hfrom_sm _ load_format) by reflexivity; exact Al |].
  rewrite C3, C2, C1, Hl3, <- !app_assoc. reflexivity.
Qed.

(** [build_load] up to its call of [create_load_config], when the
    [LoRAConfig] constructor accepts its arguments: the QLoRA adapter path
    has been recorded and nothing else assigned. *)
Lemma build_load_at_check w l3 st3 :
  (enable_lora (self st3) = true ->
   LoRAConfig_init w (requested_lora_config (self st3)) = None) ->
  exists sq,
    build_load w l3 st3
    = bind (create_load_config w)
        (fun load_config =>
           ret {| in_scheduler := l3;
                  lora_config :=
                    if enable_lora (self st3)
                    then Some (requested_lora_config (self st3)) else None;
                  load_config := load_config |}) sq
    /\ self sq
       = set_model_loader_extra_config (recorded_extra_config (self st3))
           (self st3)
    /\ is_AsyncEngineArgs sq = is_AsyncEngineArgs st3
    /\ constructed (events sq)
       = (constructed (events st3)
          ++ (if enable_lora (self st3) then ["LoRAConfig"] else []))%list.
Proof.
  intros Hlora. unfold build_load, recorded_extra_config.
  destruct st3 as [s a ev]. cbn [self is_AsyncEngineArgs events] in *.
  assert (Heta : s = set_model_loader_extra_config
                       (model_loader_extra_config s) s)
    by (destruct s; reflexivity).
  unfold requested_lora_config in Hlora.
  unfold construct. unfold bind, get_self, emit, assign, ret.
  cbn [self is_AsyncEngineArgs events].
  destruct (enable_lora s) eqn:El; [rewrite (Hlora eq_refl) |];
    (destruct (qlora_adapter_name_or_path s) as [path |];
     [destruct (negb (path =? "")%string);
      [destruct (model_loader_extra_config s) as [d |] eqn:Hd |] |]);
    repeat (cbv beta iota;
            cbn [self is_AsyncEngineArgs events is_None default_to
                   model_loader_extra_config set_model_loader_extra_config];
            rewrite ?Hd);
    eexists; (split; [reflexivity |]);
    cbn [self is_AsyncEngineArgs events];
    rewrite ?constructed_app, ?app_nil_r; cbn [constructed];
    (split; [first [reflexivity | exact Heta] | split; reflexivity]).
Qed.

(** A resolution that has built the scheduler configuration comes to the
    check, provided the [LoRAConfig] constructor accepts its arguments.
    By then the QLoRA adapter path is recorded. *)
Lemma resolution_at_load_check w uc st l3 st3 :
  engine_upto_scheduler w uc st = (Return l3, st3) ->
  (enable_lora (self st) = true ->
   LoRAConfig_init w (requested_lora_config (self st)) = None) ->
  exists lora sq,
    engine_upto_load w uc st
    = bind (create_load_config w)
        (fun load_config =>
           ret {| in_scheduler := l3;
                  lora_config := lora;
                  load_config := load_config |}) sq
    /\ quantization (self sq) = checked_quantization w (self st)
    /\ load_format (self sq)
       = checked_load_format w (is_AsyncEngineArgs st) (self st)
    /\ qlora_adapter_name_or_path (self sq)
       = qlora_adapter_name_or_path (self st)
    /\ requested_load_config (self sq)
       = checked_load_config w (is_AsyncEngineArgs st) (self st)
    /\ constructed (events sq)
       = (constructed (events st)
          ++ ["DeviceConfig"; "ModelConfig"; "CacheConfig"; "ParallelConfig"]
          ++ (if is_not_None (speculative_config (in_speculative l3))
              then ["SpeculativeConfig"] else [])
          ++ ["SchedulerConfig"]
          ++ (if enable_lora (self st) then ["LoRAConfig"] else []))%list.
Proof.
  intros H Hlora.
  assert (Hk : forall (B : Type) (f : EngineArgs -> B),
             (forall v s, f (set_model v s) = f s) ->
             (forall v s, f (set_load_format v s) = f s) ->
             (forall v s, f (set_quantization v s) = f s) ->
             (forall v s, f (set_enable_chunked_prefill v s) = f s) ->
             (forall v s, f (set_enable_prefix_caching v s) = f s) ->
             (forall v s, f (set_max_num_seqs v s) = f s) ->
             (forall v s, f (set_max_num_batched_tokens v s) = f s) ->
             (forall v s, f (set_num_scheduler_steps v s) = f s) ->
             f (self st3) = f (self st)).
  { intros B f F1 F2 F3 F4 F5 F6 F7 F8.
    exact (engine_upto_scheduler_keeps f F1 F2 F3 F4 F5 F6 F7 F8
             w uc st _ _ H). }
  destruct (engine_upto_scheduler_Return _ _ _ _ _ H) as (Hq & Hl & Hc).
  destruct (build_load_at_check w l3 st3) as (sq & Hb & Hs & _ & Hcq).
  { rewrite (Hk _ enable_lora), (Hk _ requested_lora_config)
      by reflexivity.
    exact Hlora. }
  eexists. exists sq.
  split.
  { unfold engine_upto_load. rewrite (bind_Return _ _ _ _ _ H). exact Hb. }
  rewrite Hs.
  split; [exact Hq |]. split; [exact Hl |].
  split; [apply (Hk _ qlora_adapter_name_or_path); reflexivity |].
  split.
  - unfold requested_load_config, checked_load_config. f_equal.
    + exact Hl.
    + apply (Hk _ download_dir); reflexivity.
    + apply (Hk _ recorded_extra_config); reflexivity.
    + apply (Hk _ ignore_patterns); reflexivity.
  - rewrite Hcq, Hc, (Hk _ enable_lora) by reflexivity.
    rewrite <- !app_assoc. reflexivity.
Qed.

(** How a resolution stops at the check: it never returns a configuration;
    once the scheduler configuration is built and the [LoRAConfig]
    constructor has accepted its arguments, it ends with a [ValueError]
    whose message is as [expected].  By then the constructor calls up to
    the scheduler (and LoRA) configuration have been made, no [LoadConfig]
    has been constructed, and a non-empty QLoRA adapter path is already
    recorded in the object's [model_loader_extra_config]. *)
Definition stops_at_load_check (w : World) (uc : option UsageContext)
    (st : state) (expected : string -> Prop) : Prop :=
  (forall cfg st1, create_engine_config w uc st <> (Return cfg, st1))
  /\ (forall l3 st3,
        engine_upto_scheduler w uc st = (Return l3, st3) ->
        (enable_lora (self st) = true ->
         LoRAConfig_init w (requested_lora_config (self st)) = None) ->
        exists msg st4,
          create_engine_config w uc st = (Raise (ValueError msg), st4)
          /\ expected msg
          /\ constructed (events st4)
             = (constructed (events st)
                ++ ["DeviceConfig"; "ModelConfig"; "CacheConfig";
                    "ParallelConfig"]
                ++ (if is_not_None (speculative_config (in_speculative l3))
                    then ["SpeculativeConfig"] else [])
                ++ ["SchedulerConfig"]
                ++ (if enable_lora (self st) then ["LoRAConfig"] else []))%list
          /\ model_loader_extra_config (self st4)
             = recorded_extra_config (self st)).

(** What the check lets through is never in conflict. *)
Lemma create_engine_config_Return_checked w uc st cfg st1 :
  create_engine_config w uc st = (Return cfg, st1) ->
  (checked_quantization w (self st) = Some "bitsandbytes"
   <-> checked_load_format w (is_AsyncEngineArgs st) (self st)
       = "bitsandbytes")
  /\ (qlora_adapter_name_or_path (self st) <> None ->
      checked_load_format w (is_AsyncEngineArgs st) (self st)
      = "bitsandbytes").
Proof.
  intros H. apply create_engine_config_Return_load in H.
  destruct H as (sd & sm & sq & st4 & (Hd & Ha & _) & Hm & Hq & Eq & El & Eql
                 & _).
  pose proof (create_model_config_assigns _ _ _ _ Hm) as (_ & Al & Aq).
  rewrite Hd, Ha in Al. rewrite Hd in Aq.
  pose proof (create_load_config_Return _ _ _ _ Hq) as (_ & _ & Lb & Lql).
  rewrite Eq, El, Aq, Al in Lb. rewrite Eql, El, Al in Lql.
  split; assumption.
Qed.

Lemma create_engine_config_Raise_load w uc st (e : exn) st4 :
  engine_upto_load w uc st = (Raise e, st4) ->
  create_engine_config w uc st = (Raise e, st4).
Proof.
  intros H. unfold create_engine_config, engine_upto_decoding.
  do 2 apply bind_Raise. exact H.
Qed.

Lemma stops_at_load_check_intro w uc st (expected : string -> Prop) :
  ~ ((checked_quantization w (self st) = Some "bitsandbytes"
      <-> checked_load_format w (is_AsyncEngineArgs st) (self st)
          = "bitsandbytes")
     /\ (qlora_adapter_name_or_path (self st) <> None ->
         checked_load_format w (is_AsyncEngineArgs st) (self st)
         = "bitsandbytes")) ->
  (forall sq,
     quantization (self sq) = checked_quantization w (self st) ->
     load_format (self sq)
     = checked_load_format w (is_AsyncEngineArgs st) (self st) ->
     qlora_adapter_name_or_path (self sq)
     = qlora_adapter_name_or_path (self st) ->
     exists msg,
       create_load_config w sq = (Raise (ValueError msg), sq)
       /\ expected msg) ->
  stops_at_load_check w uc st expected.
Proof.
  intros Hconflict Hraise. split.
  - intros cfg st1 H. apply Hconflict.
    exact (create_engine_config_Return_checked _ _ _ _ _ H).
  - intros l3 st3 H Hlora.
    destruct (resolution_at_load_check _ _ _ _ _ H Hlora)
      as (lora & sq & He & Hq & Hl & Hql & Hreq & Hc).
    destruct (Hraise sq Hq Hl Hql) as (msg & Hr & Hex).
    exists msg, sq.
    split.
    { apply create_engine_config_Raise_load. rewrite He.
      apply bind_Raise. exact Hr. }
    split; [exact Hex |]. split; [exact Hc |].
    exact (f_equal LoadConfig.model_loader_extra_config Hreq).
Qed.




(* ===================================================================== *)
(** * Resolving the same object again *)
(* ===================================================================== *)

(** [create_engine_config] assigns to the object it is called on, so a
    second call on the same object starts from other attributes than the
    first.  This section shows that it ends with the same configuration,
    and assigns nothing further. *)

(** [m], called on an object with attributes [S], returns [r] and leaves the
    attributes as they are. *)
Definition stable (S : EngineArgs) (a : bool) {A : Type} (m : M A) (r : A)
  : Prop :=
  forall ev, exists ev', m (mk_state S a ev) = (Return r, mk_state S a ev').

(** [st] with [g] applied to the attributes. *)
Definition map_self (g : EngineArgs -> EngineArgs) (st : state) : state :=
  {| self := g (self st);
     is_AsyncEngineArgs := is_AsyncEngineArgs st;
     events := events st |}.

(** [m] reads nothing that [g] changes: it does the same on [g s] as on [s],
    and [g] can as well be applied afterwards. *)
Definition insensitive (g : EngineArgs -> EngineArgs) {A : Type} (m : M A)
  : Prop :=
  forall st, m (map_self g st) = (fst (m st), map_self g (snd (m st))).

Section Stable.
Context (S : EngineArgs) (a : bool).

Lemma stable_ret {A : Type} (x : A) : stable S a (ret x) x.
Proof. intros ev. exists ev. reflexivity. Qed.

Lemma stable_get_self : stable S a get_self S.
Proof. intros ev. exists ev. reflexivity. Qed.

Lemma stable_isinstance : stable S a isinstance_AsyncEngineArgs a.
Proof. intros ev. exists ev. reflexivity. Qed.

Lemma stable_lift {A : Type} (o : outcome A) (x : A) :
  o = Return x -> stable S a (lift o) x.
Proof. intros -> ev. exists ev. reflexivity. Qed.

Lemma stable_emit e : stable S a (emit e) tt.
Proof. intros ev. eexists. reflexivity. Qed.

Lemma stable_assign g : g S = S -> stable S a (assign g) tt.
Proof.
  intros Hg ev. exists ev. unfold assign, mk_state.
  cbn [self is_AsyncEngineArgs events]. rewrite Hg. reflexivity.
Qed.

Lemma stable_bind {A B : Type} (m : M A) (k : A -> M B) x y :
  stable S a m x -> stable S a (k x) y -> stable S a (bind m k) y.
Proof.
  intros Hm Hk ev. destruct (Hm ev) as [ev1 H1].
  destruct (Hk ev1) as [ev2 H2]. exists ev2.
  unfold bind. rewrite H1. exact H2.
Qed.

Lemma stable_construct {A : Type} cls (validate : A -> option exn) v :
  validate v = None -> stable S a (construct cls validate v) v.
Proof.
  intros Hv. unfold construct. rewrite Hv.
  eapply stable_bind; [apply stable_emit | apply stable_ret].
Qed.

End Stable.

(** A method that is uniform in the log and has returned once, leaving the
    attributes alone, is stable on those attributes. *)
Lemma stable_run {A : Type} (m : M A) st r st1 :
  uniform m ->
  m st = (Return r, st1) ->
  self st1 = self st ->
  stable (self st) (is_AsyncEngineArgs st) m r.
Proof.
  intros Hu H Hs ev. destruct st as [s a ev0].
  destruct (Hu s a) as (r0 & s1 & d & Hrun).
  change (m (mk_state s a ev0) = (Return r, st1)) in H.
  rewrite Hrun in H. injection H as -> <-.
  cbn [self mk_state] in Hs. subst s1.
  exists (ev ++ d)%list. apply Hrun.
Qed.

Lemma stable_insensitive {A : Type} g (m : M A) S a r :
  insensitive g m -> stable S a m r -> stable (g S) a m r.
Proof.
  intros Hi Hs ev. destruct (Hs ev) as [ev' H].
  exists ev'.
  change (mk_state (g S) a ev) with (map_self g (mk_state S a ev)).
  rewrite Hi, H. reflexivity.
Qed.

(** ** What a method does not read *)

Section Insensitive.
Context (g : EngineArgs -> EngineArgs).

Lemma insensitive_ret {A : Type} (x : A) : insensitive g (ret x).
Proof. intros st. reflexivity. Qed.

Lemma insensitive_raise {A : Type} (e : exn) : insensitive g (@raise A e).
Proof. intros st. reflexivity. Qed.

Lemma insensitive_lift {A : Type} (o : outcome A) : insensitive g (lift o).
Proof. intros st. reflexivity. Qed.

Lemma insensitive_isinstance : insensitive g isinstance_AsyncEngineArgs.
Proof. intros st. reflexivity. Qed.

Lemma insensitive_emit e : insensitive g (emit e).
Proof. intros st. reflexivity. Qed.

Lemma insensitive_assign h :
  (forall s, h (g s) = g (h s)) -> insensitive g (assign h).
Proof.
  intros Hc st. unfold assign, map_self.
  cbn [self is_AsyncEngineArgs events fst snd]. rewrite Hc. reflexivity.
Qed.

Lemma insensitive_bind {A B : Type} (m : M A) (k : A -> M B) :
  insensitive g m -> (forall x, insensitive g (k x)) ->
  insensitive g (bind m k).
Proof.
  intros Hm Hk st. unfold bind. rewrite Hm.
  destruct (m st) as [[x | e] st1]; cbn [fst snd]; [apply Hk | reflexivity].
Qed.

(** What is read from the object is read from attributes that [g] leaves
    alone. *)
Lemma insensitive_get_self {B : Type} (k : EngineArgs -> M B) :
  (forall s, k (g s) = k s) -> (forall s, insensitive g (k s)) ->
  insensitive g (bind get_self k).
Proof.
  intros Hr Hk st. unfold bind, get_self.
  cbn [self map_self]. rewrite Hr. apply Hk.
Qed.

Lemma insensitive_construct {A : Type} cls (validate : A -> option exn) v :
  insensitive g (construct cls validate v).
Proof.
  unfold construct. destruct (validate v).
  - apply insensitive_raise.
  - apply insensitive_bind; [apply insensitive_emit |].
    intros x. apply insensitive_ret.
Qed.

End Insensitive.

Ltac insensitive_step :=
  match goal with
  | |- insensitive _ (bind get_self _) =>
      apply insensitive_get_self; [intro; reflexivity | intro]
  | |- insensitive _ (bind _ _) => apply insensitive_bind; [| intro]
  | |- insensitive _ (ret _) => apply insensitive_ret
  | |- insensitive _ (raise _) => apply insensitive_raise
  | |- insensitive _ (lift _) => apply insensitive_lift
  | |- insensitive _ isinstance_AsyncEngineArgs => apply insensitive_isinstance
  | |- insensitive _ (construct _ _ _) => apply insensitive_construct
  | |- insensitive _ (emit _) => apply insensitive_emit
  | |- insensitive _ (logger_warning _) => apply insensitive_emit
  | |- insensitive _ (logger_info _) => apply insensitive_emit
  | |- insensitive _ (logger_debug _) => apply insensitive_emit
  | |- insensitive _ (assign _) =>
      apply insensitive_assign; intro; reflexivity
  | |- insensitive _ (if ?c then _ else _) => destruct c
  | |- insensitive _ (match ?x with _ => _ end) => destruct x
  | |- insensitive _ (let _ := _ in _) => cbv zeta
  end.

Ltac insensitive_go := repeat insensitive_step.

(** The attributes a resolution assigns after the defaults of the engine
    are set, after the model configuration is built, and in building the
    load configuration: taken from [T]. *)
Definition after_runtime (T s : EngineArgs) : EngineArgs :=
  set_model_loader_extra_config (model_loader_extra_config T)
    (set_num_scheduler_steps (num_scheduler_steps T) s).

Definition after_load_check (T s : EngineArgs) : EngineArgs :=
  set_model_loader_extra_config (model_loader_extra_config T) s.

Lemma build_speculative_insensitive w l T :
  insensitive (after_runtime T) (build_speculative w l).
Proof. unfold build_speculative. cbv zeta. insensitive_go. Qed.

Lemma build_decoding_insensitive w l T :
  insensitive (after_runtime T) (build_decoding w l).
Proof. unfold build_decoding. cbv zeta. insensitive_go. Qed.

(** ** Assigning to an attribute the value it has *)

Lemma set_quantization_same s v :
  quantization s = v -> set_quantization v s = s.
Proof. intros <-. destruct s. reflexivity. Qed.

Lemma set_load_format_same s v :
  load_format s = v -> set_load_format v s = s.
Proof. intros <-. destruct s. reflexivity. Qed.

Lemma set_enable_chunked_prefill_same s v :
  enable_chunked_prefill s = v -> set_enable_chunked_prefill v s = s.
Proof. intros <-. destruct s. reflexivity. Qed.

Lemma set_enable_prefix_caching_same s v :
  enable_prefix_caching s = v -> set_enable_prefix_caching v s = s.
Proof. intros <-. destruct s. reflexivity. Qed.

Lemma set_max_num_seqs_same s v :
  max_num_seqs s = v -> set_max_num_seqs v s = s.
Proof. intros <-. destruct s. reflexivity. Qed.

Lemma set_max_num_batched_tokens_same s v :
  max_num_batched_tokens s = v -> set_max_num_batched_tokens v s = s.
Proof. intros <-. destruct s. reflexivity. Qed.

Lemma set_num_scheduler_steps_same s v :
  num_scheduler_steps s = v -> set_num_scheduler_steps v s = s.
Proof. intros <-. destruct s. reflexivity. Qed.

Lemma set_model_loader_extra_config_same s v :
  model_loader_extra_config s = v -> set_model_loader_extra_config v s = s.
Proof. intros <-. destruct s. reflexivity. Qed.

(** ** The model configuration, again *)

(** Unless it redirects the model to S3, [create_model_config] called again
    on the object it has left builds the same [ModelConfig] and assigns
    nothing new: a GGUF file gives the quantization and load format it has
    given already. *)
Lemma create_model_config_again w st mc st1 :
  create_model_config w st = (Return mc, st1) ->
  loads_from_S3 w (is_AsyncEngineArgs st) (self st) = false ->
  stable (self st1) (is_AsyncEngineArgs st) (create_model_config w) mc.
Proof.
  intros H HS3.
  pose proof (create_model_config_assigns _ _ _ _ H) as (Am & Al & Aq).
  rewrite HS3 in Am, Al.
  unfold create_model_config in H.
  apply bind_Return_inv in H. destruct H as (s & sa & Hs & H).
  apply get_self_inv in Hs. destruct Hs as [Hs ->].
  injection Hs as Hs. subst s.
  apply bind_Return_inv in H. destruct H as (u1 & sb & Hgguf & H).
  apply bind_Return_inv in H. destruct H as (s & sa & Hs & H).
  apply get_self_inv in Hs. destruct Hs as [Hs ->].
  injection Hs as Hs. subst s.
  apply bind_Return_inv in H. destruct H as (async & sa & Ha & H).
  assert (sa = sb /\ async = is_AsyncEngineArgs sb) as [-> ->]
    by (inversion Ha; split; reflexivity).
  apply bind_Return_inv in H. destruct H as (u2 & sc & Hs3 & H).
  assert (Hrest : self st1 = self sc).
  { refine ((_ : pure _) _ _ _ H). frame_go. }
  assert (Hasync : is_AsyncEngineArgs sc = is_AsyncEngineArgs st).
  { transitivity (is_AsyncEngineArgs sb).
    - revert Hs3.
      destruct (negb (is_AsyncEngineArgs sb) && VLLM_CI_USE_S3 (envs w)
                && str_in (model (self sb)) (MODELS_ON_S3 w)
                && (load_format (self sb) =? LoadFormat_AUTO w)%string);
        intros Hs3; follow; reflexivity.
    - revert Hgguf. destruct (check_gguf_file w (model (self st)));
        intros Hgguf; follow; reflexivity. }
  unfold create_model_config.
  eapply stable_bind; [apply stable_get_self | cbv beta].
  eapply stable_bind.
  { rewrite Am. unfold load_format_for_file in Al.
    destruct (check_gguf_file w (model (self st))).
    - eapply stable_bind;
        [apply stable_assign, set_quantization_same, Aq | cbv beta].
      apply stable_assign, set_load_format_same, Al.
    - apply stable_ret. }
  cbv beta.
  eapply stable_bind; [apply stable_get_self | cbv beta].
  eapply stable_bind; [apply stable_isinstance | cbv beta].
  eapply stable_bind.
  { rewrite Am, Al. unfold loads_from_S3 in HS3. rewrite HS3.
    apply stable_ret. }
  cbv beta. rewrite Hrest, <- Hasync.
  refine (stable_run _ sc mc st1 _ H Hrest). uniform_go.
Qed.

(** ** The oracle, again *)

(** Without [VLLM_USE_V1] the oracle always answers: [True] exactly when no
    rule applies. *)
Lemma _is_v1_supported_oracle_returns w model_config st :
  VLLM_USE_V1 (envs w) = false ->
  exists d,
    _is_v1_supported_oracle w model_config st
    = (Return
         (negb (any (unsupported_conditions w model_config (self st)))
          && negb (any (experimental_conditions w model_config (self st)))),
       with_events d st).
Proof.
  intros Hv1.
  unfold _is_v1_supported_oracle, unsupported_conditions.
  unfold bind, get_self. cbv beta iota zeta.
  unfold any at 1. cbn [existsb].
  repeat match goal with
         | |- context [unsupported w ?c ?f ?r ?rest] =>
             destruct c;
             [ cbn [orb negb andb];
               pose proof (unsupported_hit w f r rest st) as F;
               rewrite Hv1 in F; destruct F as [msg F];
               exists [Log WARNING msg]; exact F
             | rewrite unsupported_miss; cbn [orb] ]
         end.
  cbn [negb andb].
  match goal with
  | |- exists d, ?m st = _ =>
      assert (G : falls_back_info
                    (any (experimental_conditions w model_config (self st)))
                    m)
  end.
  { unfold any, experimental_conditions. cbn [existsb].
    do 5 (apply (experimental_falls_back_info w _ _ _ _ Hv1)).
    apply falls_back_info_ret. }
  specialize (G st).
  destruct (any (experimental_conditions w model_config (self st))).
  - destruct G as [msg G]. exists [Log INFO msg]. exact G.
  - exists []. rewrite G. unfold with_events. rewrite app_nil_r.
    destruct st. reflexivity.
Qed.

(** On a CPU, the oracle answers after the clamp of [num_scheduler_steps]
    what it answered before: V0, then for the multi-step request, now for
    the platform. *)
Lemma _is_v1_supported_oracle_after_clamp w model_config S a supported :
  stable S a (_is_v1_supported_oracle w model_config) supported ->
  1 < num_scheduler_steps S ->
  is_cuda (current_platform w) = false ->
  stable (set_num_scheduler_steps 1 S) a
    (_is_v1_supported_oracle w model_config) supported.
Proof.
  intros Hs Hsteps Hcuda.
  destruct (Hs []) as [ev0 H0].
  assert (HU : any (unsupported_conditions w model_config S) = true).
  { unfold any, unsupported_conditions. cbv zeta. apply existsb_exists.
    exists (negb (num_scheduler_steps S
                  =? num_scheduler_steps EngineArgs_default)).
    split; [cbn; tauto |].
    change (num_scheduler_steps EngineArgs_default) with 1.
    apply negb_true_iff, Z.eqb_neq. lia. }
  pose proof (_is_v1_supported_oracle_answer _ _ _ _ _ H0) as Hans.
  cbn [self mk_state] in Hans. rewrite HU in Hans. cbn [negb andb] in Hans.
  subst supported.
  destruct (VLLM_USE_V1 (envs w)) eqn:Hv1.
  { pose proof (oracle_answer_under_V1 _ _ _ _ _ H0 Hv1) as Ht.
    discriminate Ht. }
  intros ev.
  destruct (_is_v1_supported_oracle_returns w model_config
              (mk_state (set_num_scheduler_steps 1 S) a ev) Hv1)
    as [d Hd].
  exists (ev ++ d)%list. rewrite Hd. cbn [self mk_state].
  replace (any (experimental_conditions w model_config
                  (set_num_scheduler_steps 1 S))) with true.
  - rewrite andb_false_r. reflexivity.
  - symmetry. unfold any, experimental_conditions. apply existsb_exists.
    exists (negb (is_cuda (current_platform w))).
    split; [cbn; tauto |]. rewrite Hcuda. reflexivity.
Qed.

(** A method that is uniform in the log leaves the class of the object
    alone. *)
Lemma uniform_is_AsyncEngineArgs {A : Type} (m : M A) st r st1 :
  uniform m -> m st = (r, st1) ->
  is_AsyncEngineArgs st1 = is_AsyncEngineArgs st.
Proof.
  intros Hu H. destruct st as [s a ev].
  destruct (Hu s a) as (r0 & s1 & d & Hrun).
  change (m (mk_state s a ev) = (r, st1)) in H.
  rewrite Hrun in H. injection H as _ <-. reflexivity.
Qed.

(** ** The defaults of the engine, again *)

(** The V1 defaults have been given: chunked prefill is on, and a limit is
    unset only if there is no default for it. *)
Lemma _set_default_args_v1_again w uc st st1 :
  _set_default_args_v1 w uc st = (Return tt, st1) ->
  stable (self st1) (is_AsyncEngineArgs st) (_set_default_args_v1 w uc) tt.
Proof.
  unfold _set_default_args_v1. cbv zeta.
  set (table := if _ : bool then _ else _).
  set (value := match uc with Some u => _ | None => _ end).
  intros H.
  assert (F : enable_chunked_prefill (self st1) = Some true
              /\ max_num_seqs (self st1) <> None
              /\ (max_num_batched_tokens (self st1) = None ->
                  usage_lookup uc table = None)).
  { apply bind_Return_inv in H. destruct H as ([] & sa & Ha & H).
    apply assign_inv in Ha. destruct Ha as [_ ->].
    apply bind_Return_inv in H. destruct H as (s & sb & Hs & H).
    apply get_self_inv in Hs. destruct Hs as [Hs ->].
    injection Hs as Hs. subst s. cbn [self] in H.
    apply bind_Return_inv in H. destruct H as ([] & sc & Hb & H).
    apply bind_Return_inv in H. destruct H as (s & sd & Hs & H).
    apply get_self_inv in Hs. destruct Hs as [Hs ->].
    injection Hs as Hs. subst s.
    assert (Hc : enable_chunked_prefill (self sc) = Some true
                 /\ (max_num_batched_tokens (self sc) = None ->
                     usage_lookup uc table = None)).
    { revert Hb.
      destruct (max_num_batched_tokens
                  (set_enable_chunked_prefill (Some true) (self st)))
        as [n |] eqn:Hn; cbn [is_None].
      - intros Hb. follow. cbn [self]. split; [reflexivity |].
        rewrite Hn. discriminate.
      - destruct (usage_lookup uc table) as [n |]; intros Hb; follow;
          cbn [self]; (split; [reflexivity |]);
          [discriminate | reflexivity]. }
    destruct Hc as [Hc1 Hc2]. revert H.
    destruct (max_num_seqs (self sc)) as [n |] eqn:Hn; cbn [is_None];
      intros H; follow; cbn [self].
    - rewrite Hn. repeat split; [exact Hc1 | discriminate | exact Hc2].
    - repeat split; [exact Hc1 | discriminate | exact Hc2]. }
  destruct F as (F1 & F2 & F3).
  eapply stable_bind;
    [apply stable_assign, set_enable_chunked_prefill_same, F1 | cbv beta].
  eapply stable_bind; [apply stable_get_self | cbv beta].
  eapply stable_bind.
  { destruct (max_num_batched_tokens (self st1)) as [n |]; cbn [is_None];
      [| rewrite (F3 eq_refl)]; apply stable_ret. }
  cbv beta.
  eapply stable_bind; [apply stable_get_self | cbv beta].
  destruct (max_num_seqs (self st1)) as [n |]; cbn [is_None];
    [apply stable_ret | contradiction].
Qed.

(** The V0 defaults have been given: chunked prefill is decided and was
    accepted, prefix caching is off for a multimodal model, and the number
    of sequences is set. *)
Lemma _set_default_args_v0_again w model_config st st1 :
  _set_default_args_v0 w model_config st = (Return tt, st1) ->
  stable (self st1) (is_AsyncEngineArgs st)
    (_set_default_args_v0 w model_config) tt.
Proof.
  intros H.
  pose proof (_set_default_args_v0_Return _ _ _ _ H) as (F1 & F2 & _ & F4).
  assert (F3 : truthy_bool (enable_chunked_prefill (self st1))
               && (ModelConfig.runner_type model_config =? "pooling")%string
               = false).
  { unfold _set_default_args_v0 in H. cbv zeta in H.
    apply bind_Return_inv in H. destruct H as (s & sa & Hs & H).
    apply get_self_inv in Hs. destruct Hs as [Hs ->].
    injection Hs as Hs. subst s.
    apply bind_Return_inv in H. destruct H as (u1 & sb & Hecp & H).
    apply bind_Return_inv in H. destruct H as (s & sa & Hs & H).
    apply get_self_inv in Hs. destruct Hs as [Hs ->].
    injection Hs as Hs. subst s.
    apply bind_Return_inv in H. destruct H as (u2 & sc & Hchk & H).
    assert (Hk : enable_chunked_prefill (self st1)
                 = enable_chunked_prefill (self sc)).
    { refine ((_ : keeps enable_chunked_prefill _) _ _ _ H). frame_go. }
    assert (Hc : self sc = self sb).
    { refine ((_ : pure _) _ _ _ Hchk). frame_go. }
    rewrite Hk, Hc. revert Hchk.
    destruct (truthy_bool (enable_chunked_prefill (self sb)));
      cbn [negb andb]; [| reflexivity].
    destruct (ModelConfig.runner_type model_config =? "pooling")%string;
      [| reflexivity].
    intros Hchk. follow. }
  unfold _set_default_args_v0. cbv zeta.
  eapply stable_bind; [apply stable_get_self | cbv beta].
  eapply stable_bind.
  { rewrite F1. cbn [is_None]. apply stable_ret. }
  cbv beta.
  eapply stable_bind; [apply stable_get_self | cbv beta].
  eapply stable_bind.
  { rewrite F3.
    destruct (negb (truthy_bool (enable_chunked_prefill (self st1)))
              && (32768 <? ModelConfig.max_model_len model_config));
      [apply stable_emit | apply stable_ret]. }
  cbv beta.
  eapply stable_bind; [apply stable_get_self | cbv beta].
  eapply stable_bind.
  { replace (ModelConfig.is_multimodal_model model_config
             && truthy_bool (enable_prefix_caching (self st1)))
      with false; [apply stable_ret |].
    symmetry. rewrite F4.
    destruct (ModelConfig.is_multimodal_model model_config
              && truthy_bool (enable_prefix_caching (self st))) eqn:E;
      [| exact E].
    cbn. apply andb_false_r. }
  cbv beta.
  eapply stable_bind; [apply stable_get_self | cbv beta].
  rewrite F2. cbn [is_None]. apply stable_ret.
Qed.

Lemma _set_default_args_v0_insensitive w model_config T :
  insensitive (after_runtime T) (_set_default_args_v0 w model_config).
Proof. unfold _set_default_args_v0. cbv zeta. insensitive_go. Qed.

Lemma _set_default_args_v1_insensitive w uc T :
  insensitive (after_runtime T) (_set_default_args_v1 w uc).
Proof. unfold _set_default_args_v1. cbv zeta. insensitive_go. Qed.

(** ** The scheduler and the load configuration, again *)

Lemma check_multi_step_again w speculative_config st st1 :
  check_multi_step w speculative_config st = (Return tt, st1) ->
  stable (self st1) (is_AsyncEngineArgs st)
    (check_multi_step w speculative_config) tt.
Proof.
  unfold check_multi_step. intros H.
  apply bind_Return_inv in H. destruct H as (s & sa & Hs & H).
  apply get_self_inv in Hs. destruct Hs as [Hs ->].
  injection Hs as Hs. subst s.
  eapply stable_bind; [apply stable_get_self | cbv beta].
  revert H.
  destruct (1 <? num_scheduler_steps (self st)) eqn:Hsteps.
  - destruct (is_not_None speculative_config); [intros H; follow |].
    destruct (truthy_bool (enable_chunked_prefill (self st))
              && (1 <? pipeline_parallel_size (self st))) eqn:Hpp;
      [intros H; follow |].
    destruct (is_cpu (current_platform w)) eqn:Hcpu; intros H; follow;
      cbn [self].
    + change (num_scheduler_steps
                (set_num_scheduler_steps 1 (self st))) with 1.
      cbn. apply stable_ret.
    + rewrite Hsteps, Hpp. cbn. apply stable_ret.
  - intros H. follow. rewrite Hsteps. apply stable_ret.
Qed.

Lemma build_scheduler_again w l2 st2 l3 st3 :
  build_scheduler w l2 st2 = (Return l3, st3) ->
  stable (self st3) (is_AsyncEngineArgs st2) (build_scheduler w l2) l3.
Proof.
  unfold build_scheduler. cbv zeta. intros H.
  apply bind_Return_inv in H. destruct H as ([] & sa & Hc & H).
  assert (Hs : self st3 = self sa).
  { refine ((_ : pure _) _ _ _ H). frame_go. }
  assert (Ha : is_AsyncEngineArgs sa = is_AsyncEngineArgs st2).
  { exact (uniform_is_AsyncEngineArgs _ _ _ _
             (check_multi_step_uniform w _) Hc). }
  rewrite Hs.
  eapply stable_bind; [exact (check_multi_step_again _ _ _ _ Hc) |].
  cbv beta. rewrite <- Ha.
  refine (stable_run _ sa l3 st3 _ H Hs). uniform_go.
Qed.

Lemma build_scheduler_insensitive w l T :
  insensitive (after_load_check T) (build_scheduler w l).
Proof.
  unfold build_scheduler, check_multi_step. cbv zeta. insensitive_go.
Qed.

Lemma dict_setitem_again d k v :
  dict_setitem (dict_setitem d k v) k v = dict_setitem d k v.
Proof.
  induction d as [| [k' v'] r IH]; cbn.
  - rewrite String.eqb_refl. reflexivity.
  - destruct (String.eqb k' k) eqn:E; cbn; rewrite E; [reflexivity |].
    rewrite IH. reflexivity.
Qed.

(** Recording the QLoRA adapter path where it is recorded changes
    nothing. *)
Lemma recorded_extra_config_again s :
  recorded_extra_config
    (set_model_loader_extra_config (recorded_extra_config s) s)
  = recorded_extra_config s.
Proof.
  unfold recorded_extra_config.
  change (qlora_adapter_name_or_path (set_model_loader_extra_config ?v s))
    with (qlora_adapter_name_or_path s).
  change (model_loader_extra_config (set_model_loader_extra_config ?v s))
    with v.
  destruct (qlora_adapter_name_or_path s) as [path |]; [| reflexivity].
  destruct (negb (path =? "")%string); [| reflexivity].
  cbn [default_to]. rewrite dict_setitem_again. reflexivity.
Qed.

(** [build_load] has returned only if the [LoRAConfig] constructor accepted
    its arguments. *)
Lemma build_load_Return_lora w l3 st3 l4 st4 :
  build_load w l3 st3 = (Return l4, st4) ->
  enable_lora (self st3) = true ->
  LoRAConfig_init w (requested_lora_config (self st3)) = None.
Proof.
  unfold build_load, requested_lora_config. intros H Hl.
  apply bind_Return_inv in H. destruct H as (s & sa & Hs & H).
  apply get_self_inv in Hs. destruct Hs as [Hs ->].
  injection Hs as Hs. subst s. rewrite Hl in H.
  apply bind_Return_inv in H. destruct H as (lc & sl & Hc & _).
  apply bind_Return_inv in Hc. destruct Hc as (c & sc & Hc & _).
  apply construct_Return_inv in Hc. destruct Hc as (_ & Hc & _).
  exact Hc.
Qed.

Lemma build_load_again w l3 st3 l4 st4 :
  build_load w l3 st3 = (Return l4, st4) ->
  stable (self st4) (is_AsyncEngineArgs st3) (build_load w l3) l4.
Proof.
  intros H.
  pose proof (build_load_Return_lora _ _ _ _ _ H) as Hlora.
  destruct (build_load_at_check w l3 st3 Hlora) as (sq & Hb & Hs & Ha & _).
  rewrite Hb in H.
  apply bind_Return_inv in H. destruct H as (lc & s4 & Hc & H).
  apply ret_inv in H. destruct H as [H ->]. injection H as H. subst l4.
  assert (Hp : self s4 = self sq).
  { exact (create_load_config_keeps (fun s => s) w _ _ _ Hc). }
  pose proof (stable_run _ _ _ _ (create_load_config_uniform w) Hc Hp)
    as Hstable.
  rewrite Hp. rewrite Ha in Hstable.
  intros ev.
  destruct (build_load_at_check w l3
              (mk_state (self sq) (is_AsyncEngineArgs st3) ev))
    as (sq' & Hb' & Hs' & Ha' & _).
  { cbn [self mk_state]. rewrite Hs. exact Hlora. }
  cbn [self is_AsyncEngineArgs mk_state] in Hs', Ha'.
  assert (Hsq' : self sq' = self sq).
  { rewrite Hs', Hs. rewrite recorded_extra_config_again.
    apply set_model_loader_extra_config_same. reflexivity. }
  destruct (Hstable (events sq')) as [ev' Hrun].
  exists ev'. rewrite Hb'. cbn [self mk_state].
  destruct sq' as [s' a' e']. cbn [self is_AsyncEngineArgs events] in *.
  subst s' a'. rewrite Hsq'. unfold bind. unfold mk_state in Hrun.
  rewrite Hrun.
  unfold ret. rewrite Hs. reflexivity.
Qed.

(** ** The choice of the engine, again *)

(** The attributes assigned after the model configuration is built, and
    those among them that the oracle does not read: taken from [T]. *)
Definition after_oracle (T s : EngineArgs) : EngineArgs :=
  set_model_loader_extra_config (model_loader_extra_config T)
    (set_enable_chunked_prefill (enable_chunked_prefill T)
       (set_enable_prefix_caching (enable_prefix_caching T)
          (set_max_num_seqs (max_num_seqs T)
             (set_max_num_batched_tokens (max_num_batched_tokens T) s)))).

Definition after_model_config (T s : EngineArgs) : EngineArgs :=
  set_num_scheduler_steps (num_scheduler_steps T) (after_oracle T s).

Lemma after_model_config_same T : after_model_config T T = T.
Proof. destruct T. reflexivity. Qed.

Lemma create_model_config_insensitive w T :
  insensitive (after_model_config T) (create_model_config w).
Proof. unfold create_model_config. cbv zeta. insensitive_go. Qed.

Lemma _is_v1_supported_oracle_insensitive w model_config T :
  insensitive (after_oracle T) (_is_v1_supported_oracle w model_config).
Proof.
  unfold _is_v1_supported_oracle. cbv zeta.
  apply insensitive_get_self; [intro; reflexivity | intro s].
  unfold unsupported, experimental, _raise_or_warning, _experimental_warning,
    _fallback_info.
  cbv zeta. insensitive_go.
Qed.

Lemma choose_runtime_again w uc st l1 st1 S :
  choose_runtime w uc st = (Return l1, st1) ->
  loads_from_S3 w (is_AsyncEngineArgs st) (self st) = false ->
  (is_cpu (current_platform w) = true ->
   is_cuda (current_platform w) = false) ->
  after_runtime S (self st1) = S ->
  num_scheduler_steps S = num_scheduler_steps (self st1)
  \/ (1 < num_scheduler_steps (self st1)
      /\ is_cpu (current_platform w) = true
      /\ num_scheduler_steps S = 1) ->
  stable S (is_AsyncEngineArgs st) (choose_runtime w uc) l1.
Proof.
  intros H HS3 Hplatform HS Hsteps.
  assert (Hdev : device S = device (self st)).
  { rewrite <- HS.
    exact (choose_runtime_keeps device
             (fun _ _ => eq_refl) (fun _ _ => eq_refl) (fun _ _ => eq_refl)
             (fun _ _ => eq_refl) (fun _ _ => eq_refl) (fun _ _ => eq_refl)
             (fun _ _ => eq_refl) w uc _ _ _ H). }
  unfold choose_runtime in H.
  apply bind_Return_inv in H. destruct H as (u0 & sa & Hp & H).
  apply lift_inv in Hp. destruct Hp as [Hp ->].
  apply bind_Return_inv in H. destruct H as (s & sa & Hs & H).
  apply get_self_inv in Hs. destruct Hs as [Hs ->].
  injection Hs as Hs. subst s.
  apply bind_Return_inv in H. destruct H as (dc & sd & Hd & H).
  apply construct_Return_inv in Hd.
  destruct Hd as (-> & Hdc & Hd1 & Hd2 & _).
  apply bind_Return_inv in H. destruct H as (mc & sm & Hm & H).
  apply bind_Return_inv in H. destruct H as (supported & so & Ho & H).
  apply bind_Return_inv in H. destruct H as (v1 & su & Hu & H).
  apply bind_Return_inv in H. destruct H as (u1 & sv & Ha & H).
  apply bind_Return_inv in H. destruct H as ([] & sw & Hdef & H).
  apply ret_inv in H. destruct H as [H ->]. injection H as H. subst l1.
  (* the class of the object, all along *)
  assert (Am : is_AsyncEngineArgs sm = is_AsyncEngineArgs st).
  { rewrite <- Hd2.
    exact (uniform_is_AsyncEngineArgs _ _ _ _
             (create_model_config_uniform w) Hm). }
  assert (Ao : is_AsyncEngineArgs so = is_AsyncEngineArgs st).
  { rewrite <- Am.
    exact (uniform_is_AsyncEngineArgs _ _ _ _
             (_is_v1_supported_oracle_uniform w mc) Ho). }
  assert (Au : is_AsyncEngineArgs su = is_AsyncEngineArgs st).
  { rewrite <- Ao.
    refine (uniform_is_AsyncEngineArgs _ _ _ _ _ Hu). uniform_go. }
  assert (Av : is_AsyncEngineArgs sv = is_AsyncEngineArgs st).
  { rewrite <- Au.
    refine (uniform_is_AsyncEngineArgs _ _ _ _ _ Ha). uniform_go. }
  (* the attributes, from one step to the next *)
  assert (So : self so = self sm)
    by exact (_is_v1_supported_oracle_pure _ _ _ _ _ Ho).
  assert (Su : self su = self so).
  { refine ((_ : pure _) _ _ _ Hu). frame_go. }
  assert (Sv : self sv = self su).
  { refine ((_ : pure _) _ _ _ Ha). frame_go. }
  assert (Kdef : forall (B : Type) (f : EngineArgs -> B),
             (forall v s, f (set_enable_chunked_prefill v s) = f s) ->
             (forall v s, f (set_enable_prefix_caching v s) = f s) ->
             (forall v s, f (set_max_num_seqs v s) = f s) ->
             (forall v s, f (set_max_num_batched_tokens v s) = f s) ->
             f (self sw) = f (self sm)).
  { intros B f F1 F2 F3 F4. rewrite <- So, <- Su, <- Sv.
    destruct v1.
    - exact (_set_default_args_v1_keeps f F1 F3 F4 w uc _ _ _ Hdef).
    - exact (_set_default_args_v0_keeps f F1 F2 F3 w mc _ _ _ Hdef). }
  assert (HSm : after_model_config S (self sm) = S).
  { rewrite <- (Kdef _ (after_model_config S)) by reflexivity.
    transitivity (after_model_config S (after_runtime S (self sw)));
      [reflexivity |].
    rewrite HS. apply after_model_config_same. }
  unfold choose_runtime.
  eapply stable_bind; [apply stable_lift; symmetry; exact Hp | cbv beta].
  eapply stable_bind; [apply stable_get_self | cbv beta].
  rewrite Hdev.
  eapply stable_bind; [apply stable_construct, Hdc | cbv beta].
  eapply stable_bind.
  { rewrite <- HSm. apply stable_insensitive.
    - apply create_model_config_insensitive.
    - rewrite <- Hd2. apply (create_model_config_again _ _ _ _ Hm).
      rewrite Hd1, Hd2. exact HS3. }
  cbv beta.
  eapply stable_bind.
  { assert (Hstable : stable (after_oracle S (self sm))
                        (is_AsyncEngineArgs st)
                        (_is_v1_supported_oracle w mc) supported).
    { apply stable_insensitive;
        [apply _is_v1_supported_oracle_insensitive |].
      rewrite <- Am.
      exact (stable_run _ _ _ _ (_is_v1_supported_oracle_uniform w mc)
               Ho So). }
    assert (Hn : num_scheduler_steps (self sw)
                 = num_scheduler_steps (self sm))
      by (apply (Kdef _ num_scheduler_steps); reflexivity).
    rewrite <- HSm.
    change (after_model_config S (self sm))
      with (set_num_scheduler_steps (num_scheduler_steps S)
              (after_oracle S (self sm))).
    destruct Hsteps as [Hsame | (Hmulti & Hcpu & Hone)].
    - rewrite set_num_scheduler_steps_same; [exact Hstable |].
      rewrite Hsame, Hn. reflexivity.
    - rewrite Hone.
      apply _is_v1_supported_oracle_after_clamp;
        [exact Hstable | | exact (Hplatform Hcpu)].
      change (1 < num_scheduler_steps (self sm)). rewrite <- Hn.
      exact Hmulti. }
  cbv beta.
  eapply stable_bind.
  { revert Hu. destruct supported; cbv zeta.
    - destruct (VLLM_USE_V1 (envs w)
                || negb (is_set_VLLM_USE_V1 (envs w))
                   && VLLM_USE_V1_BY_DEFAULT (envs w));
        intros Hu; follow.
      + apply stable_ret.
      + eapply stable_bind; [apply stable_emit | apply stable_ret].
    - intros Hu. follow. apply stable_ret. }
  cbv beta.
  eapply stable_bind.
  { revert Ha. destruct (is_set_VLLM_USE_V1 (envs w)).
    - destruct (Bool.eqb v1 (VLLM_USE_V1 (envs w)));
        intros Ha; follow; apply stable_ret.
    - intros Ha. follow. apply stable_ret. }
  cbv beta.
  eapply stable_bind; [| apply stable_ret].
  rewrite <- HS. apply stable_insensitive.
  - destruct v1;
      [apply _set_default_args_v1_insensitive
      | apply _set_default_args_v0_insensitive].
  - rewrite <- Av. destruct v1.
    + exact (_set_default_args_v1_again _ _ _ _ Hdef).
    + exact (_set_default_args_v0_again _ _ _ _ Hdef).
Qed.

(** ** Resolution, again *)

Lemma after_runtime_same T : after_runtime T T = T.
Proof. destruct T. reflexivity. Qed.

Lemma after_load_check_same T : after_load_check T T = T.
Proof. destruct T. reflexivity. Qed.


